(** * Container-image build orchestration of version-control-tools

    A shallow embedding of [testing/vcttesting/docker.py] (and the pool-size
    helper of [testing/vcttesting/util.py]).  Python values are modelled as
    the code handles them: strings as [string], the durable state dictionary
    as a typed record, exceptions as values of [exn] carried by [result].
    Calls to the Docker daemon, the network and the file system are recorded
    as events so that statements can speak about what was (not) requested. *)

From stdpp Require Import gmap strings list fin_maps.
From Stdlib Require Import Ascii QArith.

#[local] Set Warnings "-clear-no-such-hyp".

Local Open Scope string_scope.
Local Open Scope Z_scope.

(** ** Python exceptions and results *)

(** The exception classes the module raises or lets through.
    [KeyboardInterrupt] stands for the [BaseException]s that are not
    subclasses of [Exception]. *)
Inductive exn : Type :=
| Exception (msg : string)
| ValueError (msg : string)
| RuntimeError (msg : string)
| KeyError (key : string)
| OSError (errno : Z)
| IOError (errno : Z)
| DockerAPIError (status : Z)
| KeyboardInterrupt.

(** [isinstance(e, Exception)], the test behind [except Exception:]. *)
Definition is_Exception (e : exn) : bool :=
  match e with
  | KeyboardInterrupt => false
  | _ => true
  end.

Inductive result (A : Type) : Type :=
| Return (a : A)
| Raise (e : exn).
Arguments Return {A} a.
Arguments Raise {A} e.

#[global] Instance result_ret : MRet result := fun A a => Return a.

#[global] Instance result_bind : MBind result := fun A B k r =>
  match r with
  | Return a => k a
  | Raise e => Raise e
  end.

(** ** Strings as Python 2 [str] *)

Module Str.

(** [s.startswith(p)] *)
Definition startswith (s p : string) : bool := String.prefix p s.

Fixpoint rev_string (s : string) : string :=
  match s with
  | EmptyString => EmptyString
  | String a s' => rev_string s' +:+ String a EmptyString
  end.

(** [s.endswith(p)] *)
Definition endswith (s p : string) : bool :=
  String.prefix (rev_string p) (rev_string s).

(** [s[n:]] *)
Fixpoint drop (n : nat) (s : string) : string :=
  match n, s with
  | O, _ => s
  | S n', String _ s' => drop n' s'
  | S _, EmptyString => EmptyString
  end.

(** [s[0:n]] *)
Definition take (n : nat) (s : string) : string := String.substring 0 n s.

(** [s.split(c)]: every occurrence of [c] separates two fields. *)
Fixpoint split (c : ascii) (s : string) : list string :=
  match s with
  | EmptyString => [EmptyString]
  | String a s' =>
      if Ascii.eqb a c then EmptyString :: split c s'
      else match split c s' with
           | h :: t => String a h :: t
           | [] => [String a EmptyString]
           end
  end.

(** [s.split(c, n)]: at most [n] splits, the rest is kept whole. *)
Fixpoint splitn (c : ascii) (n : nat) (s : string) : list string :=
  match n with
  | O => [s]
  | S n' =>
      match s with
      | EmptyString => [EmptyString]
      | String a s' =>
          if Ascii.eqb a c then EmptyString :: splitn c n' s'
          else match splitn c n s' with
               | h :: t => String a h :: t
               | [] => [String a EmptyString]
               end
      end
  end.

(** Truth value of a string: the empty string is false. *)
Definition truthy (s : string) : bool :=
  match s with
  | EmptyString => false
  | _ => true
  end.

(** [c in s] *)
Fixpoint contains (c : ascii) (s : string) : bool :=
  match s with
  | EmptyString => false
  | String a s' => Ascii.eqb a c || contains c s'
  end.

End Str.

(** Truth value of an optional argument: [None] and [''] are false. *)
Definition supplied (o : option string) : bool :=
  match o with
  | Some s => Str.truthy s
  | None => false
  end.

(** [a, b = l]: tuple unpacking of a list into two names. *)
Definition unpack2 (l : list string) : result (string * string) :=
  match l with
  | [a; b] => Return (a, b)
  | [] => Raise (ValueError "need more than 0 values to unpack")
  | [_] => Raise (ValueError "need more than 1 value to unpack")
  | _ => Raise (ValueError "too many values to unpack")
  end.

Definition colon : ascii := ":"%char.

(** ** Transactional rollback guard: [docker_rollback_on_error] *)

Module Rollback.

(** The class of the client object.  Entering a scope defines a new
    subclass of the client's current class; [scope] names the pair of sets
    [created_containers], [created_networks] that the subclass closes over. *)
Inductive pyclass : Type :=
| DockerClient
| ProxiedDockerClient (scope : nat) (base : pyclass).

Record tracked : Type := Tracked {
  created_containers : gset string;
  created_networks : gset string
}.

Definition no_tracked : tracked := Tracked ∅ ∅.

Definition add_container (cid : string) (t : tracked) : tracked :=
  Tracked ({[cid]} ∪ created_containers t) (created_networks t).

Definition add_network (nid : string) (t : tracked) : tracked :=
  Tracked (created_containers t) ({[nid]} ∪ created_networks t).

(** Removal requests sent to the daemon. *)
Inductive call : Type :=
| remove_container (cid : string)  (* remove_container(cid, v=True, force=True) *)
| remove_network (nid : string).

Record client : Type := Client {
  class_ : pyclass;               (* client.__class__ *)
  closures : gmap nat tracked;    (* the sets captured by each proxy class *)
  next_scope : nat;               (* number of proxy classes defined so far *)
  calls : list call               (* removal requests made, oldest first *)
}.

(** What the code inside the scope does with the client, with the answer of
    the underlying client for each creation. *)
Inductive op : Type :=
| do_create_container (res : result string)
| do_create_network (res : result string)
| do_raise (e : exn).

(** Method resolution of [create_container] on an object of class [c] whose
    underlying call returned [{'Id': cid}]: every proxy class in the chain
    records the id after its [super] call returned. *)
Fixpoint track_container (c : pyclass) (cid : string)
    (cl : gmap nat tracked) : gmap nat tracked :=
  match c with
  | DockerClient => cl
  | ProxiedDockerClient s base =>
      alter (add_container cid) s (track_container base cid cl)
  end.

Fixpoint track_network (c : pyclass) (nid : string)
    (cl : gmap nat tracked) : gmap nat tracked :=
  match c with
  | DockerClient => cl
  | ProxiedDockerClient s base =>
      alter (add_network nid) s (track_network base nid cl)
  end.

Definition set_closures (cl : gmap nat tracked) (c : client) : client :=
  Client (class_ c) cl (next_scope c) (calls c).

Definition set_class (k : pyclass) (c : client) : client :=
  Client k (closures c) (next_scope c) (calls c).

Definition log_call (x : call) (c : client) : client :=
  Client (class_ c) (closures c) (next_scope c) (calls c ++ [x]).

(** One operation on the client; [Some e] when it raises. *)
Definition run_op (o : op) (c : client) : option exn * client :=
  match o with
  | do_create_container (Return cid) =>
      (None, set_closures (track_container (class_ c) cid (closures c)) c)
  | do_create_network (Return nid) =>
      (None, set_closures (track_network (class_ c) nid (closures c)) c)
  | do_create_container (Raise e) | do_create_network (Raise e)
  | do_raise e => (Some e, c)
  end.

(** The body of the [with] block, up to its first exception. *)
Fixpoint run_ops (ops : list op) (c : client) : option exn * client :=
  match ops with
  | [] => (None, c)
  | o :: rest =>
      match run_op o c with
      | (Some e, c') => (Some e, c')
      | (None, c') => run_ops rest c'
      end
  end.

(** Entering the scope: a new proxy class with empty sets becomes the
    class of the client. *)
Definition entered (c : client) : client :=
  Client (ProxiedDockerClient (next_scope c) (class_ c))
         (<[next_scope c := no_tracked]> (closures c))
         (S (next_scope c)) (calls c).

Section Daemon.

(** The daemon's answer to a removal request: [Some e] when it fails. *)
Variable remove_error : call -> option exn.

(** The order in which [for c in created_containers] and
    [for n in created_networks] visit their sets.  Python does not
    specify it. *)
Variable container_order : gset string -> list string.
Variable network_order : gset string -> list string.

(** [for x in ids: client.remove_...(x)]: the loop stops at the first
    request that raises. *)
Fixpoint remove_each (mk : string -> call) (ids : list string)
    (c : client) : option exn * client :=
  match ids with
  | [] => (None, c)
  | x :: rest =>
      match remove_error (mk x) with
      | Some e => (Some e, log_call (mk x) c)
      | None => remove_each mk rest (log_call (mk x) c)
      end
  end.

(** The [except Exception:] block. *)
Definition rollback (s : nat) (e : exn) (c : client) : option exn * client :=
  let t := default no_tracked (closures c !! s) in
  match remove_each remove_container
          (container_order (created_containers t)) c with
  | (Some e', c') => (Some e', c')
  | (None, c') =>
      match remove_each remove_network
              (network_order (created_networks t)) c' with
      | (Some e', c'') => (Some e', c'')
      | (None, c'') => (Some e, c'')
      end
  end.

(** The context manager around the block [body]. *)
Definition docker_rollback_on_error (body : list op) (c : client)
    : option exn * client :=
  let old_class := class_ c in
  let '(out, c2) :=
    match run_ops body (entered c) with
    | (Some e, c2) =>
        if is_Exception e then rollback (next_scope c) e c2 else (Some e, c2)
    | (None, c2) => (None, c2)
    end in
  (out, set_class old_class c2).

End Daemon.

(** An iteration order visits every element of the set once. *)
Definition visits_once (order : gset string -> list string) : Prop :=
  forall s, order s ≡ₚ elements s.

(** Ids returned by the successful creations of the block, up to its first
    exception. *)
Fixpoint containers_created (ops : list op) : list string :=
  match ops with
  | do_create_container (Return cid) :: rest => cid :: containers_created rest
  | do_create_network (Return _) :: rest => containers_created rest
  | _ => []
  end.

Fixpoint networks_created (ops : list op) : list string :=
  match ops with
  | do_create_network (Return nid) :: rest => nid :: networks_created rest
  | do_create_container (Return _) :: rest => networks_created rest
  | _ => []
  end.

(** The exception that ends the block, if any. *)
Fixpoint raised (ops : list op) : option exn :=
  match ops with
  | [] => None
  | do_create_container (Return _) :: rest
  | do_create_network (Return _) :: rest => raised rest
  | do_create_container (Raise e) :: _ | do_create_network (Raise e) :: _
  | do_raise e :: _ => Some e
  end.

(** The removals the [except] block goes through for a block [ops]:
    the created containers, then the created networks. *)
Definition requests (container_order network_order : gset string -> list string)
    (ops : list op) : list call :=
  (map remove_container
       (container_order (list_to_set (containers_created ops)))
   ++ map remove_network
       (network_order (list_to_set (networks_created ops))))%list.

(** The scopes whose proxy classes are in the chain of [c]. *)
Fixpoint scopes (c : pyclass) : list nat :=
  match c with
  | DockerClient => []
  | ProxiedDockerClient s base => s :: scopes base
  end.

(** A daemon that refuses to remove containers, one that accepts every
    removal, a client before any scope, and a block that creates a
    container and a network and then fails. *)
Definition refusing (x : call) : option exn :=
  match x with
  | remove_container _ => Some (DockerAPIError 500)
  | remove_network _ => None
  end.

Definition accepting (x : call) : option exn := None.

Definition fresh_client : client := Client DockerClient ∅ 0 [].

Definition failing_block : list op :=
  [do_create_container (Return "c1"); do_create_network (Return "n1");
   do_raise (Exception "boom")].

(** A block that creates two containers and a network before it fails,
    and a daemon that refuses to remove the second container. *)
Definition two_containers : list op :=
  [do_create_container (Return "c1"); do_create_container (Return "c2");
   do_create_network (Return "n1"); do_raise (Exception "boom")].

Definition refusing_second (x : call) : option exn :=
  match x with
  | remove_container "c2" => Some (DockerAPIError 409)
  | _ => None
  end.

End Rollback.

(** ** Images as the daemon lists them *)

(** One entry of [api_client.images()]. *)
Record image : Type := Image {
  Id : string;
  Created : Z;
  RepoTags : option (list string)   (* None is JSON null *)
}.

(** [image['RepoTags'] or []] *)
Definition repotags_of (i : image) : list string := default [] (RepoTags i).

(** Every tag of the image has exactly the two fields [repo] and [tag]. *)
Definition splittable (i : image) : Prop :=
  Forall (fun repotag =>
            exists repo tag, Str.split colon repotag = [repo; tag])
         (repotags_of i).

(** Insertion into a list sorted by decreasing [Created]; an element goes
    before the elements it was listed before and that are not newer. *)
Fixpoint insert_by_created (x : image) (l : list image) : list image :=
  match l with
  | [] => [x]
  | y :: l' =>
      if Created x <? Created y then y :: insert_by_created x l'
      else x :: y :: l'
  end.

(** [sorted(images, key=lambda x: x['Created'], reverse=True)]: newest
    first, images of equal age in the daemon's order. *)
Definition _get_sorted_images (imgs : list image) : list image :=
  foldr insert_by_created [] imgs.

(** ** The durable state document *)

(** [self.state]: [Docker.__init__] fills every scalar key, so each is a
    field; the [clobber-<name>] family is keyed by its full key. *)
Record state : Type := State {
  clobber : gmap string (option Z);
  images : gmap string string;
  containers : gmap string string;
  last_pulse_id : option string;
  last_rbweb_id : option string;
  last_rbweb_bootstrap_id : option string;
  last_hgrb_id : option string;
  last_hgmaster_id : option string;
  last_hgweb_id : option string;
  last_ldap_id : option string;
  last_vct_id : option string;
  last_treestatus_id : option string;
  vct_cid : option string
}.

Definition set_clobber (f : gmap string (option Z) -> gmap string (option Z))
    (st : state) : state :=
  State (f (clobber st)) (images st) (containers st)
        (last_pulse_id st) (last_rbweb_id st)
        (last_rbweb_bootstrap_id st) (last_hgrb_id st) (last_hgmaster_id st)
        (last_hgweb_id st) (last_ldap_id st) (last_vct_id st)
        (last_treestatus_id st) (vct_cid st).

Definition set_images (m : gmap string string) (st : state) : state :=
  State (clobber st) m (containers st) (last_pulse_id st) (last_rbweb_id st)
        (last_rbweb_bootstrap_id st) (last_hgrb_id st) (last_hgmaster_id st)
        (last_hgweb_id st) (last_ldap_id st) (last_vct_id st)
        (last_treestatus_id st) (vct_cid st).

(** The state of a first run, before any state file exists. *)
Definition initial_state : state :=
  State (list_to_map [("clobber-hgweb", None); ("clobber-hgmaster", None);
                      ("clobber-hgrb", None); ("clobber-rbweb", None)])
        ∅ ∅ None None None None None None None None None None.

(** ** Clobber markers: [clobber_needed] *)

Module Clobber.

Definition ENOENT : Z := 2.

(** [int(x)] on a float: truncation towards zero. *)
Definition py_int (x : Q) : Z := Z.quot (Qnum x) (Zpos (Qden x)).

(** [a < b] on numbers. *)
Definition Qltb (a b : Q) : bool := negb (Qle_bool b a).

Section Env.

(** The root of the source tree, [ROOT]. *)
Variable ROOT : string.

(** [os.path.getmtime]: the modification time in seconds, or the error. *)
Variable getmtime : string -> result Q.

Definition clobber_path (name : string) : string :=
  ROOT +:+ "/testing/clobber." +:+ name.

Definition clobber_key (name : string) : string := "clobber-" +:+ name.

(** [self.state[key]], with [None] when the key is missing. *)
Definition oldmtime (name : string) (st : state) : option Z :=
  default None (clobber st !! clobber_key name).

(** [clobber_needed(name)] called when [time.time()] is [now]. *)
Definition clobber_needed (name : string) (now : Q) (st : state)
    : result bool * state :=
  match getmtime (clobber_path name) with
  | Raise (OSError errno) =>
      if errno =? ENOENT then (Return false, st)
      else (Raise (OSError errno), st)
  | Raise e => (Raise e, st)
  | Return newmtime =>
      if match oldmtime name st with
         | None => true
         | Some old => Qltb (inject_Z old) newmtime
         end
      then (Return true,
            set_clobber <[clobber_key name := Some (py_int now)]> st)
      else (Return false, st)
  end.

End Env.

(** The marker is newer than what the state remembers, or nothing is
    remembered. *)
Definition newer (name : string) (st : state) (newmtime : Q) : Prop :=
  match oldmtime name st with
  | None => True
  | Some old => (inject_Z old < newmtime)%Q
  end.

(** A marker file last modified at second 100, and the same file touched
    again at second 200. *)
Definition marker_at_100 (path : string) : result Q := Return (inject_Z 100).
Definition marker_at_200 (path : string) : result Q := Return (inject_Z 200).

End Clobber.

(** ** Secure image importer: [import_base_image] *)

Module Importer.

(** Requests that leave the process. *)
Inductive event : Type :=
| requests_get (url : string)
| import_image_from_data (data repository tag : string).

Section Env.

(** [hashlib.sha256(data).hexdigest()] *)
Variable sha256 : string -> string.

(** The chunks [requests.get(url, stream=True).iter_content(8192)] yields. *)
Variable iter_content : string -> result (list string).

(** [lzma.decompress] *)
Variable lzma_decompress : string -> result string.

(** The daemon's answer to [import_image_from_data], and the ['status']
    member of that answer parsed as JSON. *)
Variable daemon_import : string -> string -> string -> result string.
Variable json_status : string -> result string.

(** The deterministic cache tag. *)
Definition cache_tag (tagprefix url digest : string) : string :=
  tagprefix +:+ "-" +:+ sha256 (url +:+ digest).

(** The inner loop over the tags of one image: [true] on a hit. *)
Fixpoint scan_repotags (repository tag : string) (repotags : list string)
    : result bool :=
  match repotags with
  | [] => Return false
  | repotag :: rest =>
      '(r, t) ← unpack2 (Str.split colon repotag);
      if bool_decide (r = repository) && bool_decide (t = tag)
      then Return true
      else scan_repotags repository tag rest
  end.

(** The outer loop over the sorted images: the id of the first hit. *)
Fixpoint scan_images (repository tag : string) (imgs : list image)
    : result (option string) :=
  match imgs with
  | [] => Return None
  | i :: rest =>
      hit ← scan_repotags repository tag (repotags_of i);
      if hit : bool then Return (Some (Id i))
      else scan_images repository tag rest
  end.

Definition mismatch_message (url got digest : string) : string :=
  "downloaded Docker image does not match digest:  " +:+ url +:+
  "; got " +:+ got +:+ " expected " +:+ digest.

(** The download branch, after a cache miss. *)
Definition download_and_import (repository tag url digest : string)
    : result string * list event :=
  match iter_content url with
  | Raise e => (Raise e, [requests_get url])
  | Return chunks =>
      let data := foldr String.append "" chunks in
      let got := sha256 data in
      if bool_decide (got ≠ digest)
      then (Raise (Exception (mismatch_message url got digest)),
            [requests_get url])
      else
        match (if Str.endswith url ".xz" then lzma_decompress data
               else Return data) with
        | Raise e => (Raise e, [requests_get url])
        | Return fh =>
            (res ← daemon_import fh repository tag; json_status res,
             [requests_get url; import_image_from_data fh repository tag])
        end
  end.

Definition import_base_image (imgs : list image)
    (repository tagprefix url digest : string) : result string * list event :=
  let tag := cache_tag tagprefix url digest in
  match scan_images repository tag (_get_sorted_images imgs) with
  | Raise e => (Raise e, [])
  | Return (Some id) => (Return id, [])
  | Return None => download_and_import repository tag url digest
  end.

End Env.

(** Images as a registry with a port number leaves them next to a cached
    base image: the newer image has a tag with two colons. *)
Definition listed (cached_tag : string) : list image :=
  [Image "sha256:aaa" 2 (Some ["localhost:5000/base:latest"]);
   Image "sha256:bbb" 1 (Some ["centos:" +:+ cached_tag])].

(** An image carries the tag [repository:tag]. *)
Definition tagged (repository tag : string) (i : image) : Prop :=
  repository +:+ ":" +:+ tag ∈ repotags_of i.

End Importer.

(** ** Provisioning runner: [run_ansible] *)

Module Ansible.

(** One entry of [api_client.history(image)]. *)
Record layer : Type := Layer {
  layer_Id : string;
  CreatedBy : string
}.

Inductive event : Type :=
| ensure_built (name : string)
| history (image : string)
| provision (start_image playbook repository : string).

#[global] Instance event_eq_dec : EqDecision event.
Proof. solve_decision. Defined.

Definition dquote : string := String "034"%char EmptyString.

Definition at_least_one : string :=
  "At least 1 of " +:+ dquote +:+ "builder" +:+ dquote +:+ " or " +:+
  dquote +:+ "start_image" +:+ dquote +:+ " must be defined".

Definition only_one : string :=
  "Only 1 of " +:+ dquote +:+ "builder" +:+ dquote +:+ " and " +:+
  dquote +:+ "start_image" +:+ dquote +:+ " may be defined".

(** The scan of the history, newest layer first: every layer created by
    the provisioning entry point overwrites [start_image]. *)
Fixpoint rebase (layers : list layer) (start_image : string) : string :=
  match layers with
  | [] => start_image
  | base :: rest =>
      rebase rest (if Str.startswith (CreatedBy base) "/sync-and-build"
                   then layer_Id base else start_image)
  end.

(** [if len(history) > 120: ...] *)
Definition rebase_if_deep (layers : list layer) (start_image : string)
    : string :=
  if (120 <? Z.of_nat (length layers)) then rebase layers start_image
  else start_image.

Section Env.

(** The answers of the collaborators: [self.ensure_built(name)],
    [api_client.history(image)], and the rest of the function from the
    acquisition of the content-sync container to the commit (create a
    container from the start image with the command
    [/sync-and-build <playbook>.yml], start it, follow its output until it
    stops, commit it under [repository] with a fresh tag). *)
Variable ensure_built_result : string -> result string.
Variable history_result : string -> result (list layer).
Variable provision_result :
  string -> string -> string -> result (string * string * string).

(** The function after its argument check, from a resolved start image. *)
Definition provision_from (playbook repository start_image : string)
    : result (string * string * string) * list event :=
  match history_result start_image with
  | Raise e => (Raise e, [history start_image])
  | Return layers =>
      let start_image' := rebase_if_deep layers start_image in
      (provision_result start_image' playbook repository,
       [history start_image; provision start_image' playbook repository])
  end.

Definition run_ansible (playbook : string)
    (repository builder start_image : option string)
    : result (string * string * string) * list event :=
  if negb (supplied builder) && negb (supplied start_image)
  then (Raise (ValueError at_least_one), [])
  else if supplied builder && supplied start_image
  then (Raise (ValueError only_one), [])
  else
    let repository :=
      if supplied repository then default "" repository else playbook in
    if supplied builder then
      let full_builder := "ansible-" +:+ default "" builder in
      match ensure_built_result full_builder with
      | Raise e => (Raise e, [ensure_built full_builder])
      | Return start_image =>
          let '(r, evs) := provision_from playbook repository start_image in
          (r, ensure_built full_builder :: evs)
      end
    else provision_from playbook repository (default "" start_image).

End Env.

(** The newest layer created by the provisioning entry point. *)
Fixpoint most_recent_match (layers : list layer) : option string :=
  match layers with
  | [] => None
  | base :: rest =>
      if Str.startswith (CreatedBy base) "/sync-and-build"
      then Some (layer_Id base) else most_recent_match rest
  end.

(** The oldest layer created by the provisioning entry point. *)
Definition oldest_match (layers : list layer) : option string :=
  most_recent_match (reverse layers).

(** A history of 121 layers in which the two newest were created by the
    provisioning entry point, and collaborators that answer with it. *)
Definition deep_history : list layer :=
  Layer "new" "/sync-and-build docker-hgweb.yml" ::
  Layer "old" "/sync-and-build docker-hgweb.yml" ::
  replicate 119 (Layer "base" "/bin/sh -c yum install -y ansible").

Definition no_builder (name : string) : result string :=
  Raise (Exception ("Unknown Docker builder name: " +:+ name)).

Definition deep_daemon (image : string) : result (list layer) :=
  Return deep_history.

(** A builder whose image is the deep one. *)
Definition built_deep (name : string) : result string := Return "deep".

Definition committed (start_image playbook repository : string)
    : result (string * string * string) :=
  Return ("sha256:ccc", repository, "tag").

End Ansible.

(** ** Garbage collector: [prune_images] *)

Module Prune.

(** One entry of [api_client.containers()]: a running container, the
    image reference it reports under ['Image'], which is what the
    container was created from as the caller named it, and the id of that
    image under ['ImageID'], which the module does not read. *)
Record container : Type := Container {
  c_Image : string;
  c_ImageID : string
}.

Inductive event : Type :=
| remove_image (iid : string)   (* e.submit(self.api_client.remove_image, image) *)
| save_state (st : state).

Definition strip_sha256 (iid : string) : string :=
  if Str.startswith iid "sha256:" then Str.drop 7 iid else iid.

(** [get_full_image(image)]: the id of the first listed image whose
    12-character short id is [image], else [image] itself. *)
Fixpoint get_full_image (imgs : list image) (image : string) : string :=
  match imgs with
  | [] => image
  | i :: rest =>
      if bool_decide (Str.take 12 (strip_sha256 (Id i)) = image) then Id i
      else get_full_image rest image
  end.

Definition running (imgs : list image) (cs : list container) : gset string :=
  list_to_set (map (fun c => get_full_image imgs (c_Image c)) cs).

Definition ignore_images (st : state) : list (option string) :=
  [last_hgrb_id st; last_pulse_id st; last_rbweb_id st; last_hgmaster_id st;
   last_hgweb_id st; last_ldap_id st; last_vct_id st; last_treestatus_id st].

Definition relevant_repos : list string :=
  ["pulse"; "rbweb"; "hgmaster"; "hgrb"; "hgweb"; "ldap"; "vct"; "treestatus"].

(** The loop over the tags of one image: the repository of the first tag
    that is relevant. *)
Fixpoint first_relevant (repotags : list string) : result (option string) :=
  match repotags with
  | [] => Return None
  | repotag :: rest =>
      '(repo, tag) ← unpack2 (Str.split colon repotag);
      if bool_decide (repo ∈ relevant_repos) then Return (Some repo)
      else first_relevant rest
  end.

(** The loop over [api_client.images()] that fills [to_delete]. *)
Fixpoint select (run : gset string) (ign : list (option string))
    (imgs : list image) (to_delete : gmap string string)
    : result (gmap string string) :=
  match imgs with
  | [] => Return to_delete
  | i :: rest =>
      let iid := Id i in
      if bool_decide (iid ∈ run) then select run ign rest to_delete
      else if bool_decide (Some iid ∈ ign) then select run ign rest to_delete
      else
        r ← first_relevant (repotags_of i);
        match r with
        | Some repo => select run ign rest (<[iid := repo]> to_delete)
        | None => select run ign rest to_delete
        end
  end.

(** The entries of [self.state['images']] that survive. *)
Definition retained (to_delete : gmap string string)
    (m : gmap string string) : gmap string string :=
  filter (fun kv => to_delete !! kv.2 = None) m.

Section Env.

(** [self.save_state()]: what writing the state file raises, if
    anything. *)
Variable save_result : state -> result unit.

(** [prune_images()] against the listed images and running containers:
    the outcome, the state it leaves and the requests made.  The removals
    are handed to a pool whose futures are not read, so a refused removal
    raises nothing. *)
Definition prune_images (imgs : list image) (cs : list container)
    (st : state) : result unit * state * list event :=
  match select (running imgs cs) (ignore_images st) imgs ∅ with
  | Raise e => (Raise e, st, [])
  | Return to_delete =>
      let st' := set_images (retained to_delete (images st)) st in
      (save_result st', st',
       (map (fun kv => remove_image kv.1) (map_to_list to_delete)
        ++ [save_state st'])%list)
  end.

End Env.

(** The image ids submitted for deletion. *)
Definition submitted (evs : list event) : list string :=
  omap (fun e => match e with remove_image iid => Some iid | _ => None end) evs.


(** A tag of the form [repo:tag] whose repository is relevant. *)
Definition relevant_tag (repotag : string) : Prop :=
  exists repo tag, Str.split colon repotag = [repo; tag] /\ repo ∈ relevant_repos.

(** The image carries a relevant tag. *)
Definition has_relevant_tag (i : image) : Prop :=
  exists repotag, repotag ∈ repotags_of i /\ relevant_tag repotag.





Definition saved (st : state) : result unit := Return ().

End Prune.

(** ** State store: [save_state] *)

Module StateFile.

(** The state file while it is written: what the operating system holds,
    which is what a stopped process leaves behind, and what the open file
    object still holds in its buffer. *)
Record file : Type := File {
  disk : string;
  buffer : string
}.

(** Operations on the state file. *)
Inductive fsop : Type :=
| open_wb               (* open(self._state_path, 'wb'): create or truncate *)
| write (chunk : string)
| close.

Section Buffering.

(** [open] is called without a buffering argument, so the C library
    decides how much of the pending data, the buffer followed by the new
    chunk, a [write] hands to the operating system: [flushed pending]
    characters, from the front. *)
Variable flushed : string -> nat.

(** The file after one operation. *)
Definition apply (f : file) (o : fsop) : file :=
  match o with
  | open_wb => File "" ""
  | write chunk =>
      let pending := buffer f +:+ chunk in
      let n := flushed pending in
      File (disk f +:+ Str.take n pending) (Str.drop n pending)
  | close => File (disk f +:+ buffer f) ""
  end.

Definition run (ops : list fsop) (f : file) : file :=
  foldl apply f ops.

(** The chunks [json.dump(self.state, fh, indent=4, sort_keys=True)] hands
    to [fh.write], in order. *)
Variable iterencode : state -> list string.

Definition dumps (st : state) : string := foldr String.append "" (iterencode st).

Definition save_state (st : state) : list fsop :=
  (open_wb :: map write (iterencode st) ++ [close])%list.

(** The file as a process stopped after [k] operations of [save_state]
    leaves it. *)
Definition crash_after (k : nat) (st : state) (content : string) : string :=
  disk (run (take k (save_state st)) (File content "")).

End Buffering.

(** Two buffering policies: every write goes through at once, and only
    whole blocks of [size] characters go through before the file is
    closed. *)
Definition unbuffered (pending : string) : nat := String.length pending.

Definition block (size : nat) (pending : string) : nat :=
  (String.length pending / size * size)%nat.

(** An encoder for the examples: a brace, one chunk for each entry of
    [images], a brace. *)
Definition brace_encoder (st : state) : list string :=
  ("{" :: map (fun kv => kv.1 +:+ ": " +:+ kv.2 +:+ ",")
              (map_to_list (images st)) ++ ["}"])%list.

Definition pulse_state : state :=
  set_images {["pulse" := "sha256:ddd"]} initial_state.

End StateFile.

(** ** Build-context assembler: the archive part of [ensure_built] *)

Module Context.

(** Members written to the context archive. *)
Inductive entry : Type :=
| addfile (arcname : string)   (* tar.addfile(ti, fileobj=fh), ti named arcname *)
| add (full rel : string).     (* tar.add(full, rel) *)

Definition is_space (a : ascii) : bool :=
  bool_decide (a ∈ [" "; "009"; "010"; "011"; "012"; "013"]%char).

(** [line.rstrip()] *)
Fixpoint rstrip (s : string) : string :=
  match s with
  | EmptyString => EmptyString
  | String a s' =>
      match rstrip s' with
      | EmptyString => if is_space a then EmptyString else String a EmptyString
      | r => String a r
      end
  end.

(** [os.path.join(a, p)] *)
Definition join (a p : string) : string :=
  if Str.startswith p "/" then p
  else if bool_decide (a = "") || Str.endswith a "/" then a +:+ p
  else a +:+ "/" +:+ p.

(** [a, b, c, d = l] *)
Definition unpack4 (l : list string) : result (string * string * string * string) :=
  match l with
  | [a; b; c; d] => Return (a, b, c, d)
  | [] => Raise (ValueError "need more than 0 values to unpack")
  | [_] => Raise (ValueError "need more than 1 value to unpack")
  | [_; _] => Raise (ValueError "need more than 2 values to unpack")
  | [_; _; _] => Raise (ValueError "need more than 3 values to unpack")
  | _ => Raise (ValueError "too many values to unpack")
  end.

Section Env.

Variable ROOT : string.

(** [os.path.exists] *)
Variable exists_ : string -> bool.

(** [sorted(self._get_vct_files().keys())]: the tracked files, relative to
    [ROOT]. *)
Variable vct_files : list string.

(** The files below the builder directory in [os.walk] order, each with
    its path relative to that directory and its base name. *)
Variable walk : list (string * string).

(** [self.import_base_image(repository, tagprefix, url, digest)]: what it
    returns or raises, and the requests it makes on the way. *)
Variable import_base_image :
  string -> string -> string -> string -> result string * list Importer.event.

(** The loop over the lines of the Dockerfile: the rewritten lines and the
    paths named by inclusion directives, and the requests the imports of
    the [FROM secure:] lines made, up to the line that raises if one
    does. *)
Fixpoint scan_dockerfile (lines : list string)
    : result (list string * list string) * list Importer.event :=
  match lines with
  | [] => (Return ([], []), [])
  | line :: rest =>
      let line := rstrip line in
      let inc := if Str.startswith line "# %include"
                 then [Str.drop 11 line] else [] in
      let '(line', evs) :=
        if Str.startswith line "FROM secure:" then
          let parts := Str.drop 12 line in
          match unpack4 (Str.splitn colon 3 parts) with
          | Raise e => (Raise e, [])
          | Return (repository, tagprefix, digest, url) =>
              if negb (Str.startswith digest "sha256 ")
              then (Raise (Exception "FROM secure: requires sha256 digests"),
                    [])
              else
                let '(base_image, evs) :=
                  import_base_image repository tagprefix url
                                    (Str.drop 7 digest) in
                (base_image ← base_image; Return ("FROM " +:+ base_image),
                 evs)
          end
        else (Return line, []) in
      match line' with
      | Raise e => (Raise e, evs)
      | Return line' =>
          let '(scanned, evs') := scan_dockerfile rest in
          ('(dockerfile_lines, vct_paths) ← scanned;
           Return (line' :: dockerfile_lines, (inc ++ vct_paths)%list),
           (evs ++ evs')%list)
      end
  end.

(** The loop over [os.walk(p)]. *)
Fixpoint add_builder_files (files : list (string * string))
    : result (list entry) :=
  match files with
  | [] => Return []
  | (rel, f) :: rest =>
      if bool_decide (f = ".dockerignore")
      then Raise (Exception ".dockerignore not currently supported!")
      else entries ← add_builder_files rest; Return (addfile rel :: entries)
  end.

(** [for f in vct_files: ...] for a directive [p] that ends in [/]. *)
Fixpoint add_tree (p : string) (files : list string) (added : gset string)
    : list entry :=
  match files with
  | [] => []
  | f :: rest =>
      if negb (Str.startswith f p) && bool_decide (p ≠ "/")
      then add_tree p rest added
      else
        let full := join ROOT f in
        let rel := "extra/vct/" +:+ f in
        if bool_decide (full ∈ added) then add_tree p rest added
        else add full rel :: add_tree p rest added
  end.

(** [for p in vct_paths: ...]; the set [added] is tested and never
    assigned in the loop. *)
Fixpoint add_vct_paths (vct_paths : list string) (added : gset string)
    : result (list entry) :=
  match vct_paths with
  | [] => Return []
  | p :: rest =>
      let ap := join ROOT p in
      if negb (exists_ ap)
      then Raise (Exception
                    ("specified path not under version control: " +:+ p))
      else if Str.endswith p "/" then
        entries ← add_vct_paths rest added;
        Return (add_tree p vct_files added ++ entries)%list
      else
        let full := join ROOT p in
        if bool_decide (full ∈ added) then add_vct_paths rest added
        else
          entries ← add_vct_paths rest added;
          Return (add full ("extra/vct/" +:+ p) :: entries)
  end.

(** The context archive [ensure_built] assembles from the lines of the
    Dockerfile: the builder directory, then the included files; with it,
    the requests of the imports, which are made before the archive is
    begun. *)
Definition build_context (lines : list string)
    : result (list entry) * list Importer.event :=
  let '(scanned, evs) := scan_dockerfile lines in
  ('(dockerfile_lines, vct_paths) ← scanned;
   builder ← add_builder_files walk;
   included ← add_vct_paths vct_paths ∅;
   Return (builder ++ included)%list,
   evs).

End Env.

(** The absolute paths added from the outer tree. *)
Definition added_paths (entries : list entry) : list string :=
  omap (fun e => match e with add full _ => Some full | _ => None end) entries.

(** A source tree in which every path exists, a builder directory that
    holds only its Dockerfile, an importer that is never reached, and a
    Dockerfile that names the same file in two inclusion directives. *)
Definition everything_exists (path : string) : bool := true.

Definition tracked_files : list string :=
  ["testing/docker/sync.sh"; "testing/vcttesting/docker.py"].

Definition only_dockerfile : list (string * string) :=
  [("Dockerfile", "Dockerfile")].

Definition no_import (repository tagprefix url digest : string)
    : result string * list Importer.event :=
  (Raise (Exception "no secure base image in this Dockerfile"), []).

Definition twice_included : list string :=
  ["FROM centos:7";
   "# %include testing/docker/sync.sh";
   "# %include testing/docker/sync.sh"].

End Context.

(** ** Parallel dependency scheduler: [ensure_images_built] *)

Module Scheduler.

(** [limited_threadpoolexecutor(wanted_workers, max_workers)]: the number
    of workers given to [ThreadPoolExecutor], [None] for its default. *)
Definition limited_threadpoolexecutor (wanted_workers max_workers : option Z)
    : option Z :=
  let wants_unlimited :=
    match wanted_workers with None => true | Some w => w <? 1 end in
  let max_unlimited :=
    match max_workers with None => true | Some m => m <? 1 end in
  if max_unlimited then wanted_workers
  else if wants_unlimited then max_workers
  else Some (Z.min (default 0 wanted_workers) (default 0 max_workers)).

(** Work handed to the executor.  A future is named by its position in the
    sequence of submissions. *)
Inductive task : Type :=
| build (n : string)
    (* e.submit(build, n, verbose=verbose) *)
| builder_build (builder : string)
    (* e.submit(self.ensure_built, 'ansible-%s' % builder, verbose=verbose) *)
| build_ansible (f_builder : option nat) (playbook repository : string)
                (builder start_image : option string).
    (* e.submit(build_ansible, bf, vct_cid, playbook, repository=n, ...) *)

#[global] Instance task_eq_dec : EqDecision task.
Proof. solve_decision. Defined.

(** The local variables of the submission loop. *)
Record pool : Type := Pool {
  submitted : list task;         (* everything given to e.submit, in order *)
  fs : list nat;                 (* the futures collected at the end *)
  builder_fs : gmap string nat;  (* builder name -> future of its build *)
  st : state                     (* self.state *)
}.

Definition submit (t : task) (p : pool) : nat * pool :=
  (length (submitted p),
   Pool (submitted p ++ [t]) (fs p) (builder_fs p) (st p)).

Definition append_fs (f : nat) (p : pool) : pool :=
  Pool (submitted p) (fs p ++ [f]) (builder_fs p) (st p).

Definition remember (builder : string) (f : nat) (p : pool) : pool :=
  Pool (submitted p) (fs p) (<[builder := f]> (builder_fs p)) (st p).

Definition set_state (s : state) (p : pool) : pool :=
  Pool (submitted p) (fs p) (builder_fs p) s.

(** Strings in increasing order, as [sorted] returns them. *)
Fixpoint insert_sorted (x : string) (l : list string) : list string :=
  match l with
  | [] => [x]
  | y :: l' => if String.leb x y then x :: y :: l' else y :: insert_sorted x l'
  end.

Definition sorted (s : gset string) : list string :=
  foldr insert_sorted [] (elements s).

(** The [use_last] loops: the tags of one image, then all images. *)
Fixpoint last_of_tags (iid : string) (repotags : list string)
    (acc : gmap string string * gset string)
    : result (gmap string string * gset string) :=
  match repotags with
  | [] => Return acc
  | repotag :: rest =>
      '(repo, tag) ← unpack2 (Str.splitn colon 1 repotag);
      let '(images, missing) := acc in
      if bool_decide (repo ∈ missing)
      then last_of_tags iid rest (<[repo := iid]> images, missing ∖ {[repo]})
      else last_of_tags iid rest acc
  end.

Fixpoint last_of_images (imgs : list image)
    (acc : gmap string string * gset string)
    : result (gmap string string * gset string) :=
  match imgs with
  | [] => Return acc
  | i :: rest =>
      acc' ← last_of_tags (Id i) (repotags_of i) acc;
      last_of_images rest acc'
  end.

(** The loops that fill [start_images]. *)
Fixpoint start_of_tags (keys : gset string) (iid : string)
    (repotags : list string) (start_images : gmap string string)
    : result (gmap string string) :=
  match repotags with
  | [] => Return start_images
  | repotag :: rest =>
      '(repo, tag) ← unpack2 (Str.splitn colon 1 repotag);
      if bool_decide (repo ∈ keys)
      then start_of_tags keys iid rest (<[repo := iid]> start_images)
      else start_of_tags keys iid rest start_images
  end.

Fixpoint start_of_images (keys : gset string) (imgs : list image)
    (start_images : gmap string string) : result (gmap string string) :=
  match imgs with
  | [] => Return start_images
  | i :: rest =>
      m ← start_of_tags keys (Id i) (repotags_of i) start_images;
      start_of_images keys rest m
  end.

Section Env.

(** The daemon: [api_client.images()] and the ids of
    [api_client.images(all=True)]. *)
Variable docker_images : list image.
Variable all_docker_images : gset string.

(** The clobber markers and the clock read when role [n] is checked. *)
Variable ROOT : string.
Variable getmtime : string -> result Q.
Variable now : string -> Q.

(** Entering [self.vct_container()]: the id of the content-sync container
    and the state it leaves, or the exception. *)
Variable vct_container : state -> result string * state.

(** The collaborators of the tasks: [self.ensure_built(name, use_last)]
    and those of [run_ansible]. *)
Variable ensure_built_result : bool -> string -> result string.
Variable history_result : string -> result (list Ansible.layer).
Variable provision_result :
  string -> string -> string -> result (string * string * string).

Variable names : list string.
Variable ansibles : gmap string (string * string).
Variable use_last : bool.

(** One turn of [for n in sorted(missing)]. *)
Definition schedule (start_images : gmap string string) (n : string)
    (p : pool) : option exn * pool :=
  if bool_decide (n ∈ names) then
    let '(f, p) := submit (build n) p in (None, append_fs f p)
  else
    match ansibles !! n with
    | None => (Some (KeyError n), p)
    | Some (playbook, builder) =>
        let start_image := start_images !! n in
        let '(out, builder, start_image, p) :=
          if supplied start_image then
            match Clobber.clobber_needed ROOT getmtime n (now n) (st p) with
            | (Raise e, s) => (Some e, Some builder, start_image, set_state s p)
            | (Return true, s) => (None, Some builder, None, set_state s p)
            | (Return false, s) => (None, None, start_image, set_state s p)
            end
          else (None, Some builder, start_image, p) in
        match out with
        | Some e => (Some e, p)
        | None =>
            let '(bf, p) :=
              if supplied builder then
                let b := default "" builder in
                match builder_fs p !! b with
                | Some bf => (Some bf, p)
                | None =>
                    let '(bf, p) := submit (builder_build b) p in
                    (Some bf, remember b bf p)
                end
              else (None, p) in
            let '(f, p) :=
              submit (build_ansible bf playbook n builder start_image) p in
            (None, append_fs f p)
        end
    end.

(** The submission loop, up to its first exception. *)
Fixpoint schedule_all (start_images : gmap string string)
    (ns : list string) (p : pool) : option exn * pool :=
  match ns with
  | [] => (None, p)
  | n :: rest =>
      match schedule start_images n p with
      | (Some e, p') => (Some e, p')
      | (None, p') => schedule_all start_images rest p'
      end
  end.

(** What a worker does for a task, given everything submitted: its return
    value (the role and its image; for a builder the image alone) and the
    builds and provisioning runs it performs. *)
Definition run_task (all : list task) (t : task)
    : result (string * string) * list Ansible.event :=
  match t with
  | build n =>
      (image ← ensure_built_result use_last n; Return (n, image),
       [Ansible.ensure_built n])
  | builder_build b =>
      let name := "ansible-" +:+ b in
      (image ← ensure_built_result false name; Return (name, image),
       [Ansible.ensure_built name])
  | build_ansible f_builder playbook repository builder start_image =>
      if supplied start_image && use_last
      then (Return (repository, default "" start_image), [])
      else
        let run builder start_image :=
          let '(r, evs) :=
            Ansible.run_ansible (ensure_built_result false) history_result
              provision_result playbook (Some repository) builder start_image in
          ('(image, repo, tag) ← r; Return (repository, image), evs) in
        match f_builder with
        | Some f =>
            match all !! f with
            | Some (builder_build b) =>
                match ensure_built_result false ("ansible-" +:+ b) with
                | Raise e => (Raise e, [])
                | Return image => run None (Some image)
                end
            | _ => (Raise (RuntimeError "not the future of a builder"), [])
            end
        | None => run builder start_image
        end
  end.

(** Everything the workers request for what was submitted. *)
Definition performed (tasks : list task) : list Ansible.event :=
  concat (map (fun t => (run_task tasks t).2) tasks).

(** [for f in futures.as_completed(fs)], taken in submission order. *)
Fixpoint collect (all : list task) (futs : list nat)
    (images : gmap string string) : result (gmap string string) :=
  match futs with
  | [] => Return images
  | f :: rest =>
      match all !! f with
      | Some t =>
          '(name, image) ← fst (run_task all t);
          collect all rest (<[name := image]> images)
      | None => Raise (RuntimeError "unknown future")
      end
  end.

(** [ensure_images_built(names, ansibles, existing, use_last=use_last,
    max_workers=max_workers)]: the result, the state it leaves, the pool
    size it asked for and everything it submitted to the pool. *)
Definition ensure_images_built (existing : gmap string string)
    (max_workers : option Z) (s : state)
    : result (gmap string string) * state * option (option Z) * list task :=
  let images := filter (fun kv => kv.2 ∈ all_docker_images) existing in
  let missing := (list_to_set names ∪ dom ansibles) ∖ dom images in
  match (if use_last
         then last_of_images (_get_sorted_images docker_images) (images, missing)
         else Return (images, missing)) with
  | Raise e => (Raise e, s, None, [])
  | Return (images, missing) =>
      if bool_decide (missing = ∅) then (Return images, s, None, [])
      else
        let missing_ansibles := dom ansibles ∩ missing in
        match start_of_images missing_ansibles
                (_get_sorted_images docker_images) ∅ with
        | Raise e => (Raise e, s, None, [])
        | Return start_images =>
            match vct_container s with
            | (Raise e, s') => (Raise e, s', None, [])
            | (Return vct_cid, s') =>
                let workers :=
                  limited_threadpoolexecutor
                    (Some (Z.of_nat (size missing))) max_workers in
                match schedule_all start_images (sorted missing)
                        (Pool [] [] ∅ s') with
                | (Some e, p) => (Raise e, st p, Some workers, submitted p)
                | (None, p) =>
                    (collect (submitted p) (fs p) images, st p,
                     Some workers, submitted p)
                end
            end
        end
  end.

End Env.

(** The tasks that build the builder image of [b]. *)
Definition builder_builds (b : string) (ts : list task) : list task :=
  filter (fun t => t = builder_build b) ts.

(** The builds of the image [name] among the requests of the workers. *)
Definition builds_of (name : string) (evs : list Ansible.event)
    : list Ansible.event :=
  filter (fun e => e = Ansible.ensure_built name) evs.

(** A direct build is a build of a role listed in [names]. *)
Definition from_names (names : list string) (t : task) : Prop :=
  match t with
  | build n => n ∈ names
  | _ => True
  end.

(** What the submission loop maintains: a builder has one build task if it
    is in the memo and none otherwise, and a provisioning task without a
    builder future has no builder. *)
Definition memo_ok (p : pool) : Prop :=
  forall b,
    length (builder_builds b (submitted p)) =
    match builder_fs p !! b with Some _ => 1%nat | None => 0%nat end.

Definition no_builder_left (t : task) : Prop :=
  match t with
  | build_ansible None _ _ builder _ => supplied builder = false
  | _ => True
  end.

(** The two hg roles of [build_hgmo], provisioned from the same builder,
    against a daemon that lists no image. *)
Definition hg_ansibles : gmap string (string * string) :=
  {[ "hgmaster" := ("docker-hgmaster", "centos7");
     "hgweb" := ("docker-hgweb", "centos7") ]}.

Definition no_marker (path : string) : result Q := Raise (OSError 2).

Definition epoch (n : string) : Q := inject_Z 0.

Definition vct_running (s : state) : result string * state :=
  (Return "vct-cid", s).

Definition built (use_last : bool) (name : string) : result string :=
  Return ("sha256:" +:+ name).

Definition no_history (image : string) : result (list Ansible.layer) :=
  Return [].

(** Everything submitted for [ldap] and the two hg roles on a first run. *)
Definition hg_tasks : list task :=
  (ensure_images_built [] ∅ "/vct" no_marker epoch vct_running built
     no_history Ansible.committed ["ldap"] hg_ansibles false ∅ None
     initial_state).2.

(** Everything submitted when the builder image of the two hg roles is
    also requested by name. *)
Definition builder_role_tasks : list task :=
  (ensure_images_built [] ∅ "/vct" no_marker epoch vct_running built
     no_history Ansible.committed ["ansible-centos7"] hg_ansibles false ∅
     None initial_state).2.

End Scheduler.

(** ** Helpers of [util.py]: [normalize_testname] *)

Module Util.

Definition slash : ascii := "/"%char.

(** Membership in [string.punctuation]. *)
Definition is_punctuation (a : ascii) : bool :=
  let n := nat_of_ascii a in
  ((33 <=? n) && (n <=? 47) || (58 <=? n) && (n <=? 64) ||
   (91 <=? n) && (n <=? 96) || (123 <=? n) && (n <=? 126))%nat.

(** Membership in [string.whitespace]. *)
Definition is_whitespace (a : ascii) : bool :=
  let n := nat_of_ascii a in
  ((n =? 32) || (9 <=? n) && (n <=? 13))%nat.

Definition is_upper (a : ascii) : bool :=
  let n := nat_of_ascii a in ((65 <=? n) && (n <=? 90))%nat.

(** [c.lower()] on a byte. *)
Definition lower_char (a : ascii) : ascii :=
  if is_upper a then ascii_of_nat (nat_of_ascii a + 32) else a.

(** [s.lower()] *)
Fixpoint lower (s : string) : string :=
  match s with
  | EmptyString => EmptyString
  | String a s' => String (lower_char a) (lower s')
  end.

(** [''.join(char for char in s if keep(char))] *)
Fixpoint join_if (keep : ascii -> bool) (s : string) : string :=
  match s with
  | EmptyString => EmptyString
  | String a s' =>
      if keep a then String a (join_if keep s') else join_if keep s'
  end.

Definition kept (a : ascii) : bool :=
  negb (is_punctuation a || is_whitespace a).

(** [normalize_testname(testname)]; [None] is Python's [None]. *)
Definition normalize_testname (testname : option string) : option string :=
  if supplied testname then
    let testname := lower (List.last (Str.split slash (default "" testname)) "") in
    Some (join_if kept testname)
  else None.

(** Every byte of the string satisfies [p]. *)
Fixpoint all_chars (p : ascii -> bool) (s : string) : bool :=
  match s with
  | EmptyString => true
  | String a s' => p a && all_chars p s'
  end.

End Util.

(** ** What the scheduler's futures stand for *)

Module SchedulerSpec.
Import Scheduler.

(** The name under which the result of a task is filed. *)
Definition task_role (t : task) : string :=
  match t with
  | build n => n
  | builder_build b => "ansible-" +:+ b
  | build_ansible _ _ n _ _ => n
  end.

(** The roles of the futures in [futs], given everything submitted. *)
Definition roles_of (all : list task) (futs : list nat) : list string :=
  omap (fun f => task_role <$> all !! f) futs.

(** Every collected future has been submitted. *)
Definition fs_bound (p : pool) : Prop :=
  Forall (fun f => (f < length (submitted p))%nat) (fs p).

(** Every memoized future is the build of its builder. *)
Definition futures_ok (p : pool) : Prop :=
  forall b f, builder_fs p !! b = Some f ->
              submitted p !! f = Some (builder_build b).

End SchedulerSpec.

(** ** Collaborators for the importer's examples *)

Module ImporterExamples.

(** A stand-in for the hash: the content itself. *)
Definition plain_digest (data : string) : string := data.

Definition one_layer (url : string) : result (list string) :=
  Return ["lay"; "er"].

Definition no_lzma (data : string) : result string :=
  Raise (Exception "not an xz stream").

Definition imported (data repository tag : string) : result string :=
  Return "status".

Definition status_id (res : string) : result string := Return "sha256:eee".

End ImporterExamples.

(** ** Short image ids *)

Module ShortId.

(** The 12-character id [get_full_image] compares with. *)
Definition short_id (i : image) : string :=
  Str.take 12 (Prune.strip_sha256 (Id i)).

End ShortId.

(** ** [build_hgmo] and [build_all_images] *)

Module Builds.

(** The daemon and the host as one call of [ensure_images_built] finds
    them. *)
Record world : Type := World {
  docker_images : list image;
  all_docker_images : gset string;
  getmtime : string -> result Q;
  now : string -> Q;
  vct_container : state -> result string * state;
  ensure_built_result : bool -> string -> result string;
  history_result : string -> result (list Ansible.layer);
  provision_result :
    string -> string -> string -> result (string * string * string)
}.

Definition set_last_hgmaster_id (v : option string) (st : state) : state :=
  State (clobber st) (images st) (containers st) (last_pulse_id st)
        (last_rbweb_id st) (last_rbweb_bootstrap_id st) (last_hgrb_id st)
        v (last_hgweb_id st) (last_ldap_id st) (last_vct_id st)
        (last_treestatus_id st) (vct_cid st).

Definition set_last_hgweb_id (v : option string) (st : state) : state :=
  State (clobber st) (images st) (containers st) (last_pulse_id st)
        (last_rbweb_id st) (last_rbweb_bootstrap_id st) (last_hgrb_id st)
        (last_hgmaster_id st) v (last_ldap_id st) (last_vct_id st)
        (last_treestatus_id st) (vct_cid st).

Definition set_last_ldap_id (v : option string) (st : state) : state :=
  State (clobber st) (images st) (containers st) (last_pulse_id st)
        (last_rbweb_id st) (last_rbweb_bootstrap_id st) (last_hgrb_id st)
        (last_hgmaster_id st) (last_hgweb_id st) v (last_vct_id st)
        (last_treestatus_id st) (vct_cid st).

Definition set_last_pulse_id (v : option string) (st : state) : state :=
  State (clobber st) (images st) (containers st) v
        (last_rbweb_id st) (last_rbweb_bootstrap_id st) (last_hgrb_id st)
        (last_hgmaster_id st) (last_hgweb_id st) (last_ldap_id st)
        (last_vct_id st) (last_treestatus_id st) (vct_cid st).

(** [self.state[key] = images[role]]: the assignment, or [KeyError]. *)
Definition record (set : option string -> state -> state)
    (images : gmap string string) (role : string) (st : state)
    : option exn * state :=
  match images !! role with
  | Some v => (None, set (Some v) st)
  | None => (Some (KeyError role), st)
  end.

Section Env.

Variable ROOT : string.

Definition ensure_images_built (w : world) (names : list string)
    (ansibles : gmap string (string * string)) (use_last : bool)
    (existing : gmap string string) (max_workers : option Z) (s : state) :=
  Scheduler.ensure_images_built (docker_images w) (all_docker_images w) ROOT
    (getmtime w) (now w) (vct_container w) (ensure_built_result w)
    (history_result w) (provision_result w) names ansibles use_last
    existing max_workers s.

(** [build_hgmo(images=images, use_last=use_last)]; [save_result] is what
    its [save_state] raises, if anything. *)
Definition build_hgmo (w : world) (save_result : state -> result unit)
    (images : gmap string string) (use_last : bool) (s : state)
    : result (gmap string string) * state * list Prune.event :=
  match ensure_images_built w ["ldap"; "pulse"] Scheduler.hg_ansibles
          use_last images None s with
  | (Raise e, s, _, _) => (Raise e, s, [])
  | (Return images, s, _, _) =>
      match record set_last_hgmaster_id images "hgmaster" s with
      | (Some e, s) => (Raise e, s, [])
      | (None, s) =>
      match record set_last_hgweb_id images "hgweb" s with
      | (Some e, s) => (Raise e, s, [])
      | (None, s) =>
      match record set_last_ldap_id images "ldap" s with
      | (Some e, s) => (Raise e, s, [])
      | (None, s) =>
      match record set_last_pulse_id images "pulse" s with
      | (Some e, s) => (Raise e, s, [])
      | (None, s) =>
          (match save_result s with
           | Raise e => Raise e
           | Return _ => Return images
           end, s, [Prune.save_state s])
      end end end end
  end.

(** [build_all_images(use_last=use_last, hgmo=hgmo)]: [w1] is the world of
    the first call of [ensure_images_built], [w2] and [save_hgmo] that of
    [build_hgmo], [imgs], [cs] and [save_pruned] what [prune_images]
    finds.  The result is the second member of the returned pair. *)
Definition build_all_images (w1 w2 : world)
    (save_hgmo : state -> result unit) (imgs : list image)
    (cs : list Prune.container) (save_pruned : state -> result unit)
    (use_last hgmo : bool) (s : state)
    : result (option (gmap string string)) * state * list Prune.event :=
  let docker_images := if hgmo then ["ldap"] else [] in
  let ansible_images := if hgmo then Scheduler.hg_ansibles else ∅ in
  match ensure_images_built w1 docker_images ansible_images use_last
          ∅ None s with
  | (Raise e, s, _, _) => (Raise e, s, [])
  | (Return images, s, _, _) =>
      let '(hgmo_result, s, evs) :=
        if hgmo then
          match build_hgmo w2 save_hgmo images use_last s with
          | (Raise e, s, evs) => (Raise e, s, evs)
          | (Return r, s, evs) => (Return (Some r), s, evs)
          end
        else (Return None, s, []) in
      match hgmo_result with
      | Raise e => (Raise e, s, evs)
      | Return hgmo_result =>
          match Prune.prune_images save_pruned imgs cs s with
          | (Raise e, s, evs') => (Raise e, s, (evs ++ evs')%list)
          | (Return _, s, evs') =>
              (Return hgmo_result, s, (evs ++ evs')%list)
          end
      end
  end.

End Env.

(** The world of the examples: nothing listed, no marker, every build and
    every provisioning run succeeds. *)
Definition first_run : world :=
  World [] ∅ Scheduler.no_marker Scheduler.epoch Scheduler.vct_running
        Scheduler.built Scheduler.no_history Ansible.committed.

(** The mapping [build_hgmo] returns in that world. *)
Definition hg_images : gmap string string :=
  {["hgmaster" := "sha256:ccc"; "hgweb" := "sha256:ccc";
    "ldap" := "sha256:ldap"; "pulse" := "sha256:pulse"]}.

(** A state file that cannot be written: [IOError], errno 28. *)
Definition disk_full (st : state) : result unit :=
  Raise (IOError 28).

End Builds.

(** ** Image build orchestrator: [ensure_built] *)

Module Orchestrator.

(** Requests sent to the daemon, and those of [import_base_image]. *)
Inductive event : Type :=
| importer (e : Importer.event)
| api_build (context : list Context.entry)
    (* api_client.build(fileobj=buf, custom_context=True, rm=True, decode=True) *)
| api_tag (image repository tag : string).

(** Membership in the class [[a-f0-9]]. *)
Definition is_hex (a : ascii) : bool :=
  let n := nat_of_ascii a in
  ((48 <=? n) && (n <=? 57) || (97 <=? n) && (n <=? 102))%nat.

(** [re.match('^Successfully built ([a-f0-9]{12})$', s)]: the group, for a
    string that does not end in a newline. *)
Definition built_marker (s : string) : option string :=
  if Str.startswith s "Successfully built " then
    let h := Str.drop 19 s in
    if (String.length h =? 12)%nat && Util.all_chars is_hex h then Some h
    else None
  else None.

(** The loop over the tags of the built image: every tag is unpacked, and
    a tag of repository [name] sets [have_tag]. *)
Fixpoint scan_tags (name : string) (repotags : list string)
    (have_tag : bool) : result bool :=
  match repotags with
  | [] => Return have_tag
  | repotag :: rest =>
      '(repo, tag) ← unpack2 (Str.split colon repotag);
      scan_tags name rest (if bool_decide (repo = name) then true
                           else have_tag)
  end.

(** The loop over the images that stops at the built one. *)
Fixpoint have_tag (name full_image : string) (imgs : list image)
    : result bool :=
  match imgs with
  | [] => Return false
  | i :: rest =>
      if bool_decide (Id i = full_image)
      then scan_tags name (repotags_of i) false
      else have_tag name full_image rest
  end.

(** The [use_last] loops: the id of the first image with a tag of
    repository [name]. *)
Fixpoint last_tag (name : string) (repotags : list string) : result bool :=
  match repotags with
  | [] => Return false
  | repotag :: rest =>
      '(repo, tag) ← unpack2 (Str.splitn colon 1 repotag);
      if bool_decide (repo = name) then Return true else last_tag name rest
  end.

Fixpoint last_image (name : string) (imgs : list image)
    : result (option string) :=
  match imgs with
  | [] => Return None
  | i :: rest =>
      hit ← last_tag name (repotags_of i);
      if hit : bool then Return (Some (Id i)) else last_image name rest
  end.

Section Env.

(** The host: the root of the source tree, the directory of the builders
    [self._ddir], [os.path.exists], [os.path.isdir], the tracked files, and
    for each builder the lines of its Dockerfile and its files. *)
Variable ROOT : string.
Variable ddir : string.
Variable exists_ : string -> bool.
Variable isdir : string -> bool.
Variable vct_files : list string.
Variable dockerfile : string -> list string.
Variable walk : string -> list (string * string).

(** [self.import_base_image], with the requests it makes. *)
Variable import_base_image :
  string -> string -> string -> string -> result string * list Importer.event.

(** The daemon: the images listed before the build, the output of the
    build (for each item its ['stream'] member, if it has one), the images
    listed after the build, and [str(uuid.uuid1())]. *)
Variable docker_images : list image.
Variable build_output : list Context.entry -> result (list (option string)).
Variable built_images : list image.
Variable uuid1 : string.

(** The loop over the output of the build. *)
Fixpoint scan_output (name : string) (items : list (option string))
    : result string * list event :=
  match items with
  | [] =>
      (Raise (Exception ("Unable to confirm image was built: " +:+ name)),
       [])
  | None :: rest => scan_output name rest
  | Some s :: rest =>
      match built_marker (Context.rstrip s) with
      | Some image =>
          let full_image :=
            Prune.get_full_image built_images (Context.rstrip image) in
          match have_tag name full_image built_images with
          | Raise e => (Raise e, [])
          | Return true => (Return full_image, [])
          | Return false =>
              (Return full_image, [api_tag full_image name uuid1])
          end
      | None => scan_output name rest
      end
  end.

(** The function from the check of the builder directory on.  The
    imports of the Dockerfile's [FROM secure:] lines have been requested
    by the time anything else can fail. *)
Definition build_image (name : string) : result string * list event :=
  let p := Context.join ddir ("builder-" +:+ name) in
  if negb (isdir p)
  then (Raise (Exception ("Unknown Docker builder name: " +:+ name)), [])
  else
    match Context.build_context ROOT exists_ vct_files (walk p)
            import_base_image (dockerfile p) with
    | (Raise e, imported) => (Raise e, map importer imported)
    | (Return context, imported) =>
        match build_output context with
        | Raise e =>
            (Raise e, (map importer imported ++ [api_build context])%list)
        | Return items =>
            let '(r, evs) := scan_output name items in
            (r, (map importer imported ++ api_build context :: evs)%list)
        end
    end.

Definition ensure_built (name : string) (use_last : bool)
    : result string * list event :=
  if use_last then
    match last_image name (_get_sorted_images docker_images) with
    | Raise e => (Raise e, [])
    | Return (Some iid) => (Return iid, [])
    | Return None => build_image name
    end
  else build_image name.

End Env.

(** The requests for a build among the events. *)
Definition builds (evs : list event) : list (list Context.entry) :=
  omap (fun e => match e with api_build c => Some c | _ => None end) evs.

(** The tags applied among the events. *)
Definition tags (evs : list event) : list (string * string * string) :=
  omap (fun e => match e with api_tag i r t => Some (i, r, t) | _ => None end)
       evs.

(** The requests of the importer among the events. *)
Definition imports (evs : list event) : list Importer.event :=
  omap (fun e => match e with importer i => Some i | _ => None end) evs.

(** The image has a tag [name:<tag>]. *)
Definition has_repo (name : string) (i : image) : Prop :=
  exists tag, name +:+ ":" +:+ tag ∈ repotags_of i.

End Orchestrator.

(** ** Notions for statements about [ensure_built] *)

Module OrchestratorSpec.

(** The image has a tag [name:<tag>] with a single colon. *)
Definition carries (name : string) (i : image) : Prop :=
  exists repotag tag,
    repotag ∈ repotags_of i /\ Str.split colon repotag = [name; tag].

(** The image has a tag whose part before the first colon is [name]. *)
Definition carries_repo (name : string) (i : image) : Prop :=
  exists repotag tag,
    repotag ∈ repotags_of i /\ Str.splitn colon 1 repotag = [name; tag].

(** Every tag of the image contains a colon. *)
Definition colon_tags (i : image) : Prop :=
  Forall (fun repotag =>
            exists repo tag, Str.splitn colon 1 repotag = [repo; tag])
         (repotags_of i).

(** An item of the build's output without the success marker. *)
Definition unmarked (item : option string) : Prop :=
  match item with
  | None => True
  | Some s => Orchestrator.built_marker (Context.rstrip s) = None
  end.

(** The first image of the list with the given id. *)
Definition first_with_id (iid : string) (imgs : list image) : option image :=
  List.find (fun i => bool_decide (Id i = iid)) imgs.

(** Every image is at least as recent as the images after it. *)
Fixpoint newest_first (l : list image) : Prop :=
  match l with
  | [] => True
  | x :: l' => Forall (fun y => Created y <= Created x) l' /\ newest_first l'
  end.

End OrchestratorSpec.

(** ** A builder for the examples *)

Module OrchestratorExamples.

Definition nl : string := String "010"%char EmptyString.

Definition ldap_dockerfile (p : string) : list string :=
  ["FROM centos:7" +:+ nl; "# %include testing/docker/sync.sh" +:+ nl].

Definition ldap_walk (p : string) : list (string * string) :=
  Context.only_dockerfile.

(** The output of a build that succeeds and of one that fails. *)
Definition good_output (context : list Context.entry)
    : result (list (option string)) :=
  Return [Some ("Step 1/2 : FROM centos:7" +:+ nl); None;
          Some ("Successfully built 0123456789ab" +:+ nl)].

Definition bad_output (context : list Context.entry)
    : result (list (option string)) :=
  Return [Some ("Step 1/2 : FROM centos:7" +:+ nl);
          Some ("The command returned a non-zero code: 1" +:+ nl)].

Definition after_build : list image :=
  [Image "sha256:0123456789abcdef" 5 None].

Definition before_build : list image :=
  [Image "sha256:aaaa" 3 (Some ["ldap:5a5a"]);
   Image "sha256:bbbb" 4 (Some ["ldap:6b6b"; "pulse:7c7c"])].

Definition a_uuid : string := "f81d4fae-7dec-11d0-a765-00a0c91e6bf6".

Definition ldap_context : list Context.entry :=
  [Context.addfile "Dockerfile";
   Context.add "/vct/testing/docker/sync.sh"
               "extra/vct/testing/docker/sync.sh"].

(** A builder whose Dockerfile starts from a secure base image and whose
    directory holds a [.dockerignore], with an importer that finds no
    cached image, downloads the two chunks of the base image and imports
    them. *)
Definition secure_dockerfile (p : string) : list string :=
  ["FROM secure:centos:centos7:sha256 layer:https://host/centos7.tar"
     +:+ nl].

Definition ignoring_walk (p : string) : list (string * string) :=
  [("Dockerfile", "Dockerfile"); (".dockerignore", ".dockerignore")].

Definition downloading (repository tagprefix url digest : string)
    : result string * list Importer.event :=
  Importer.import_base_image ImporterExamples.plain_digest
    ImporterExamples.one_layer ImporterExamples.no_lzma
    ImporterExamples.imported ImporterExamples.status_id []
    repository tagprefix url digest.

End OrchestratorExamples.

(** ** Container context managers and the provisioning run *)

Module Managers.

(** What [inspect_container] reports, as far as the module reads it. *)
Record inspected : Type := Inspected {
  Running : bool;
  ExitCode : Z;
  Name : string
}.

(** The requests to the daemon and to the host, and the lines printed. *)
Inductive event : Type :=
| inspect_container (cid : string)
| ensure_built_vct
| create_vct (image : string)
| create_provisioner (image : string) (command : list string)
                     (volumes_from : string)
| start (cid : string)
| sync (cid : string)
| save_state (st : state)
| stop (cid : string)
| remove_container (cid : string)
| attach (cid : string)
| commit (cid repository tag : string)
| print (line : string).

#[global] Instance inspected_eq_dec : EqDecision inspected.
Proof. solve_decision. Defined.

(** Truth value of an argument that is a string or [None]. *)
Definition truthy (o : option string) : bool :=
  match o with
  | Some s => Str.truthy s
  | None => false
  end.

Definition set_vct_cid (v : option string) (st : state) : state :=
  State (clobber st) (images st) (containers st) (last_pulse_id st)
        (last_rbweb_id st) (last_rbweb_bootstrap_id st) (last_hgrb_id st)
        (last_hgmaster_id st) (last_hgweb_id st) (last_ldap_id st)
        (last_vct_id st) (last_treestatus_id st) v.

Definition set_last_vct_id (v : option string) (st : state) : state :=
  State (clobber st) (images st) (containers st) (last_pulse_id st)
        (last_rbweb_id st) (last_rbweb_bootstrap_id st) (last_hgrb_id st)
        (last_hgmaster_id st) (last_hgweb_id st) (last_ldap_id st)
        v (last_treestatus_id st) (vct_cid st).

(** A [finally:] clause: what it raises replaces the outcome of the
    [try:] block. *)
Definition finally_ {A} (r : result A) (cleanup : result unit) : result A :=
  match cleanup with
  | Raise e => Raise e
  | Return _ => r
  end.

(** [s.splitlines()] on a byte string: lines end at a line feed, a
    carriage return or the pair of them, and an empty last line is
    dropped. *)
Fixpoint splitlines_from (cur s : string) : list string :=
  match s with
  | EmptyString => if Str.truthy cur then [cur] else []
  | String a s' =>
      if Ascii.eqb a "013" then
        match s' with
        | String b s'' =>
            if Ascii.eqb b "010" then cur :: splitlines_from "" s''
            else cur :: splitlines_from "" s'
        | EmptyString => [cur]
        end
      else if Ascii.eqb a "010" then cur :: splitlines_from "" s'
      else splitlines_from (cur +:+ String a "") s'
  end.

Definition splitlines (s : string) : list string := splitlines_from "" s.

(** [deque(maxlen=n).append(x)]: a full deque drops its oldest entry. *)
Definition deque_append {A} (maxlen : nat) (d : list A) (x : A) : list A :=
  if (maxlen <=? length d)%nat then (drop 1 d ++ [x])%list
  else (d ++ [x])%list.

Section Env.

Variable ROOT : string.
Variable getmtime : string -> result Q.
Variable now : Q.

(** The daemon's answers.  [inspect_existing] answers for a container
    the manager did not start, [inspect_started] right after a start. *)
Variable inspect_existing : string -> result inspected.
Variable inspect_started : string -> result inspected.
Variable start_result : string -> result unit.
Variable stop_result : string -> result unit.
Variable create_result : string -> result string.
Variable create_provisioner_result :
  string -> list string -> string -> result string.
Variable remove_result : string -> result unit.

(** [self.ensure_built('vct')] *)
Variable ensure_built_vct_result : result string.

(** Reading the published rsync port, listing the files of the checkout
    and running rsync (lines 1016 to 1035). *)
Variable sync_result : string -> inspected -> result unit.

(** [self.save_state()] *)
Variable save_result : state -> result unit.

Section With.

Variable A : Type.

(** The body of the [with] statement: its outcome and what it requests,
    or [None] when it does not return. *)
Variable body : inspected -> option (result A * list event).

(** [start_container(cid)] as a [with] statement around [body]. *)
Definition start_container (cid : string)
    : option (result A * list event) :=
  match start_result cid with
  | Raise e => Some (Raise e, [start cid])
  | Return _ =>
      inner ← match inspect_started cid with
              | Raise e => Some (Raise e, [inspect_container cid])
              | Return st =>
                  '(r, evs) ← body st;
                  Some (r, inspect_container cid :: evs)
              end;
      let '(r, evs) := inner in
      let cleanup :=
        match stop_result cid with
        | Raise (DockerAPIError status) =>
            if status =? 404 then Return ()
            else Raise (DockerAPIError status)
        | other => other
        end in
      Some (finally_ r cleanup, (start cid :: evs ++ [stop cid])%list)
  end.

(** The part of [vct_container] inside [try:], for a container this
    call starts. *)
Definition started (image : option string) (cid : string) (st : state)
    : option (result A * state * list event) :=
  match start_result cid with
  | Raise e => Some (Raise e, st, [start cid])
  | Return _ =>
      match inspect_started cid with
      | Raise e => Some (Raise e, st, [start cid; inspect_container cid])
      | Return i =>
          match sync_result cid i with
          | Raise e =>
              Some (Raise e, st,
                    [start cid; inspect_container cid; sync cid])
          | Return _ =>
              let st := set_vct_cid (Some cid) (set_last_vct_id image st) in
              match save_result st with
              | Raise e =>
                  Some (Raise e, st,
                        [start cid; inspect_container cid; sync cid;
                         save_state st])
              | Return _ =>
                  '(r, evs) ← body i;
                  Some (r, st,
                        ([start cid; inspect_container cid; sync cid;
                          save_state st] ++ evs)%list)
              end
          end
      end
  end.

(** [try: ... finally: if start: self.api_client.stop(cid)] *)
Definition start_and_stop (image : option string) (cid : string)
    (st : state) : option (result A * state * list event) :=
  '(r, st, evs) ← started image cid st;
  Some (finally_ r (stop_result cid), st, (evs ++ [stop cid])%list).

(** The three modes, once [existing_cid] is verified and the image
    built. *)
Definition enter (image cid existing_cid : option string) (st : state)
    : option (result A * state * list event) :=
  if truthy cid then
    let c := default "" cid in
    match inspect_existing c with
    | Raise e => Some (Raise e, st, [inspect_container c])
    | Return i =>
        if negb (Running i) then
          Some (Raise (RuntimeError
                  ("Container '" +:+ c +:+
                   "' should have been started by the calling " +:+
                   "function, but is not running")),
                st, [inspect_container c])
        else
          '(r, evs) ← body i;
          Some (r, st, inspect_container c :: evs)
    end
  else if truthy existing_cid then
    start_and_stop image (default "" existing_cid) st
  else
    let i := default "" image in
    match create_result i with
    | Raise e => Some (Raise e, st, [create_vct i])
    | Return c =>
        '(r, st, evs) ← start_and_stop image c st;
        Some (r, st, create_vct i :: evs)
    end.

(** [vct_container(image, cid)] as a [with] statement around [body]. *)
Definition vct_container (image cid : option string) (st : state)
    : option (result A * state * list event) :=
  let existing_cid := vct_cid st in
  match Clobber.clobber_needed ROOT getmtime "vct" now st with
  | (Raise e, st) => Some (Raise e, st, [])
  | (Return needed, st) =>
      let existing_cid := if needed then None else existing_cid in
      let image := if needed then None else image in
      let '(verified, existing_cid, st, ev1) :=
        if negb (truthy cid) && truthy existing_cid then
          let c := default "" existing_cid in
          match inspect_existing c with
          | Return _ =>
              (Return (), existing_cid, st, [inspect_container c])
          | Raise (DockerAPIError _) =>
              (Return (), None, set_vct_cid None st, [inspect_container c])
          | Raise e => (Raise e, existing_cid, st, [inspect_container c])
          end
        else (Return (), existing_cid, st, []) in
      match verified with
      | Raise e => Some (Raise e, st, ev1)
      | Return _ =>
          let '(built, ev2) :=
            if negb (truthy image) && negb (truthy cid)
               && negb (truthy existing_cid)
            then (match ensure_built_vct_result with
                  | Return i => Return (Some i)
                  | Raise e => Raise e
                  end, [ensure_built_vct])
            else (Return image, []) in
          match built with
          | Raise e => Some (Raise e, st, (ev1 ++ ev2)%list)
          | Return image =>
              '(r, st, evs) ← enter image cid existing_cid st;
              Some (r, st, (ev1 ++ ev2 ++ evs)%list)
          end
      end
  end.

(** [create_container(image, command=..., host_config=...)] as a [with]
    statement: the container is removed when the block is left. *)
Definition create_container (image : string) (command : list string)
    (volumes_from : string) (block : string -> option (result A * list event))
    : option (result A * list event) :=
  match create_provisioner_result image command volumes_from with
  | Raise e => Some (Raise e, [create_provisioner image command volumes_from])
  | Return c =>
      '(r, evs) ← block c;
      Some (finally_ r (remove_result c),
            (create_provisioner image command volumes_from
               :: evs ++ [remove_container c])%list)
  end.

End With.

(** *** The provisioning run, lines 727 to 771 of [run_ansible] *)

(** What [attach(cid, stream=True, logs=True)] yields at its [n]-th
    call, with the error that ends the stream if one does, and what
    [inspect_container] reports after it. *)
Variable attach_result : nat -> list string * option exn.
Variable inspect_round : nat -> result inspected.
Variable commit_result : string -> string -> string -> result string.
Variable docker_images : list image.
Variable uuid1 : string.

Variable verbose : bool.
Variable repository : string.

(** The lines of one chunk. *)
Fixpoint feed_lines (output : list string) (lines : list string)
    : list string * list event :=
  match lines with
  | [] => (output, [])
  | line :: rest =>
      if bool_decide (line <> "") then
        let '(output', evs) := feed_lines (deque_append 20 output line) rest in
        (output',
         if verbose then print (repository +:+ "> " +:+ line) :: evs
         else evs)
      else feed_lines output rest
  end.

Fixpoint feed (output : list string) (chunks : list string)
    : list string * list event :=
  match chunks with
  | [] => (output, [])
  | s :: rest =>
      let '(output, ev1) := feed_lines output (splitlines s) in
      let '(output, ev2) := feed output rest in
      (output, (ev1 ++ ev2)%list)
  end.

(** The [while True:] loop from its [n]-th pass on; [None] when the
    container is still running after [fuel] passes. *)
Fixpoint attach_loop (fuel n : nat) (cid : string) (output : list string)
    : option (result inspected * list string * list event) :=
  match fuel with
  | O => None
  | S fuel =>
      let '(chunks, err) := attach_result n in
      let '(output, evs) := feed output chunks in
      match err with
      | Some e => Some (Raise e, output, attach cid :: evs)
      | None =>
          match inspect_round n with
          | Raise e =>
              Some (Raise e, output,
                    (attach cid :: evs ++ [inspect_container cid])%list)
          | Return st =>
              if negb (Running st) then
                Some (Return st, output,
                      (attach cid :: evs ++ [inspect_container cid])%list)
              else
                '(r, output, evs') ← attach_loop fuel (S n) cid output;
                Some (r, output,
                      (attach cid :: evs ++ [inspect_container cid]
                         ++ (if verbose
                             then [print (repository +:+
                               "> (timeout waiting for output; re-attaching)")]
                             else [])
                         ++ evs')%list)
          end
      end
  end.

(** The block of [with self.create_container(...) as cid:]. *)
Definition provision_block (fuel : nat) (cid : string)
    : option (result (string * string * string) * list event) :=
  match start_result cid with
  | Raise e => Some (Raise e, [start cid])
  | Return _ =>
      '(r, output, evs) ← attach_loop fuel 0 cid [];
      match r with
      | Raise e => Some (Raise e, start cid :: evs)
      | Return st =>
          if negb (ExitCode st =? 0) then
            Some (Raise (Exception ("Ansible did not run on " +:+ repository
                                    +:+ " successfully")),
                  (start cid :: evs ++
                   map (fun line =>
                          print ("ERROR " +:+ repository +:+ "> " +:+ line))
                       output)%list)
          else
            let tag := uuid1 in
            match commit_result cid repository tag with
            | Raise e =>
                Some (Raise e,
                      (start cid :: evs ++ [commit cid repository tag])%list)
            | Return iid =>
                Some (Return (Prune.get_full_image docker_images iid,
                              repository, tag),
                      (start cid :: evs ++ [commit cid repository tag])%list)
            end
      end
  end.

(** The two nested [with] statements of [run_ansible]. *)
Definition provision (fuel : nat) (playbook start_image : string)
    (vct_image vct_cid : option string) (st : state)
    : option (result (string * string * string) * state * list event) :=
  vct_container _
    (fun vct_state =>
       create_container _ start_image
         ["/sync-and-build"; playbook +:+ ".yml"] (Name vct_state)
         (provision_block fuel))
    vct_image vct_cid st.

End Env.

End Managers.

(** ** Vocabulary for the statements about the managers *)

Module ManagersSpec.

Import Managers.

(** The requests [vct_container] makes before it starts a container. *)
Definition setup (e : event) : bool :=
  match e with
  | inspect_container _ | ensure_built_vct | create_vct _ => true
  | _ => false
  end.

(** The requests of the attach loop. *)
Definition polling (e : event) : bool :=
  match e with
  | attach _ | inspect_container _ | print _ => true
  | _ => false
  end.

Definition is_print (e : event) : bool :=
  match e with
  | print _ => true
  | _ => false
  end.

Definition is_attach (e : event) : bool :=
  match e with
  | attach _ => true
  | _ => false
  end.

(** The last [n] elements. *)
Definition lastn {A} (n : nat) (l : list A) : list A :=
  drop (length l - n) l.

(** The non-empty lines of the chunks of one [attach] call. *)
Definition lines_of (chunks : list string) : list string :=
  filter (fun line => line <> "") (concat (map splitlines chunks)).

Section Rounds.

Variable attach_result : nat -> list string * option exn.
Variable inspect_round : nat -> result inspected.

(** The non-empty lines of the passes [n] to [n + k]. *)
Fixpoint lines_upto (n k : nat) : list string :=
  match k with
  | O => lines_of (attach_result n).1
  | S k => (lines_of (attach_result n).1 ++ lines_upto (S n) k)%list
  end.

(** No stream breaks, the container is reported running after each of
    the passes [n] to [n + k - 1], and stopped, as [st], after pass
    [n + k]. *)
Fixpoint stops_at (n k : nat) (st : inspected) : Prop :=
  match k with
  | O => (attach_result n).2 = None /\ inspect_round n = Return st /\
         Running st = false
  | S k => (attach_result n).2 = None /\
           (exists i, inspect_round n = Return i /\ Running i = true) /\
           stops_at (S n) k st
  end.

End Rounds.

End ManagersSpec.

(** ** A daemon for the examples of the managers *)

Module ManagersExamples.

Import Managers.

Definition no_marker (p : string) : result Q := Raise (OSError Clobber.ENOENT).
Definition new_marker (p : string) : result Q := Return (200 # 1).

Definition up : inspected := Inspected true 0 "vct-1".
Definition down (code : Z) : inspected := Inspected false code "ansible-1".

Definition inspect_up (cid : string) : result inspected := Return up.
Definition inspect_gone (cid : string) : result inspected :=
  Raise (DockerAPIError 404).
Definition ok (cid : string) : result unit := Return ().
Definition create_ok (image : string) : result string := Return "c-new".
Definition create_job (image : string) (command : list string)
    (volumes_from : string) : result string := Return "c-job".
Definition built : result string := Return "sha256:vct".
Definition sync_ok (cid : string) (i : inspected) : result unit := Return ().
Definition save_ok (st : state) : result unit := Return ().

(** A state that remembers a container. *)
Definition remembering : state :=
  State ∅ ∅ ∅ None None None None None None None (Some "sha256:old") None
        (Some "c-old").

(** A body that returns at once. *)
Definition quiet_body (i : inspected) : option (result Z * list event) :=
  Some (Return 7, [print "body"]).

(** Two passes of output, twenty-two lines in all; the container is
    still running after the first. *)
Definition nl : string := String "010"%char EmptyString.

Definition numbered (l : list string) : string :=
  foldr (fun x acc => x +:+ nl +:+ acc) "" l.

Definition two_passes (n : nat) : list string * option exn :=
  match n with
  | O => ([numbered ["l01"; "l02"; "l03"; "l04"; "l05"; "l06"; "l07"; "l08";
                     "l09"; "l10"; "l11"]; nl], None)
  | _ => ([numbered ["l12"; "l13"; "l14"; "l15"; "l16"; "l17"; "l18"; "l19";
                     "l20"; "l21"; "l22"]], None)
  end.

Definition fails_second (n : nat) : result inspected :=
  match n with
  | O => Return (Inspected true 0 "ansible-1")
  | _ => Return (down 2)
  end.

Definition succeeds_second (n : nat) : result inspected :=
  match n with
  | O => Return (Inspected true 0 "ansible-1")
  | _ => Return (down 0)
  end.

Definition commit_ok (cid repository tag : string) : result string :=
  Return "0123456789ab".

Definition listed : list image := [Image "sha256:0123456789abcdef" 5 None].

End ManagersExamples.

(** * Properties *)

(** ** The model on small inputs *)

Module Checks.

Example split_three : Str.split colon "a:b:c" = ["a"; "b"; "c"].
Proof. reflexivity. Qed.

Example split_empty : Str.split colon "" = [""].
Proof. reflexivity. Qed.

Example split_untagged : Str.split colon "<none>:<none>" = ["<none>"; "<none>"].
Proof. reflexivity. Qed.

Example splitn_once : Str.splitn colon 1 "localhost:5000/base:latest"
                      = ["localhost"; "5000/base:latest"].
Proof. reflexivity. Qed.

Example splitn_secure :
  Str.splitn colon 3 "centos:7:sha256 0f3a:https://host/centos7.tar.xz"
  = ["centos"; "7"; "sha256 0f3a"; "https://host/centos7.tar.xz"].
Proof. reflexivity. Qed.

Example endswith_xz : Str.endswith "https://host/centos7.tar.xz" ".xz" = true.
Proof. reflexivity. Qed.

Example endswith_short : Str.endswith "xz" ".xz" = false.
Proof. reflexivity. Qed.

Example rstrip_newline : Context.rstrip ("# %include testing/  " +:+ String "010" "")
                         = "# %include testing/".
Proof. reflexivity. Qed.

Example join_relative : Context.join "/vct" "testing/" = "/vct/testing/".
Proof. reflexivity. Qed.

Example join_absolute : Context.join "/vct" "/" = "/".
Proof. reflexivity. Qed.

Example py_int_truncates : Clobber.py_int (7 # 2) = 3 /\ Clobber.py_int (-7 # 2) = -3.
Proof. split; reflexivity. Qed.

Example pool_limited :
  Scheduler.limited_threadpoolexecutor (Some 3) (Some 2) = Some 2 /\
  Scheduler.limited_threadpoolexecutor (Some 3) None = Some 3 /\
  Scheduler.limited_threadpoolexecutor (Some 3) (Some 0) = Some 3 /\
  Scheduler.limited_threadpoolexecutor None (Some 4) = Some 4.
Proof. repeat split. Qed.

Example sorted_newest_first :
  map Id (_get_sorted_images
            [Image "a" 1 None; Image "b" 3 None; Image "c" 3 None;
             Image "d" 2 None])
  = ["b"; "c"; "d"; "a"].
Proof. reflexivity. Qed.

Example full_image_from_short :
  Prune.get_full_image [Image "sha256:0123456789abcdef" 1 None] "0123456789ab"
  = "sha256:0123456789abcdef" /\
  Prune.get_full_image [Image "sha256:0123456789abcdef" 1 None] "hgweb:latest"
  = "hgweb:latest".
Proof. split; reflexivity. Qed.

Example sorted_roles :
  Scheduler.sorted {["ldap"; "hgweb"; "hgmaster"]} = ["hgmaster"; "hgweb"; "ldap"].
Proof. vm_compute. reflexivity. Qed.

End Checks.

(** ** The rollback guard *)

Module RollbackFacts.
Import Rollback.

Lemma run_op_frame o c :
  class_ (run_op o c).2 = class_ c /\ calls (run_op o c).2 = calls c /\
  next_scope (run_op o c).2 = next_scope c.
Proof. destruct o as [[?|?]|[?|?]|?]; done. Qed.

Lemma run_ops_frame ops : forall c,
  class_ (run_ops ops c).2 = class_ c /\ calls (run_ops ops c).2 = calls c.
Proof.
  induction ops as [|o ops IH]; intros c; simpl; [done|].
  destruct (run_op_frame o c) as (Hk & Hc & _).
  destruct (run_op o c) as [[e|] c'] eqn:E; simpl in *; [done|].
  destruct (IH c') as [-> ->]. done.
Qed.

Lemma run_ops_raised ops : forall c, (run_ops ops c).1 = raised ops.
Proof.
  induction ops as [|o ops IH]; intros c; simpl; [done|].
  destruct o as [[?|?]|[?|?]|?]; simpl; auto.
Qed.

(** A class whose chain does not mention scope [s] leaves the sets of [s]
    alone. *)
Lemma track_container_other k cid cl s :
  s ∉ scopes k -> track_container k cid cl !! s = cl !! s.
Proof.
  induction k as [|s' k IH]; simpl; [done|].
  intros Hs. apply not_elem_of_cons in Hs as [Hne Hs].
  rewrite lookup_alter_ne; auto.
Qed.

Lemma track_network_other k nid cl s :
  s ∉ scopes k -> track_network k nid cl !! s = cl !! s.
Proof.
  induction k as [|s' k IH]; simpl; [done|].
  intros Hs. apply not_elem_of_cons in Hs as [Hne Hs].
  rewrite lookup_alter_ne; auto.
Qed.

Lemma run_ops_other ops s : forall c,
  s ∉ scopes (class_ c) -> closures (run_ops ops c).2 !! s = closures c !! s.
Proof.
  induction ops as [|o ops IH]; intros c Hs; simpl; [done|].
  destruct o as [[cid|?]|[nid|?]|?]; simpl; try done.
  - rewrite IH; simpl; [|done]. by apply track_container_other.
  - rewrite IH; simpl; [|done]. by apply track_network_other.
Qed.


Lemma track_container_here k cid cl s t :
  cl !! s = Some t ->
  exists t', track_container k cid cl !! s = Some t' /\
    created_networks t' = created_networks t /\
    forall x, x ∈ created_containers t' <->
              x ∈ created_containers t \/ (x = cid /\ s ∈ scopes k).
Proof.
  intros Ht. induction k as [|s' k (t' & Hl & Hn & Hc)]; simpl.
  - exists t. split_and!; [done..|]. set_solver.
  - destruct (decide (s' = s)) as [->|Hne].
    + exists (add_container cid t'). rewrite lookup_alter_eq, Hl. simpl.
      split_and!; [done..|]. intros x. rewrite elem_of_union, Hc. set_solver.
    + exists t'. rewrite lookup_alter_ne; [|done].
      split_and!; [done..|]. intros x. rewrite Hc. set_solver.
Qed.

Lemma track_network_here k nid cl s t :
  cl !! s = Some t ->
  exists t', track_network k nid cl !! s = Some t' /\
    created_containers t' = created_containers t /\
    forall x, x ∈ created_networks t' <->
              x ∈ created_networks t \/ (x = nid /\ s ∈ scopes k).
Proof.
  intros Ht. induction k as [|s' k (t' & Hl & Hn & Hc)]; simpl.
  - exists t. split_and!; [done..|]. set_solver.
  - destruct (decide (s' = s)) as [->|Hne].
    + exists (add_network nid t'). rewrite lookup_alter_eq, Hl. simpl.
      split_and!; [done..|]. intros x. rewrite elem_of_union, Hc. set_solver.
    + exists t'. rewrite lookup_alter_ne; [|done].
      split_and!; [done..|]. intros x. rewrite Hc. set_solver.
Qed.

(** What the sets of a scope in the chain hold when the block ends. *)
Lemma run_ops_tracked ops s : forall c t,
  s ∈ scopes (class_ c) -> closures c !! s = Some t ->
  exists t', closures (run_ops ops c).2 !! s = Some t' /\
    (forall x, x ∈ created_containers t' <->
               x ∈ created_containers t \/ x ∈ containers_created ops) /\
    (forall x, x ∈ created_networks t' <->
               x ∈ created_networks t \/ x ∈ networks_created ops).
Proof.
  induction ops as [|o ops IH]; intros c t Hs Ht; simpl.
  - exists t. split_and!; [done|set_solver..].
  - destruct o as [[cid|?]|[nid|?]|?]; simpl;
      try (exists t; split_and!; [done|set_solver..]).
    + destruct (track_container_here (class_ c) cid _ _ _ Ht)
        as (t1 & Hl & Hn & Hc).
      destruct (IH (set_closures (track_container (class_ c) cid (closures c)) c)
                   t1 Hs Hl) as (t' & Hl' & Hc' & Hn').
      exists t'. split_and!; [done|..].
      * intros x. rewrite Hc', Hc. set_solver.
      * intros x. rewrite Hn', Hn. set_solver.
    + destruct (track_network_here (class_ c) nid _ _ _ Ht)
        as (t1 & Hl & Hc & Hn).
      destruct (IH (set_closures (track_network (class_ c) nid (closures c)) c)
                   t1 Hs Hl) as (t' & Hl' & Hc' & Hn').
      exists t'. split_and!; [done|..].
      * intros x. rewrite Hc', Hc. set_solver.
      * intros x. rewrite Hn', Hn. set_solver.
Qed.

Section Removal.
Variable remove_error : call -> option exn.

Lemma remove_each_frame mk ids : forall c,
  class_ (remove_each remove_error mk ids c).2 = class_ c /\
  closures (remove_each remove_error mk ids c).2 = closures c.
Proof.
  induction ids as [|x ids IH]; intros c; simpl; [done|].
  destruct (remove_error (mk x)); simpl; [done|].
  destruct (IH (log_call (mk x) c)) as [-> ->]. done.
Qed.

(** When no request fails the loop sends all of them. *)
Lemma remove_each_all mk ids : forall c,
  Forall (fun x => remove_error (mk x) = None) ids ->
  remove_each remove_error mk ids c =
    (None, Client (class_ c) (closures c) (next_scope c)
                  (calls c ++ map mk ids)).
Proof.
  induction ids as [|x ids IH]; intros c Hok; simpl.
  - rewrite app_nil_r. by destruct c.
  - apply Forall_cons in Hok as [-> Hok]. rewrite IH; [|done]. simpl.
    by rewrite <- app_assoc.
Qed.

Lemma remove_each_none mk ids : forall c c',
  remove_each remove_error mk ids c = (None, c') ->
  Forall (fun x => remove_error (mk x) = None) ids.
Proof.
  induction ids as [|x ids IH]; intros c c'; simpl; [by constructor|].
  destruct (remove_error (mk x)) eqn:E; [done|].
  intros H. constructor; [done|]. by eapply IH.
Qed.

(** The loop never sends anything after a failed request. *)
Lemma remove_each_stops mk ids : forall c e c',
  remove_each remove_error mk ids c = (Some e, c') ->
  exists done_ x, calls c' = (calls c ++ map mk done_ ++ [mk x])%list /\
    remove_error (mk x) = Some e /\
    Forall (fun y => remove_error (mk y) = None) done_.
Proof.
  induction ids as [|x ids IH]; intros c e c'; simpl; [done|].
  destruct (remove_error (mk x)) as [e0|] eqn:E.
  - intros [= <- <-]. exists [], x. simpl. done.
  - intros H. apply IH in H as (d & y & Hc & He & Hd).
    exists (x :: d), y. simpl in *. rewrite Hc. rewrite <- app_assoc.
    split_and!; [done|done|]. by constructor.
Qed.

End Removal.


(** The sets of the scope when its block ends are the ids created in it. *)
Lemma entered_tracked body c :
  exists t, closures (run_ops body (entered c)).2 !! next_scope c = Some t /\
    created_containers t = list_to_set (containers_created body) /\
    created_networks t = list_to_set (networks_created body).
Proof.
  destruct (run_ops_tracked body (next_scope c) (entered c) no_tracked)
    as (t & Hl & Hc & Hn).
  - simpl. set_solver.
  - simpl. apply lookup_insert_eq.
  - exists t. split_and!; [done|..]; apply set_eq; intros x.
    + rewrite Hc, elem_of_list_to_set. simpl. set_solver.
    + rewrite Hn, elem_of_list_to_set. simpl. set_solver.
Qed.

#[local] Instance remove_container_inj : Inj eq eq remove_container.
Proof. by intros ?? [= ->]. Qed.

#[local] Instance remove_network_inj : Inj eq eq remove_network.
Proof. by intros ?? [= ->]. Qed.

Section Orders.

Variable remove_error : call -> option exn.
Variable container_order : gset string -> list string.
Variable network_order : gset string -> list string.

Abbreviation rollback :=
  (rollback remove_error container_order network_order).
Abbreviation docker_rollback_on_error :=
  (docker_rollback_on_error remove_error container_order network_order).
Abbreviation requests := (requests container_order network_order).

Lemma rollback_unfold body c :
  docker_rollback_on_error body c =
  let r := match run_ops body (entered c) with
           | (Some e, c2) =>
               if is_Exception e then rollback (next_scope c) e c2
               else (Some e, c2)
           | (None, c2) => (None, c2)
           end in
  (r.1, set_class (class_ c) r.2).
Proof.
  unfold Rollback.docker_rollback_on_error.
  destruct (run_ops _ _) as [[e|] c2]; simpl; [|done].
  destruct (is_Exception e); [|done]. by destruct (Rollback.rollback _ _ _ _ _ _).
Qed.

(** A loop whose requests before [x] succeed and whose request [x] fails
    stops at [x]. *)
Lemma remove_each_fails mk done_ x rest e' : forall c,
  Forall (fun y => remove_error (mk y) = None) done_ ->
  remove_error (mk x) = Some e' ->
  remove_each remove_error mk (done_ ++ x :: rest) c =
    (Some e', Client (class_ c) (closures c) (next_scope c)
                     (calls c ++ map mk done_ ++ [mk x])).
Proof.
  induction done_ as [|y done_ IH]; intros c Hok Hx; simpl.
  - by rewrite Hx.
  - apply Forall_cons in Hok as [-> Hok]. rewrite IH by done. simpl.
    by rewrite <- app_assoc.
Qed.

(** Splitting a list of requests of the two kinds at its first failure. *)
Lemma requests_split (cids nids : list string) sent x rest :
  (map remove_container cids ++ map remove_network nids)%list
    = (sent ++ x :: rest)%list ->
  (exists d y r, cids = (d ++ y :: r)%list /\
                 sent = map remove_container d /\ x = remove_container y) \/
  (exists d y r, nids = (d ++ y :: r)%list /\
                 sent = (map remove_container cids
                           ++ map remove_network d)%list /\
                 x = remove_network y).
Proof.
  revert sent. induction cids as [|a cids IH]; intros sent; simpl.
  - intros H. right.
    apply map_eq_app in H as (d & r' & -> & <- & Hr).
    apply map_eq_cons in Hr as (y & r & -> & <- & _).
    by exists d, y, r.
  - destruct sent as [|b sent]; simpl.
    + intros [= <- _]. left. by exists [], a, cids.
    + intros [= <- H]. apply IH in H as [(d & y & r & -> & -> & ->)|
                                          (d & y & r & -> & -> & ->)].
      * left. by exists (a :: d), y, r.
      * right. by exists d, y, r.
Qed.

(** C3 (amended).  A block that ends normally, or with an exception that
    is not an [Exception], has nothing removed.  When an [Exception]
    escapes the block, the removals gone through are those of the
    containers and then of the networks created in the block, each once,
    in the iteration order of the two sets.  If none of them fails, all
    are sent and the exception of the block is re-raised.  If one fails,
    it is the last request sent: the removals after it are not attempted
    and its error is raised in place of the exception of the block. *)
Theorem rollback_attempts_until_failure (body : list op) (c : client) :
  visits_once container_order -> visits_once network_order ->
  let r := docker_rollback_on_error body c in
  let reqs := requests body in
  (raised body = None -> r.1 = None /\ calls r.2 = calls c) /\
  (forall e, raised body = Some e -> is_Exception e = false ->
     r.1 = Some e /\ calls r.2 = calls c) /\
  (forall e, raised body = Some e -> is_Exception e = true ->
     Forall (fun x => remove_error x = None) reqs ->
     r.1 = Some e /\ calls r.2 = (calls c ++ reqs)%list) /\
  (forall e sent x rest e', raised body = Some e -> is_Exception e = true ->
     reqs = (sent ++ x :: rest)%list ->
     Forall (fun y => remove_error y = None) sent ->
     remove_error x = Some e' ->
     r.1 = Some e' /\ calls r.2 = (calls c ++ sent ++ [x])%list) /\
  (NoDup reqs /\
   (forall cid, remove_container cid ∈ reqs <->
                cid ∈ containers_created body) /\
   (forall nid, remove_network nid ∈ reqs <->
                nid ∈ networks_created body)).
Proof.
  intros Hco Hno r reqs. subst r reqs. rewrite rollback_unfold.
  pose proof (run_ops_raised body (entered c)) as Hout.
  destruct (run_ops_frame body (entered c)) as [_ Hcalls].
  destruct (entered_tracked body c) as (t & Hl & Hc & Hn).
  destruct (run_ops body (entered c)) as [out c2]. simpl in *. subst out.
  unfold Rollback.requests.
  set (cids := container_order (list_to_set (containers_created body))).
  set (nids := network_order (list_to_set (networks_created body))).
  assert (forall e, Rollback.rollback remove_error container_order
                      network_order (next_scope c) e c2 =
            match remove_each remove_error remove_container cids c2 with
            | (Some e', c') => (Some e', c')
            | (None, c') =>
                match remove_each remove_error remove_network nids c' with
                | (Some e', c'') => (Some e', c'')
                | (None, c'') => (Some e, c'')
                end
            end) as Hroll.
  { intros e. unfold Rollback.rollback. rewrite Hl. simpl. by rewrite Hc, Hn. }
  split_and!.
  - intros ->. done.
  - intros e -> ->. done.
  - intros e -> -> Hok. apply Forall_app in Hok as [Hok1 Hok2].
    apply Forall_fmap in Hok1. apply Forall_fmap in Hok2.
    rewrite Hroll, remove_each_all by done.
    rewrite remove_each_all by done.
    simpl. by rewrite Hcalls, <- app_assoc.
  - intros e sent x rest e' -> -> Hreqs Hok Hx. rewrite Hroll.
    apply requests_split in Hreqs
      as [(d & y & r & Hd & -> & ->)|(d & y & r & Hd & -> & ->)].
    + apply Forall_fmap in Hok.
      rewrite Hd, (remove_each_fails _ d y r e' c2 Hok Hx).
      simpl. by rewrite Hcalls.
    + apply Forall_app in Hok as [Hok1 Hok2].
      apply Forall_fmap in Hok1. apply Forall_fmap in Hok2.
      rewrite remove_each_all by done.
      rewrite Hd, (remove_each_fails _ d y r e' _ Hok2 Hx).
      simpl. by rewrite Hcalls, <- !app_assoc.
  - apply NoDup_app. split_and!.
    + apply (NoDup_fmap_2 remove_container). subst cids. rewrite (Hco _).
      apply NoDup_elements.
    + intros x Hx Hx'. apply list_elem_of_fmap in Hx as (a & -> & _).
      by apply list_elem_of_fmap in Hx' as (b & ? & _).
    + apply (NoDup_fmap_2 remove_network). subst nids. rewrite (Hno _).
      apply NoDup_elements.
  - intros cid. rewrite elem_of_app, !list_elem_of_fmap. subst cids. split.
    + intros [(a & [= <-] & Ha)|(a & ? & _)]; [|done].
      rewrite (Hco _), elem_of_elements, elem_of_list_to_set in Ha. done.
    + intros H. left. exists cid. split; [done|].
      by rewrite (Hco _), elem_of_elements, elem_of_list_to_set.
  - intros nid. rewrite elem_of_app, !list_elem_of_fmap. subst nids. split.
    + intros [(a & ? & _)|(a & [= <-] & Ha)]; [done|].
      rewrite (Hno _), elem_of_elements, elem_of_list_to_set in Ha. done.
    + intros H. right. exists nid. split; [done|].
      by rewrite (Hno _), elem_of_elements, elem_of_list_to_set.
Qed.

(** C10.  Whatever the outcome of the block, the client has the class it
    had on entry when the context manager exits; creations made afterwards
    leave the sets of the exited scope as they were and cause no removal. *)
Theorem rollback_restores_class (body after : list op) (c : client) :
  Forall (fun s => (s < next_scope c)%nat) (scopes (class_ c)) ->
  let c' := (docker_rollback_on_error body c).2 in
  class_ c' = class_ c /\
  closures (run_ops after c').2 !! next_scope c = closures c' !! next_scope c /\
  calls (run_ops after c').2 = calls c'.
Proof.
  intros Hwf c'. subst c'. rewrite rollback_unfold. cbv zeta.
  match goal with |- context [set_class _ ?x] => generalize x end.
  intros c2. cbn [snd].
  split_and!; [done|..].
  - apply run_ops_other. cbn. intros Hin.
    eapply Forall_forall in Hwf; [|exact Hin]. lia.
  - apply run_ops_frame.
Qed.

End Orders.

Lemma visits_once_elements : visits_once elements.
Proof. by intros s. Qed.

(** A daemon that refuses the second of two containers: the first removal
    is sent, the second fails, and the network is not attempted. *)
Lemma rollback_attempts_until_failure_witness :
  let r := docker_rollback_on_error refusing_second elements elements
             two_containers fresh_client in
  r.1 = Some (DockerAPIError 409) /\
  calls r.2 = [remove_container "c1"; remove_container "c2"].
Proof.
  destruct (rollback_attempts_until_failure refusing_second elements
              elements two_containers fresh_client visits_once_elements
              visits_once_elements) as (_ & _ & _ & H & _).
  apply (H (Exception "boom") [remove_container "c1"]
           (remove_container "c2") [remove_network "n1"]
           (DockerAPIError 409)).
  - reflexivity.
  - reflexivity.
  - vm_compute. reflexivity.
  - by repeat constructor.
  - reflexivity.
Defined.

(** C3 as stated fails: the removal of the one created container is
    refused, so the network created in the block is never requested and
    the error of the refusal replaces the exception of the block.  Each
    set has one element, so the iteration order plays no part. *)
Lemma rollback_cleanup_error_masks :
  let r := docker_rollback_on_error refusing elements elements
             failing_block fresh_client in
  r.1 = Some (DockerAPIError 500) /\
  r.1 <> Some (Exception "boom") /\
  remove_network "n1" ∉ calls r.2.
Proof.
  vm_compute. split_and!; [done|done|].
  intros H. apply list_elem_of_singleton in H. discriminate.
Qed.

Lemma rollback_restores_class_witness :
  class_ (docker_rollback_on_error refusing elements elements failing_block
            fresh_client).2
    = DockerClient.
Proof.
  apply (rollback_restores_class refusing elements elements failing_block
           [do_create_container (Return "c3")] fresh_client).
  simpl. constructor.
Defined.

End RollbackFacts.

(** ** Clobber markers *)

Module ClobberFacts.
Import Clobber.

Lemma Qltb_lt a b : Qltb a b = true <-> (a < b)%Q.
Proof.
  unfold Qltb. rewrite negb_true_iff. split.
  - intros H. apply Qnot_le_lt. intros Hle.
    apply Qle_bool_iff in Hle. congruence.
  - intros H. destruct (Qle_bool b a) eqn:E; [|done].
    apply Qle_bool_iff in E. exfalso. by eapply Qlt_not_le.
Qed.

Lemma clobber_needed_unfold ROOT getmtime name now st newmtime :
  getmtime (clobber_path ROOT name) = Return newmtime ->
  (newer name st newmtime /\
   clobber_needed ROOT getmtime name now st =
     (Return true,
      set_clobber <[clobber_key name := Some (py_int now)]> st)) \/
  (~ newer name st newmtime /\
   clobber_needed ROOT getmtime name now st = (Return false, st)).
Proof.
  intros Hm. unfold clobber_needed, newer. rewrite Hm.
  destruct (oldmtime name st) as [old|]; [|by left].
  destruct (Qltb (inject_Z old) newmtime) eqn:E.
  - left. split; [by apply Qltb_lt|done].
  - right. split; [|done]. intros H. apply Qltb_lt in H. congruence.
Qed.

Lemma oldmtime_set name k v st :
  oldmtime name (set_clobber <[clobber_key k := v]> st) =
  if decide (clobber_key k = clobber_key name) then v else oldmtime name st.
Proof.
  unfold oldmtime. simpl. rewrite lookup_insert. by case_decide.
Qed.

(** C4 (amended).  For a role whose marker file exists, [clobber_needed]
    returns [True] exactly when no timestamp is stored or the marker's
    modification time is greater than the stored one; it then stores the
    time of the check, [int(time.time())], and otherwise leaves the state
    alone.  Hence a marker whose modification time is later than the whole
    second of the previous positive check is reported again. *)
Theorem clobber_needed_stores_check_time
    (ROOT : string) (getmtime getmtime' : string -> result Q)
    (name : string) (now now' : Q) (st : state) (newmtime newmtime' : Q) :
  getmtime (clobber_path ROOT name) = Return newmtime ->
  getmtime' (clobber_path ROOT name) = Return newmtime' ->
  let r := clobber_needed ROOT getmtime name now st in
  (r.1 = Return true \/ r.1 = Return false) /\
  (r.1 = Return true <-> newer name st newmtime) /\
  (r.1 = Return true ->
     oldmtime name r.2 = Some (py_int now) /\
     images r.2 = images st /\
     forall k, k <> clobber_key name -> clobber r.2 !! k = clobber st !! k) /\
  (r.1 = Return false -> r.2 = st) /\
  (r.1 = Return true -> (inject_Z (py_int now) < newmtime')%Q ->
     (clobber_needed ROOT getmtime' name now' r.2).1 = Return true).
Proof.
  intros Hm Hm' r. subst r.
  destruct (clobber_needed_unfold ROOT getmtime name now st newmtime Hm)
    as [[Hn ->]|[Hn ->]]; simpl.
  - split_and!; [by left|done| |done|].
    + intros _. split_and!; [|done|].
      * rewrite oldmtime_set. by case_decide.
      * intros k Hk. by rewrite lookup_insert_ne.
    + intros _ Hlt.
      destruct (clobber_needed_unfold ROOT getmtime' name now'
                  (set_clobber <[clobber_key name := Some (py_int now)]> st)
                  newmtime' Hm') as [[_ ->]|[Hn' _]]; [done|].
      exfalso. apply Hn'. unfold newer. rewrite oldmtime_set.
      by case_decide.
  - split_and!; [by right| |done|done|done].
    split; [done|]. intros H. by apply Hn in H.
Qed.

Lemma clobber_needed_stores_check_time_witness :
  (clobber_needed "/vct" marker_at_100 "hgmaster" (inject_Z 1000)
     initial_state).1 = Return true <->
  newer "hgmaster" initial_state (inject_Z 100).
Proof.
  apply (clobber_needed_stores_check_time "/vct" marker_at_100 marker_at_200
           "hgmaster" (inject_Z 1000) (inject_Z 2000) initial_state
           (inject_Z 100) (inject_Z 200)); reflexivity.
Defined.

(** C4 as stated fails: after a positive check at time 1000 of a marker
    modified at time 100 the stored value is 1000, not 100, and the marker
    modified again at time 200, later than 100, is not reported. *)
Lemma clobber_mtime_not_stored :
  let r := clobber_needed "/vct" marker_at_100 "hgmaster" (inject_Z 1000)
             initial_state in
  r.1 = Return true /\
  oldmtime "hgmaster" r.2 = Some 1000 /\
  oldmtime "hgmaster" r.2 <> Some 100 /\
  (inject_Z 100 < inject_Z 200)%Q /\
  (clobber_needed "/vct" marker_at_200 "hgmaster" (inject_Z 2000) r.2).1
    = Return false.
Proof. vm_compute. split_and!; done. Qed.

End ClobberFacts.

(** ** Strings *)

Module StrFacts.
Import Str.

Lemma split_nonempty c s : split c s <> [].
Proof. destruct s as [|a s]; simpl; [done|]. destruct (Ascii.eqb a c); [done|]. by destruct (split c s). Qed.

(** A string without the separator is a single field. *)
Lemma split_no_sep c s : contains c s = false -> split c s = [s].
Proof.
  induction s as [|a s IH]; simpl; [done|].
  intros H. apply orb_false_iff in H as [-> H]. by rewrite IH.
Qed.

Lemma split_app c a b :
  contains c a = false -> split c (a +:+ String c b) = a :: split c b.
Proof.
  induction a as [|x a IH]; simpl.
  - intros _. by rewrite Ascii.eqb_refl.
  - intros H. apply orb_false_iff in H as [-> H]. by rewrite IH.
Qed.

Lemma split_one c s : forall t, split c s = [t] -> s = t.
Proof.
  induction s as [|a s IH]; intros t; simpl; [congruence|].
  destruct (Ascii.eqb a c).
  - intros [= _ H]. by apply split_nonempty in H.
  - destruct (split c s) as [|h l] eqn:Es; [by apply split_nonempty in Es|].
    intros [= <- ->]. f_equal. by apply IH.
Qed.

(** Two fields come from exactly one separator. *)
Lemma split_two c s : forall r t, split c s = [r; t] -> s = r +:+ String c t.
Proof.
  induction s as [|a s IH]; intros r t; simpl; [done|].
  destruct (Ascii.eqb a c) eqn:E.
  - apply Ascii.eqb_eq in E as ->. intros [= <- Hs].
    apply split_one in Hs as ->. done.
  - destruct (split c s) as [|h l] eqn:Es; [done|].
    intros [= <- ->]. rewrite (IH h t eq_refl) at 1. reflexivity.
Qed.

End StrFacts.

(** ** The secure image importer *)

Module ImporterFacts.
Import Importer.

Lemma insert_by_created_perm x l : insert_by_created x l ≡ₚ x :: l.
Proof.
  induction l as [|y l IH]; simpl; [done|].
  destruct (Created x <? Created y); [|done].
  rewrite IH. apply Permutation_swap.
Qed.

(** Sorting only reorders the images. *)
Lemma sorted_images_perm imgs : _get_sorted_images imgs ≡ₚ imgs.
Proof.
  induction imgs as [|i imgs IH]; simpl; [done|].
  rewrite insert_by_created_perm. by constructor.
Qed.

Section Env.

Variable sha256 : string -> string.
Variable iter_content : string -> result (list string).
Variable lzma_decompress : string -> result string.
Variable daemon_import : string -> string -> string -> result string.
Variable json_status : string -> result string.

Abbreviation download_and_import :=
  (download_and_import sha256 iter_content lzma_decompress daemon_import
     json_status).
Abbreviation import_base_image :=
  (import_base_image sha256 iter_content lzma_decompress daemon_import
     json_status).

(** The content handed to the daemon has the expected digest. *)
Lemma download_verifies repository tag url digest data r t :
  import_image_from_data data r t ∈
    (download_and_import repository tag url digest).2 ->
  exists chunks payload,
    iter_content url = Return chunks /\
    sha256 (foldr String.append "" chunks) = digest /\
    (if Str.endswith url ".xz"
     then lzma_decompress (foldr String.append "" chunks)
     else Return (foldr String.append "" chunks)) = Return payload /\
    data = payload /\ r = repository /\ t = tag.
Proof.
  unfold Importer.download_and_import.
  destruct (iter_content url) as [chunks|e]; simpl.
  2: { intros H. apply list_elem_of_singleton in H. done. }
  case_bool_decide as Hd; simpl.
  { intros H. apply list_elem_of_singleton in H. done. }
  destruct (if Str.endswith url ".xz" then _ else _) as [payload|e] eqn:E;
    simpl.
  2: { intros H. apply list_elem_of_singleton in H. done. }
  intros H. apply elem_of_cons in H as [H|H]; [done|].
  apply list_elem_of_singleton in H. injection H as -> -> ->.
  by exists chunks, payload.
Qed.

(** A digest mismatch raises and nothing reaches the daemon. *)
Lemma download_mismatch repository tag url digest chunks :
  iter_content url = Return chunks ->
  sha256 (foldr String.append "" chunks) <> digest ->
  download_and_import repository tag url digest =
    (Raise (Exception (mismatch_message url
                         (sha256 (foldr String.append "" chunks)) digest)),
     [requests_get url]).
Proof.
  intros Hc Hd. unfold Importer.download_and_import. rewrite Hc.
  by rewrite bool_decide_true.
Qed.

Lemma scan_repotags_spec repository tag repotags :
  Forall (fun repotag =>
            exists repo t, Str.split colon repotag = [repo; t]) repotags ->
  Str.contains colon repository = false ->
  Str.contains colon tag = false ->
  (scan_repotags repository tag repotags = Return true /\
   repository +:+ ":" +:+ tag ∈ repotags) \/
  (scan_repotags repository tag repotags = Return false /\
   repository +:+ ":" +:+ tag ∉ repotags).
Proof.
  intros Hs Hr Ht. induction Hs as [|repotag l (r & t & Hrt) _ IH]; simpl.
  - right. split; [done|]. apply not_elem_of_nil.
  - rewrite Hrt. simpl.
    destruct (decide (r = repository /\ t = tag)) as [[-> ->]|Hne].
    + left. rewrite !bool_decide_true by done. simpl. split; [done|].
      apply StrFacts.split_two in Hrt as ->. apply elem_of_cons. by left.
    + assert (repotag <> repository +:+ ":" +:+ tag) as Hneq.
      { intros ->. change (":" +:+ tag) with (String colon tag) in Hrt.
        rewrite StrFacts.split_app, StrFacts.split_no_sep in Hrt by done.
        injection Hrt as <- <-. by apply Hne. }
      assert (bool_decide (r = repository) && bool_decide (t = tag) = false)
        as ->.
      { apply andb_false_iff. apply not_and_l in Hne as [?|?];
          [left|right]; by apply bool_decide_eq_false. }
      destruct IH as [[-> Hin]|[-> Hnin]].
      * left. split; [done|]. apply elem_of_cons. by right.
      * right. split; [done|]. apply not_elem_of_cons. done.
Qed.

Lemma scan_images_spec repository tag imgs :
  Forall splittable imgs ->
  Str.contains colon repository = false ->
  Str.contains colon tag = false ->
  (exists i, i ∈ imgs /\ tagged repository tag i /\
             scan_images repository tag imgs = Return (Some (Id i))) \/
  (scan_images repository tag imgs = Return None /\
   forall i, i ∈ imgs -> ~ tagged repository tag i).
Proof.
  intros Hs Hr Ht. induction Hs as [|i l Hi _ IH]; simpl.
  - right. split; [done|]. intros i Hi. by apply not_elem_of_nil in Hi.
  - destruct (scan_repotags_spec repository tag (repotags_of i) Hi Hr Ht)
      as [[-> Hin]|[-> Hnin]]; simpl.
    + left. exists i. split_and!; [by left|done|done].
    + destruct IH as [(j & Hj & Htag & ->)|[-> Hno]].
      * left. exists j. split_and!; [by right|done|done].
      * right. split; [done|]. intros j Hj.
        apply elem_of_cons in Hj as [->|Hj]; [done|by apply Hno].
Qed.

(** When every listed tag has the form [repo:tag], a cached image is
    found and returned without any request; otherwise the content is
    downloaded and verified first. *)
Lemma import_cache_hit imgs repository tagprefix url digest :
  Forall splittable imgs ->
  Str.contains colon repository = false ->
  Str.contains colon (cache_tag sha256 tagprefix url digest) = false ->
  (exists i, i ∈ imgs /\
     tagged repository (cache_tag sha256 tagprefix url digest) i) ->
  exists i, i ∈ imgs /\
    tagged repository (cache_tag sha256 tagprefix url digest) i /\
    import_base_image imgs repository tagprefix url digest
      = (Return (Id i), []).
Proof.
  intros Hs Hr Ht (i & Hi & Htag). unfold Importer.import_base_image.
  assert (Forall splittable (_get_sorted_images imgs)) as Hs'.
  { by rewrite sorted_images_perm. }
  destruct (scan_images_spec repository _ _ Hs' Hr Ht)
    as [(j & Hj & Hjt & ->)|[_ Hno]].
  - exists j. rewrite sorted_images_perm in Hj. done.
  - exfalso. apply (Hno i); [|done]. by rewrite sorted_images_perm.
Qed.

(** C1 at the failing input: an image tagged [centos:<cache tag>] is
    listed, yet the lookup raises [ValueError] on the two-colon tag of a
    newer image instead of returning the cached image's id. *)
Theorem import_lookup_fails_on_port_tag (tagprefix url digest : string) :
  let tag := cache_tag sha256 tagprefix url digest in
  (exists i, i ∈ listed tag /\ tagged "centos" tag i) /\
  import_base_image (listed tag) "centos" tagprefix url digest
    = (Raise (ValueError "too many values to unpack"), []).
Proof.
  intros tag. split.
  - eexists. split; [apply elem_of_cons; right; apply elem_of_cons; by left|].
    unfold tagged. simpl. apply elem_of_cons. by left.
  - reflexivity.
Qed.

End Env.

End ImporterFacts.

(** ** The provisioning runner *)

Module AnsibleFacts.
Import Ansible.

Lemma most_recent_match_app l1 l2 :
  most_recent_match (l1 ++ l2) =
  match most_recent_match l1 with
  | Some x => Some x
  | None => most_recent_match l2
  end.
Proof.
  induction l1 as [|b l1 IH]; simpl; [done|].
  by destruct (Str.startswith (CreatedBy b) "/sync-and-build").
Qed.

(** The scan ends on the oldest layer created by the entry point. *)
Lemma rebase_oldest layers : forall start_image,
  rebase layers start_image = default start_image (oldest_match layers).
Proof.
  unfold oldest_match.
  induction layers as [|b rest IH]; intros start_image; simpl; [done|].
  rewrite IH, reverse_cons, most_recent_match_app. simpl.
  destruct (most_recent_match (reverse rest)); simpl; [done|].
  by destruct (Str.startswith (CreatedBy b) "/sync-and-build").
Qed.

Section Env.

Variable ensure_built_result : string -> result string.
Variable history_result : string -> result (list layer).
Variable provision_result :
  string -> string -> string -> result (string * string * string).

Abbreviation provision_from :=
  (provision_from history_result provision_result).
Abbreviation run_ansible :=
  (run_ansible ensure_built_result history_result provision_result).

(** C2 (amended).  Whether the start image is the one the caller passed
    or the one built from the builder, when its history has more than
    120 layers the container is created from the oldest layer of that
    history whose creating command starts with [/sync-and-build] (the
    last match of the newest-first scan), and from the start image
    itself when no layer matches. *)
Theorem run_ansible_rebases_onto_oldest
    (playbook : string) (repository builder start_image : option string)
    (image : string) (layers : list layer) :
  supplied builder <> supplied start_image ->
  (if supplied builder
   then ensure_built_result ("ansible-" +:+ default "" builder) = Return image
   else start_image = Some image) ->
  history_result image = Return layers ->
  (120 < length layers)%nat ->
  let base := default image (oldest_match layers) in
  let repo := if supplied repository then default "" repository
              else playbook in
  run_ansible playbook repository builder start_image =
    (provision_result base playbook repo,
     ((if supplied builder
       then [ensure_built ("ansible-" +:+ default "" builder)] else [])
      ++ [history image; provision base playbook repo])%list).
Proof.
  intros Hne Himg Hh Hlen base repo. unfold Ansible.run_ansible.
  assert (provision_from playbook repo image =
            (provision_result base playbook repo,
             [history image; provision base playbook repo])) as Hp.
  { unfold Ansible.provision_from. rewrite Hh. unfold rebase_if_deep.
    destruct (120 <? Z.of_nat (length layers)) eqn:E; [|lia].
    by rewrite rebase_oldest. }
  destruct (supplied builder) eqn:Hb, (supplied start_image) eqn:Hs;
    try done; cbv [negb andb]; cbv beta iota zeta; fold repo.
  - by rewrite Himg, Hp.
  - subst start_image. exact Hp.
Qed.

(** C9.  [run_ansible] raises [ValueError] before any build, history or
    container request exactly when [builder] and [start_image] are both
    supplied or both missing; the error is one of its two argument
    errors. *)
Theorem run_ansible_argument_check
    (playbook : string) (repository builder start_image : option string) :
  let r := run_ansible playbook repository builder start_image in
  ((exists msg, r = (Raise (ValueError msg), [])) <->
   supplied builder = supplied start_image) /\
  (supplied builder = false -> supplied start_image = false ->
   r = (Raise (ValueError at_least_one), [])) /\
  (supplied builder = true -> supplied start_image = true ->
   r = (Raise (ValueError only_one), [])).
Proof.
  intros r. subst r. unfold Ansible.run_ansible.
  destruct (supplied builder) eqn:Hb, (supplied start_image) eqn:Hs; simpl.
  - split_and!; [|done|done]. split; [done|]. intros _. by eexists.
  - split_and!; [|done|done]. split; [|done]. intros [msg H].
    destruct (ensure_built_result _); [|done].
    by destruct (Ansible.provision_from _ _ _ _ _).
  - split_and!; [|done|done]. split; [|done]. intros [msg H].
    unfold Ansible.provision_from in H.
    by destruct (history_result _).
  - split_and!; [|done|done]. split; [done|]. intros _. by eexists.
Qed.

End Env.

Lemma run_ansible_rebases_onto_oldest_witness :
  run_ansible built_deep deep_daemon committed "docker-hgweb" None
    (Some "centos7") None =
  (Return ("sha256:ccc", "docker-hgweb", "tag"),
   [ensure_built "ansible-centos7"; history "deep";
    provision "old" "docker-hgweb" "docker-hgweb"]).
Proof.
  apply (run_ansible_rebases_onto_oldest built_deep deep_daemon committed
           "docker-hgweb" None (Some "centos7") None "deep" deep_history).
  - discriminate.
  - reflexivity.
  - reflexivity.
  - vm_compute. lia.
Defined.

Lemma run_ansible_argument_check_witness :
  run_ansible no_builder deep_daemon committed "docker-hgweb" None
    (Some "centos7") (Some "deep") = (Raise (ValueError only_one), []).
Proof.
  apply (run_ansible_argument_check no_builder deep_daemon committed
           "docker-hgweb" None (Some "centos7") (Some "deep"));
    reflexivity.
Defined.

(** C2 as stated fails: with 121 layers of which the two newest were
    created by the entry point, the container is created from the older
    of the two, not from the most recent one. *)
Lemma run_ansible_not_most_recent :
  (120 < length deep_history)%nat /\
  most_recent_match deep_history = Some "new" /\
  (run_ansible no_builder deep_daemon committed "docker-hgweb" None None
     (Some "deep")).2
    = [history "deep"; provision "old" "docker-hgweb" "docker-hgweb"] /\
  provision "new" "docker-hgweb" "docker-hgweb" ∉
    (run_ansible no_builder deep_daemon committed "docker-hgweb" None None
       (Some "deep")).2.
Proof.
  split_and!; [vm_compute; lia|reflexivity|reflexivity|].
  intros H. vm_compute in H.
  apply elem_of_cons in H as [H|H]; [done|].
  apply list_elem_of_singleton in H. done.
Qed.

End AnsibleFacts.

(** ** The garbage collector *)

Module PruneFacts.
Import Prune.

Lemma first_relevant_spec repotags :
  match first_relevant repotags with
  | Return (Some repo) =>
      exists repotag, repotag ∈ repotags /\ relevant_tag repotag
  | Return None => forall repotag, repotag ∈ repotags -> ~ relevant_tag repotag
  | Raise _ => True
  end.
Proof.
  induction repotags as [|repotag l IH]; simpl.
  - intros ? H. by apply not_elem_of_nil in H.
  - destruct (Str.split colon repotag) as [|repo [|tag [|??]]] eqn:E;
      simpl; try done.
    case_bool_decide as Hrel; simpl.
    + exists repotag. split; [by left|]. by exists repo, tag.
    + destruct (first_relevant l) as [[r|]|e]; [| |done].
      * destruct IH as (x & Hx & Hr). exists x. split; [by right|done].
      * intros x Hx. apply elem_of_cons in Hx as [->|Hx]; [|by apply IH].
        intros (r' & t' & Hs & Hr). congruence.
Qed.


(** What the selection loop adds to [to_delete]. *)
Lemma select_spec run ign imgs : forall acc td,
  select run ign imgs acc = Return td ->
  forall iid, iid ∈ dom td <->
    iid ∈ dom acc \/
    exists i, i ∈ imgs /\ Id i = iid /\ (iid ∉ run) /\ (Some iid ∉ ign) /\
              has_relevant_tag i.
Proof.
  induction imgs as [|i imgs IH]; intros acc td; simpl.
  - intros [= <-] iid. split; [by left|]. intros [?|(i & Hi & _)]; [done|].
    by apply not_elem_of_nil in Hi.
  - assert (forall acc' : gmap string string,
      (forall iid, iid ∈ dom acc' <-> iid ∈ dom acc) ->
      (Id i ∈ run \/ Some (Id i) ∈ ign \/ ~ has_relevant_tag i) ->
      select run ign imgs acc' = Return td ->
      forall iid, iid ∈ dom td <->
        iid ∈ dom acc \/
        exists j, j ∈ i :: imgs /\ Id j = iid /\ (iid ∉ run) /\
                  (Some iid ∉ ign) /\ has_relevant_tag j) as Hskip.
    { intros acc' Hacc Hno Hsel iid. rewrite (IH _ _ Hsel), Hacc.
      split; intros [?|(j & Hj & Hid & Hr & Hg & Ht)]; auto; right.
      - exists j. split_and!; [by right|done..].
      - apply elem_of_cons in Hj as [->|Hj].
        + subst iid. destruct Hno as [?|[?|?]]; done.
        + by exists j. }
    case_bool_decide as Hrun; [by apply Hskip; auto|].
    case_bool_decide as Hign; [by apply Hskip; auto|].
    pose proof (first_relevant_spec (repotags_of i)) as Hf.
    destruct (first_relevant (repotags_of i)) as [[repo|]|e]; simpl;
      [| |done].
    + intros Hsel iid. rewrite (IH _ _ Hsel), dom_insert, elem_of_union,
        elem_of_singleton.
      split.
      * intros [[->|?]|(j & Hj & ?)]; auto; right.
        -- exists i. split_and!; [by left|done..].
        -- exists j. split; [by right|done].
      * intros [?|(j & Hj & Hid & ?)]; auto.
        apply elem_of_cons in Hj as [->|Hj]; auto.
        right. by exists j.
    + apply Hskip; [done|]. right. right. intros (x & Hx & Hr).
      by apply (Hf x).
Qed.


Lemma submitted_removals (td : gmap string string) st' iid :
  iid ∈ submitted (map (fun kv => remove_image kv.1) (map_to_list td)
                     ++ [save_state st']) <-> iid ∈ dom td.
Proof.
  unfold submitted. rewrite omap_app. simpl. rewrite app_nil_r.
  rewrite elem_of_dom. unfold is_Some.
  setoid_rewrite <- elem_of_map_to_list.
  induction (map_to_list td) as [|[k v] l IH]; simpl.
  - split; [intros H; by apply not_elem_of_nil in H|].
    intros [x H]. by apply not_elem_of_nil in H.
  - rewrite elem_of_cons, IH. split.
    + intros [->|[x Hx]]; [exists v; by left|exists x; by right].
    + intros [x Hx]. apply elem_of_cons in Hx as [[= -> ->]|Hx];
        [by left|right; by exists x].
Qed.





End PruneFacts.

(** ** The state file *)

Module StateFileFacts.
Import StateFile.

Lemma append_cons (x : ascii) (a b : string) :
  String x a +:+ b = String x (a +:+ b).
Proof. reflexivity. Qed.

Lemma append_assoc (a b c : string) : (a +:+ b) +:+ c = a +:+ (b +:+ c).
Proof.
  induction a as [|x a IH]; [reflexivity|].
  by rewrite !append_cons, IH.
Qed.

Lemma append_empty_r (a : string) : a +:+ "" = a.
Proof.
  induction a as [|x a IH]; [reflexivity|]. by rewrite append_cons, IH.
Qed.

Lemma concat_app (l1 l2 : list string) :
  foldr String.append "" (l1 ++ l2) =
  foldr String.append "" l1 +:+ foldr String.append "" l2.
Proof.
  induction l1 as [|x l1 IH]; [reflexivity|].
  cbn [foldr app]. by rewrite IH, append_assoc.
Qed.

(** [s[0:n] + s[n:]] is [s]. *)
Lemma take_drop_string n : forall s, Str.take n s +:+ Str.drop n s = s.
Proof.
  unfold Str.take. induction n as [|n IH]; intros [|a s]; simpl;
    try reflexivity.
  by rewrite append_cons, IH.
Qed.

Section Buffering.

Variable flushed : string -> nat.

(** Writing moves data from the buffer to the disk and loses none. *)
Lemma run_writes chunks : forall f,
  let f' := run flushed (map write chunks) f in
  disk f' +:+ buffer f' =
  (disk f +:+ buffer f) +:+ foldr String.append "" chunks.
Proof.
  unfold run. induction chunks as [|x chunks IH]; intros f;
    cbn [map foldl foldr].
  - by rewrite append_empty_r.
  - cbv zeta in IH. rewrite IH. cbn [apply disk buffer].
    by rewrite (append_assoc (disk f)), take_drop_string, !append_assoc.
Qed.

Lemma run_app ops1 ops2 f :
  run flushed (ops1 ++ ops2) f = run flushed ops2 (run flushed ops1 f).
Proof. apply foldl_app. Qed.

Variable iterencode : state -> list string.

(** The file after the first [k] operations that follow the [open]:
    with what is still buffered, the chunks written so far. *)
Lemma crash_after_chunks k st content :
  exists buffered,
    crash_after flushed iterencode (S k) st content +:+ buffered =
    foldr String.append "" (take k (iterencode st)).
Proof.
  unfold crash_after, save_state. rewrite firstn_cons.
  change (open_wb :: ?l)%list with ([open_wb] ++ l)%list.
  rewrite run_app. change (run flushed [open_wb] _) with (File "" "").
  rewrite take_app, run_app, firstn_map.
  pose proof (run_writes (take k (iterencode st)) (File "" "")) as Hw.
  cbv zeta in Hw. cbn [disk buffer] in Hw.
  change ("" +:+ "" +:+ ?x) with x in Hw.
  destruct (take _ [close]) as [|o l] eqn:E.
  - eexists. exact Hw.
  - exists "". rewrite append_empty_r.
    destruct (k - length (map write (iterencode st)))%nat; [done|].
    injection E as <- <-. by rewrite take_nil.
Qed.

End Buffering.

End StateFileFacts.

(** ** The build-context assembler *)

Module ContextFacts.
Import Context.

Section Env.

Variable ROOT : string.
Variable exists_ : string -> bool.
Variable vct_files : list string.

(** A directive that ends in [/] adds every tracked file below it, under
    [extra/vct/]. *)
Lemma add_tree_spec p e :
  p <> "/" ->
  e ∈ add_tree ROOT p vct_files ∅ <->
  exists f, f ∈ vct_files /\ Str.startswith f p = true /\
            e = add (join ROOT f) ("extra/vct/" +:+ f).
Proof.
  intros Hp. induction vct_files as [|f files IH]; simpl.
  - split; [intros H; by apply not_elem_of_nil in H|].
    intros (f & H & _). by apply not_elem_of_nil in H.
  - rewrite (bool_decide_true (p <> "/")) by done.
    rewrite (bool_decide_false (join ROOT f ∈ (∅ : gset string)))
      by set_solver.
    destruct (Str.startswith f p) eqn:E; simpl.
    + rewrite elem_of_cons, IH. split.
      * intros [->|(g & Hg & ?)]; [exists f|exists g];
          (split; [by constructor|done]).
      * intros (g & Hg & Hs & ->).
        apply elem_of_cons in Hg as [->|Hg]; [by left|].
        right. by exists g.
    + rewrite IH. split; intros (g & Hg & Hs & ->); exists g.
      * split; [by right|done].
      * apply elem_of_cons in Hg as [->|Hg]; [congruence|done].
Qed.

(** Every member added from the outer tree lies under [extra/vct/], and
    every directive contributes its file or its subtree. *)
Lemma add_vct_paths_spec vct_paths entries :
  add_vct_paths ROOT exists_ vct_files vct_paths ∅ = Return entries ->
  (forall e, e ∈ entries ->
     exists f, e = add (join ROOT f) ("extra/vct/" +:+ f)) /\
  (forall p, p ∈ vct_paths ->
     if Str.endswith p "/" then
       forall f, p <> "/" -> f ∈ vct_files -> Str.startswith f p = true ->
                 add (join ROOT f) ("extra/vct/" +:+ f) ∈ entries
     else add (join ROOT p) ("extra/vct/" +:+ p) ∈ entries).
Proof.
  revert entries. induction vct_paths as [|p rest IH]; intros entries; simpl.
  - intros [= <-]. split; intros ? H; by apply not_elem_of_nil in H.
  - destruct (exists_ (join ROOT p)); simpl; [|done].
    destruct (add_vct_paths _ _ _ rest ∅) as [es|e] eqn:Hrest; simpl.
    2: { by destruct (Str.endswith p "/"). }
    destruct (IH es eq_refl) as [Hall Hin].
    rewrite (bool_decide_false (join ROOT p ∈ (∅ : gset string)))
      by set_solver.
    destruct (Str.endswith p "/") eqn:Hend; simpl; intros [= <-]; split.
    + intros e He. apply elem_of_app in He as [He|He]; [|by apply Hall].
      clear -He. induction vct_files as [|f files IHf]; simpl in He.
      { by apply not_elem_of_nil in He. }
      destruct (negb (Str.startswith f p) && bool_decide (p <> "/"));
        [by apply IHf|].
      rewrite (bool_decide_false (join ROOT f ∈ (∅ : gset string))) in He
        by set_solver.
      apply elem_of_cons in He as [->|He]; [by exists f|by apply IHf].
    + intros q Hq. apply elem_of_cons in Hq as [->|Hq].
      * rewrite Hend. intros f Hp Hf Hs. apply elem_of_app. left.
        apply add_tree_spec; [done|]. by exists f.
      * specialize (Hin q Hq). destruct (Str.endswith q "/").
        -- intros f Hp Hf Hs. apply elem_of_app. right. by apply Hin.
        -- apply elem_of_app. by right.
    + intros e He. apply elem_of_cons in He as [->|He];
        [by exists p|by apply Hall].
    + intros q Hq. apply elem_of_cons in Hq as [->|Hq].
      * rewrite Hend. by left.
      * specialize (Hin q Hq). destruct (Str.endswith q "/").
        -- intros f Hp Hf Hs. right. by apply Hin.
        -- by right.
Qed.

End Env.

(** C8 at the failing input: a Dockerfile that includes the same file in
    two directives gets it added to the archive twice; the set [added]
    that the loop tests stays empty. *)
Theorem include_twice_added_twice :
  build_context "/vct" everything_exists tracked_files only_dockerfile
    no_import twice_included =
  (Return [addfile "Dockerfile";
           add "/vct/testing/docker/sync.sh"
               "extra/vct/testing/docker/sync.sh";
           add "/vct/testing/docker/sync.sh"
               "extra/vct/testing/docker/sync.sh"], [])
  /\
  ~ NoDup (added_paths
             [addfile "Dockerfile";
              add "/vct/testing/docker/sync.sh"
                  "extra/vct/testing/docker/sync.sh";
              add "/vct/testing/docker/sync.sh"
                  "extra/vct/testing/docker/sync.sh"]).
Proof.
  split; [vm_compute; reflexivity|].
  simpl. intros H. apply NoDup_cons in H as [H _]. apply H. by left.
Qed.

End ContextFacts.

(** ** The scheduler *)

Module SchedulerFacts.
Import Scheduler.

Lemma builder_builds_snoc b ts t :
  builder_builds b (ts ++ [t]) =
  (builder_builds b ts ++ if decide (t = builder_build b) then [t] else [])%list.
Proof.
  unfold builder_builds. by rewrite filter_app.
Qed.

Section Env.

Variable docker_images : list image.
Variable all_docker_images : gset string.
Variable ROOT : string.
Variable getmtime : string -> result Q.
Variable now : string -> Q.
Variable vct_container : state -> result string * state.
Variable ensure_built_result : bool -> string -> result string.
Variable history_result : string -> result (list Ansible.layer).
Variable provision_result :
  string -> string -> string -> result (string * string * string).
Variable names : list string.
Variable ansibles : gmap string (string * string).
Variable use_last : bool.

Abbreviation schedule := (schedule ROOT getmtime now names ansibles).
Abbreviation schedule_all := (schedule_all ROOT getmtime now names ansibles).
Abbreviation run_task :=
  (run_task ensure_built_result history_result provision_result use_last).
Abbreviation performed :=
  (performed ensure_built_result history_result provision_result use_last).
Abbreviation ensure_images_built :=
  (ensure_images_built docker_images all_docker_images ROOT getmtime now
     vct_container ensure_built_result history_result provision_result
     names ansibles use_last).

(** Submitting anything but a builder build keeps the memo right. *)
Lemma memo_ok_step p q t :
  submitted q = (submitted p ++ [t])%list ->
  builder_fs q = builder_fs p ->
  (forall b, t <> builder_build b) ->
  memo_ok p -> memo_ok q.
Proof.
  intros Hs Hf Ht Hp b. rewrite Hs, Hf, builder_builds_snoc.
  rewrite decide_False by apply Ht. rewrite app_nil_r. apply Hp.
Qed.

(** A builder that is not in the memo gets its build task and enters the
    memo. *)
Lemma memo_ok_builder p q b f :
  submitted q = (submitted p ++ [builder_build b])%list ->
  builder_fs q = <[b := f]> (builder_fs p) ->
  builder_fs p !! b = None ->
  memo_ok p -> memo_ok q.
Proof.
  intros Hs Hf Hb Hp b'. rewrite Hs, Hf, builder_builds_snoc, length_app.
  rewrite lookup_insert. specialize (Hp b').
  destruct (decide (b = b')) as [<-|Hne].
  - rewrite Hb in Hp. rewrite Hp. by rewrite decide_True.
  - rewrite decide_False by congruence. rewrite Hp. simpl. lia.
Qed.

Lemma Forall_snoc {A} (P : A -> Prop) l x :
  Forall P l -> P x -> Forall P (l ++ [x]).
Proof. intros. apply Forall_app. split; [done|]. by constructor. Qed.

(** One turn of the loop keeps both invariants. *)
Lemma schedule_keeps start_images n p :
  memo_ok p -> Forall no_builder_left (submitted p) ->
  memo_ok (schedule start_images n p).2 /\
  Forall no_builder_left (submitted (schedule start_images n p).2).
Proof.
  intros Hm Hn. unfold Scheduler.schedule.
  case_bool_decide.
  { simpl. split; [by eapply (memo_ok_step p)|]. by apply Forall_snoc. }
  destruct (ansibles !! n) as [[playbook builder]|]; [|done].
  assert (forall (b : option string) (si : option string) (q : pool),
    memo_ok q -> Forall no_builder_left (submitted q) ->
    let r :=
      (let '(bf, q0) :=
         if supplied b then
           match builder_fs q !! default "" b with
           | Some bf => (Some bf, q)
           | None =>
               let '(bf, q1) := submit (builder_build (default "" b)) q in
               (Some bf, remember (default "" b) bf q1)
           end
         else (None, q) in
       let '(f, q2) := submit (build_ansible bf playbook n b si) q0 in
       (@None exn, append_fs f q2)) in
    memo_ok r.2 /\ Forall no_builder_left (submitted r.2)) as Hrest.
  { intros b si q Hq Hq'. destruct (supplied b) eqn:Hb.
    - destruct (builder_fs q !! default "" b) as [bf|] eqn:Hl; cbn.
      + split; [by eapply (memo_ok_step q)|]. by apply Forall_snoc.
      + split.
        * eapply (memo_ok_step
                    (remember (default "" b) (length (submitted q))
                       (submit (builder_build (default "" b)) q).2));
            [reflexivity|reflexivity|done|].
          by eapply (memo_ok_builder q).
        * apply Forall_snoc; [|done]. by apply Forall_snoc.
    - cbn. split; [by eapply (memo_ok_step q)|]. by apply Forall_snoc. }
  destruct (supplied (start_images !! n)).
  - destruct (Clobber.clobber_needed ROOT getmtime n (now n) (st p))
      as [[[|]|e] s]; [| |done].
    + apply (Hrest (Some builder) None (set_state s p)); done.
    + apply (Hrest None (start_images !! n) (set_state s p)); done.
  - apply (Hrest (Some builder) (start_images !! n) p); done.
Qed.

Lemma schedule_all_keeps start_images ns : forall p,
  memo_ok p -> Forall no_builder_left (submitted p) ->
  memo_ok (schedule_all start_images ns p).2 /\
  Forall no_builder_left (submitted (schedule_all start_images ns p).2).
Proof.
  induction ns as [|n ns IH]; intros p Hm Hn; simpl; [done|].
  destruct (schedule_keeps start_images n p Hm Hn) as [Hm' Hn'].
  destruct (schedule start_images n p) as [[e|] p']; [done|].
  by apply IH.
Qed.

(** A provisioning task without a builder never builds one. *)
Lemma run_task_no_build all t name :
  no_builder_left t ->
  (forall n, t <> build n) -> (forall b, t <> builder_build b) ->
  Ansible.ensure_built name ∉ (run_task all t).2.
Proof.
  intros Hnb Hb Hbb. destruct t as [n|b|bf playbook repository builder si];
    [by destruct (Hb n)|by destruct (Hbb b)|].
  unfold Scheduler.run_task.
  assert (forall o si',
    supplied o = false ->
    Ansible.ensure_built name ∉
      (let '(r, evs) :=
         Ansible.run_ansible (ensure_built_result false) history_result
           provision_result playbook (Some repository) o si' in
       ('(image, repo, tag) ← r; Return (repository, image), evs)).2)
    as Hrun.
  { intros o si' Ho. unfold Ansible.run_ansible. rewrite Ho. simpl.
    destruct (supplied si'); simpl; [|apply not_elem_of_nil].
    unfold Ansible.provision_from.
    destruct (history_result _); simpl.
    - intros H. apply elem_of_cons in H as [H|H]; [done|].
      by apply list_elem_of_singleton in H.
    - intros H. by apply list_elem_of_singleton in H. }
  destruct (supplied si && use_last); simpl; [apply not_elem_of_nil|].
  destruct bf as [f|].
  - destruct (all !! f) as [[?|b|?????]|]; simpl; try apply not_elem_of_nil.
    destruct (ensure_built_result false _); simpl; [|apply not_elem_of_nil].
    by apply Hrun.
  - by apply Hrun.
Qed.

(** Every direct build submitted is the build of a requested name. *)
Lemma schedule_from_names start_images n p :
  Forall (from_names names) (submitted p) ->
  Forall (from_names names) (submitted (schedule start_images n p).2).
Proof.
  intros Hn. unfold Scheduler.schedule.
  case_bool_decide. { simpl. by apply Forall_snoc. }
  destruct (ansibles !! n) as [[playbook builder]|]; [|done].
  assert (forall (b : option string) (si : option string) (q : pool),
    Forall (from_names names) (submitted q) ->
    let r :=
      (let '(bf, q0) :=
         if supplied b then
           match builder_fs q !! default "" b with
           | Some bf => (Some bf, q)
           | None =>
               let '(bf, q1) := submit (builder_build (default "" b)) q in
               (Some bf, remember (default "" b) bf q1)
           end
         else (None, q) in
       let '(f, q2) := submit (build_ansible bf playbook n b si) q0 in
       (@None exn, append_fs f q2)) in
    Forall (from_names names) (submitted r.2)) as Hrest.
  { intros b si q Hq. destruct (supplied b).
    - destruct (builder_fs q !! default "" b); cbn.
      + by apply Forall_snoc.
      + apply Forall_snoc; [|done]. by apply Forall_snoc.
    - cbn. by apply Forall_snoc. }
  destruct (supplied (start_images !! n)).
  - destruct (Clobber.clobber_needed ROOT getmtime n (now n) (st p))
      as [[[|]|e] s]; [| |done].
    + apply (Hrest (Some builder) None (set_state s p)); done.
    + apply (Hrest None (start_images !! n) (set_state s p)); done.
  - apply (Hrest (Some builder) (start_images !! n) p); done.
Qed.

Lemma schedule_all_from_names start_images ns : forall p,
  Forall (from_names names) (submitted p) ->
  Forall (from_names names) (submitted (schedule_all start_images ns p).2).
Proof.
  induction ns as [|n ns IH]; intros p Hn; simpl; [done|].
  pose proof (schedule_from_names start_images n p Hn) as Hn'.
  destruct (schedule start_images n p) as [[e|] p']; [done|].
  by apply IH.
Qed.

Lemma builds_of_absent name evs :
  Ansible.ensure_built name ∉ evs -> builds_of name evs = [].
Proof.
  induction evs as [|e evs IH]; [done|]. intros H.
  apply not_elem_of_cons in H as [Hne H]. unfold builds_of.
  rewrite filter_cons_False by congruence. by apply IH.
Qed.

(** The builds of a builder image that the workers request are those of
    its builder task, when the image is not also requested by name. *)
Lemma builds_of_tasks all b ts :
  "ansible-" +:+ b ∉ names ->
  Forall no_builder_left ts -> Forall (from_names names) ts ->
  length (builds_of ("ansible-" +:+ b)
            (concat (map (fun t => (run_task all t).2) ts))) =
  length (builder_builds b ts).
Proof.
  intros Hb. induction ts as [|t ts IH]; intros Hnb Hfn; [done|].
  apply Forall_cons in Hnb as [Ht Hnb]. apply Forall_cons in Hfn as [Hf Hfn].
  cbn [map concat]. unfold builds_of, builder_builds in *.
  rewrite filter_app, length_app, IH by done.
  destruct t as [n|b'|bf playbook repository builder si].
  - simpl in Hf. cbn [run_task snd].
    rewrite filter_cons_False by (intros [= ->]; done).
    by rewrite (filter_cons_False _ (build n)).
  - cbn [run_task snd]. destruct (decide (b' = b)) as [->|Hne].
    + rewrite filter_cons_True by done.
      by rewrite (filter_cons_True _ (builder_build b)).
    + rewrite filter_cons_False.
      2: { intros [= H]. apply Hne. exact H. }
      rewrite (filter_cons_False _ (builder_build b')) by congruence.
      done.
  - rewrite (filter_cons_False _ (build_ansible _ _ _ _ _)) by done.
    fold (builds_of ("ansible-" +:+ b)
            (run_task all (build_ansible bf playbook repository builder si)).2).
    rewrite builds_of_absent; [done|].
    by apply run_task_no_build.
Qed.

(** C5 (amended).  Among everything one call of [ensure_images_built]
    submits to its pool there is at most one build task for the builder
    image of any builder [b]; the provisioning tasks never build a
    builder themselves; so the workers build the image [ansible-<b>] at
    most once, provided that image is not also requested by name; and
    what is submitted does not depend on [max_workers]. *)
Theorem builder_built_at_most_once
    (existing : gmap string string) (max_workers : option Z) (s : state) :
  let tasks := (ensure_images_built existing max_workers s).2 in
  (forall b, (length (builder_builds b tasks) <= 1)%nat) /\
  (forall t name, t ∈ tasks ->
     (forall n, t <> build n) -> (forall b, t <> builder_build b) ->
     Ansible.ensure_built name ∉ (run_task tasks t).2) /\
  (forall b, "ansible-" +:+ b ∉ names ->
     (length (builds_of ("ansible-" +:+ b) (performed tasks)) <= 1)%nat) /\
  (forall max_workers',
     (ensure_images_built existing max_workers' s).2 = tasks).
Proof.
  intros tasks.
  assert ((forall b, (length (builder_builds b tasks) <= 1)%nat) /\
          Forall no_builder_left tasks /\
          Forall (from_names names) tasks) as (Hone & Hnb & Hfn).
  { subst tasks. unfold Scheduler.ensure_images_built.
    destruct (if use_last then _ else _) as [[images missing]|e];
      [|split_and!; [intros b; simpl; lia|constructor..]].
    case_bool_decide; [split_and!; [intros b; simpl; lia|constructor..]|].
    destruct (start_of_images _ _ _) as [start_images|e];
      [|split_and!; [intros b; simpl; lia|constructor..]].
    destruct (vct_container s) as [[vct_cid|e] s'];
      [|split_and!; [intros b; simpl; lia|constructor..]].
    assert (memo_ok (Pool [] [] ∅ s') /\
            Forall no_builder_left (submitted (Pool [] [] ∅ s')) /\
            Forall (from_names names) (submitted (Pool [] [] ∅ s')))
      as (Hm & Hn & Hf).
    { split_and!; [|by constructor..]. intros b. simpl.
      by rewrite lookup_empty. }
    destruct (schedule_all_keeps start_images (sorted missing) _ Hm Hn)
      as [Hm' Hn'].
    pose proof (schedule_all_from_names start_images (sorted missing) _ Hf)
      as Hf'.
    destruct (schedule_all start_images (sorted missing) (Pool [] [] ∅ s'))
      as [[e|] p]; simpl in *.
    - split_and!; [|done..]. intros b. rewrite (Hm' b).
      destruct (builder_fs p !! b); lia.
    - split_and!; [|done..]. intros b. rewrite (Hm' b).
      destruct (builder_fs p !! b); lia. }
  split_and!; [done| | |].
  - intros t name Ht Hb Hbb. apply run_task_no_build; [|done|done].
    eapply Forall_forall in Hnb; [exact Hnb|done].
  - intros b Hb. unfold Scheduler.performed.
    rewrite (builds_of_tasks tasks b tasks Hb Hnb Hfn). apply Hone.
  - intros mw'. subst tasks. unfold Scheduler.ensure_images_built.
    destruct (if use_last then _ else _) as [[images missing]|e]; [|done].
    case_bool_decide; [done|].
    destruct (start_of_images _ _ _) as [start_images|e]; [|done].
    destruct (vct_container s) as [[vct_cid|e] s']; [|done].
    by destruct (schedule_all start_images (sorted missing) _) as [[e|] p].
Qed.

End Env.

(** On a first run the builder is submitted once, before the two roles
    that wait for it. *)
Example hg_tasks_submitted :
  hg_tasks =
  [builder_build "centos7";
   build_ansible (Some 0%nat) "docker-hgmaster" "hgmaster" (Some "centos7") None;
   build_ansible (Some 0%nat) "docker-hgweb" "hgweb" (Some "centos7") None;
   build "ldap"].
Proof. vm_compute. reflexivity. Qed.

Lemma builder_built_at_most_once_witness :
  Ansible.ensure_built "ansible-centos7" ∉
    (run_task built no_history Ansible.committed false hg_tasks
       (build_ansible (Some 0%nat) "docker-hgweb" "hgweb" (Some "centos7")
          None)).2.
Proof.
  apply (builder_built_at_most_once [] ∅ "/vct" no_marker epoch vct_running
           built no_history Ansible.committed ["ldap"] hg_ansibles false
           ∅ None initial_state).
  - fold hg_tasks. rewrite hg_tasks_submitted.
    do 2 apply list_elem_of_further. apply list_elem_of_here.
  - discriminate.
  - discriminate.
Defined.

(** C5 as stated fails: when the builder image of the two hg roles is
    also requested by name, one call submits its build twice, once as the
    role and once as the builder, and the workers build it twice. *)
Lemma builder_role_built_twice :
  builder_role_tasks =
  [build "ansible-centos7"; builder_build "centos7";
   build_ansible (Some 1%nat) "docker-hgmaster" "hgmaster" (Some "centos7")
     None;
   build_ansible (Some 1%nat) "docker-hgweb" "hgweb" (Some "centos7") None]
  /\
  builds_of "ansible-centos7"
    (performed built no_history Ansible.committed false builder_role_tasks)
  = [Ansible.ensure_built "ansible-centos7";
     Ansible.ensure_built "ansible-centos7"].
Proof. split; vm_compute; reflexivity. Qed.

End SchedulerFacts.

(** ** [util.py] *)

Module UtilFacts.
Import Util.

(** The examples of the docstring. *)
Example normalize_docstring :
  normalize_testname (Some "test-push-basic.t") = Some "testpushbasict" /\
  normalize_testname (Some "this is a test") = Some "thisisatest" /\
  normalize_testname (Some "lolol!!!!!! haha") = Some "lololhaha" /\
  normalize_testname (Some "hello/there/testname") = Some "testname" /\
  normalize_testname None = None.
Proof. repeat split. Qed.

Lemma lower_char_not_upper a : is_upper (lower_char a) = false.
Proof. destruct a as [[] [] [] [] [] [] [] []]; reflexivity. Qed.

Lemma lower_char_fixed a : is_upper a = false -> lower_char a = a.
Proof. unfold lower_char. by intros ->. Qed.

Lemma kept_not_slash a : kept a = true -> Ascii.eqb a slash = false.
Proof. destruct a as [[] [] [] [] [] [] [] []]; (reflexivity || discriminate). Qed.

Lemma all_chars_join_if p q s :
  all_chars p s = true -> all_chars p (join_if q s) = true.
Proof.
  induction s as [|a s IH]; simpl; [done|].
  intros H. apply andb_true_iff in H as [Ha Hs].
  destruct (q a); simpl; [rewrite Ha|]; auto.
Qed.

Lemma all_chars_kept s : all_chars kept (join_if kept s) = true.
Proof.
  induction s as [|a s IH]; simpl; [done|].
  destruct (kept a) eqn:E; simpl; [by rewrite E|done].
Qed.

Lemma all_chars_lower s :
  all_chars (fun a => negb (is_upper a)) (lower s) = true.
Proof.
  induction s as [|a s IH]; simpl; [done|].
  by rewrite lower_char_not_upper, IH.
Qed.

Lemma lower_fixed s :
  all_chars (fun a => negb (is_upper a)) s = true -> lower s = s.
Proof.
  induction s as [|a s IH]; simpl; [done|].
  intros H. apply andb_true_iff in H as [Ha Hs].
  apply negb_true_iff in Ha. by rewrite lower_char_fixed, IH.
Qed.

Lemma join_if_fixed p s : all_chars p s = true -> join_if p s = s.
Proof.
  induction s as [|a s IH]; simpl; [done|].
  intros H. apply andb_true_iff in H as [-> Hs]. by rewrite IH.
Qed.

Lemma kept_no_slash s :
  all_chars kept s = true -> Str.contains slash s = false.
Proof.
  induction s as [|a s IH]; simpl; [done|].
  intros H. apply andb_true_iff in H as [Ha Hs].
  by rewrite (kept_not_slash a Ha), IH.
Qed.

(** X1.  The name [normalize_testname] returns holds no punctuation, no
    whitespace and no upper-case ASCII letter. *)
Theorem normalize_testname_clean (testname : option string) (r : string) :
  normalize_testname testname = Some r ->
  all_chars (fun a => negb (is_punctuation a) && negb (is_whitespace a)
                      && negb (is_upper a)) r = true.
Proof.
  unfold normalize_testname. destruct (supplied testname); [|done].
  intros [= <-]. set (s := lower _).
  assert (all_chars (fun a => negb (is_upper a)) (join_if kept s) = true)
    as Hu by (apply all_chars_join_if, all_chars_lower).
  pose proof (all_chars_kept s) as Hk. revert Hu Hk.
  induction (join_if kept s) as [|a l IH]; simpl; [done|].
  intros Hu Hk. apply andb_true_iff in Hu as [Ha Hu].
  apply andb_true_iff in Hk as [Hb Hk]. rewrite IH by done.
  unfold kept in Hb. rewrite negb_orb in Hb. by rewrite Hb, Ha.
Qed.

Lemma normalize_testname_clean_witness :
  all_chars (fun a => negb (is_punctuation a) && negb (is_whitespace a)
                      && negb (is_upper a)) "testpushbasict" = true.
Proof.
  apply (normalize_testname_clean (Some "Test-Push-Basic.t")). reflexivity.
Defined.

(** X2.  Normalizing a non-empty normalized name changes nothing; the
    empty name, which a test name made of punctuation yields, is turned
    into [None]. *)
Theorem normalize_testname_idempotent (testname : option string) (r : string) :
  normalize_testname testname = Some r ->
  normalize_testname (Some r) = if Str.truthy r then Some r else None.
Proof.
  unfold normalize_testname. destruct (supplied testname); [|done].
  intros [= <-]. set (s := lower _). simpl.
  destruct (Str.truthy (join_if kept s)) eqn:E; [|done].
  pose proof (all_chars_kept s) as Hk.
  assert (all_chars (fun a => negb (is_upper a)) (join_if kept s) = true)
    as Hu by (apply all_chars_join_if, all_chars_lower).
  rewrite StrFacts.split_no_sep by by apply kept_no_slash.
  simpl. rewrite lower_fixed by done. by rewrite join_if_fixed.
Qed.

Lemma normalize_testname_idempotent_witness :
  normalize_testname (Some "testname") = Some "testname".
Proof.
  apply (normalize_testname_idempotent (Some "hello/there/TestName")).
  reflexivity.
Defined.

End UtilFacts.

(** ** Pool sizes *)

Module PoolFacts.
Import Scheduler.

Lemma pool_bounds (wanted : Z) (max_workers : option Z) :
  1 <= wanted ->
  exists k, limited_threadpoolexecutor (Some wanted) max_workers = Some k /\
    1 <= k <= wanted /\
    (forall m, max_workers = Some m -> 1 <= m -> k <= m) /\
    ((max_workers = None \/ exists m, max_workers = Some m /\ m < 1) ->
     k = wanted).
Proof.
  intros Hw. unfold limited_threadpoolexecutor.
  destruct max_workers as [m|]; simpl.
  - destruct (m <? 1) eqn:Em; simpl.
    + exists wanted. repeat split; try lia. intros m' [= <-]. lia.
    + destruct (wanted <? 1) eqn:Ew; [lia|].
      exists (Z.min wanted m). repeat split; try lia.
      * intros m' [= <-]. lia.
      * intros [?|(m' & [= <-] & ?)]; [done|lia].
  - exists wanted. repeat split; try lia. done.
Qed.

(** X3.  Asked for at least one worker, [limited_threadpoolexecutor] gives
    a pool of at least one and at most that many workers, and of at most
    [max_workers] workers when that limit is 1 or more; without such a
    limit the wanted number is used as it is. *)
Theorem limited_threadpoolexecutor_bounded (wanted : Z) (max_workers : option Z) :
  1 <= wanted ->
  exists k, limited_threadpoolexecutor (Some wanted) max_workers = Some k /\
    1 <= k <= wanted /\
    (forall m, max_workers = Some m -> 1 <= m -> k <= m) /\
    ((max_workers = None \/ exists m, max_workers = Some m /\ m < 1) ->
     k = wanted).
Proof. apply pool_bounds. Qed.

Lemma limited_threadpoolexecutor_bounded_witness :
  exists k, limited_threadpoolexecutor (Some 4) (Some 2) = Some k /\
    1 <= k <= 4 /\
    (forall m, Some 2 = Some m -> 1 <= m -> k <= m) /\
    ((Some 2 = None \/ exists m, Some 2 = Some m /\ m < 1) -> k = 4).
Proof. apply (limited_threadpoolexecutor_bounded 4 (Some 2)). lia. Defined.

(** X4.  Without a request for a default-sized pool the helper never
    returns one: [None], the executor's own default of five workers per
    processor, comes back only when [wanted_workers] is [None] and
    [max_workers] sets no limit. *)
Theorem limited_threadpoolexecutor_default (wanted max_workers : option Z) :
  limited_threadpoolexecutor wanted max_workers = None <->
  wanted = None /\
  (max_workers = None \/ exists m, max_workers = Some m /\ m < 1).
Proof.
  unfold limited_threadpoolexecutor.
  destruct wanted as [w|], max_workers as [m|]; simpl.
  - destruct (m <? 1) eqn:Em; [|destruct (w <? 1)]; split;
      try done; by intros [[=] _].
  - split; [done|]. by intros [[=] _].
  - destruct (m <? 1) eqn:Em; split; try done.
    + intros _. split; [done|]. right. exists m. split; [done|lia].
    + intros [_ [[=]|(m' & [= <-] & ?)]]. lia.
  - split; [|done]. intros _. split; [done|by left].
Qed.

End PoolFacts.

(** ** What [ensure_images_built] returns *)

Module SchedulerMoreFacts.
Import Scheduler SchedulerSpec.

Lemma insert_sorted_perm x l : insert_sorted x l ≡ₚ x :: l.
Proof.
  induction l as [|y l IH]; simpl; [done|].
  destruct (String.leb x y); [done|]. rewrite IH. apply Permutation_swap.
Qed.

(** [sorted] lists each element of the set once. *)
Lemma sorted_perm (s : gset string) : sorted s ≡ₚ elements s.
Proof.
  unfold sorted. induction (elements s) as [|x l IH]; simpl; [done|].
  rewrite insert_sorted_perm. by constructor.
Qed.

Lemma elem_of_sorted (s : gset string) x : x ∈ sorted s <-> x ∈ s.
Proof. by rewrite sorted_perm, elem_of_elements. Qed.

Lemma roles_of_app all f1 f2 :
  roles_of all (f1 ++ f2) = (roles_of all f1 ++ roles_of all f2)%list.
Proof. apply omap_app. Qed.

(** Submitting more does not change the role of a submitted future. *)
Lemma roles_of_grow all more futs :
  Forall (fun f => (f < length all)%nat) futs ->
  roles_of (all ++ more) futs = roles_of all futs.
Proof.
  induction 1 as [|f futs Hf _ IH]; [done|].
  unfold roles_of in *. cbn [omap list_omap].
  rewrite lookup_app_l by done. by rewrite IH.
Qed.

Section Env.

Variable docker_images : list image.
Variable all_docker_images : gset string.
Variable ROOT : string.
Variable getmtime : string -> result Q.
Variable now : string -> Q.
Variable vct_container : state -> result string * state.
Variable ensure_built_result : bool -> string -> result string.
Variable history_result : string -> result (list Ansible.layer).
Variable provision_result :
  string -> string -> string -> result (string * string * string).
Variable names : list string.
Variable ansibles : gmap string (string * string).
Variable use_last : bool.

Abbreviation schedule := (schedule ROOT getmtime now names ansibles).
Abbreviation schedule_all := (schedule_all ROOT getmtime now names ansibles).
Abbreviation run_task :=
  (run_task ensure_built_result history_result provision_result use_last).
Abbreviation collect :=
  (collect ensure_built_result history_result provision_result use_last).
Abbreviation ensure_images_built :=
  (ensure_images_built docker_images all_docker_images ROOT getmtime now
     vct_container ensure_built_result history_result provision_result
     names ansibles use_last).

(** A task files its result under its role. *)
Lemma run_task_role all t name image :
  (run_task all t).1 = Return (name, image) -> name = task_role t.
Proof.
  destruct t as [n|b|bf playbook repository builder si]; simpl.
  - destruct (ensure_built_result use_last n); simpl; congruence.
  - destruct (ensure_built_result false _); simpl; congruence.
  - assert (forall o si',
      (let '(r, evs) :=
         Ansible.run_ansible (ensure_built_result false) history_result
           provision_result playbook (Some repository) o si' in
       ('(image, repo, tag) ← r; Return (repository, image), evs)).1
      = Return (name, image) -> name = repository) as Hrun.
    { intros o si'. destruct (Ansible.run_ansible _ _ _ _ _ _ _) as [r evs].
      simpl. destruct r as [[[i rp] tg]|e]; simpl; congruence. }
    destruct (supplied si && use_last); simpl; [congruence|].
    destruct bf as [f|]; [|apply Hrun].
    destruct (all !! f) as [[?|b|?????]|]; simpl; try done.
    destruct (ensure_built_result false _); simpl; [apply Hrun|done].
Qed.

(** Collecting files one entry for each future and leaves the other
    entries alone. *)
Lemma collect_spec all futs : forall images r,
  collect all futs images = Return r ->
  length (roles_of all futs) = length futs /\
  (forall k, k ∈ dom r <-> k ∈ dom images \/ k ∈ roles_of all futs) /\
  (forall k, k ∉ roles_of all futs -> r !! k = images !! k).
Proof.
  induction futs as [|f futs IH]; intros images r; simpl.
  - intros [= <-]. split_and!; [done| |done].
    intros k. split; [by left|]. intros [?|H]; [done|].
    by apply not_elem_of_nil in H.
  - unfold roles_of. simpl. destruct (all !! f) as [t|] eqn:Ht; [|done].
    simpl. pose proof (run_task_role all t) as Hrole.
    destruct (run_task all t).1 as [[name image]|e]; simpl; [|done].
    rewrite (Hrole name image eq_refl). intros Hc.
    destruct (IH _ _ Hc) as (Hl & Hd & Hk). fold (roles_of all futs).
    split_and!.
    + by rewrite Hl.
    + intros k. rewrite Hd, dom_insert, elem_of_union, elem_of_singleton,
        elem_of_cons. tauto.
    + intros k Hn. apply not_elem_of_cons in Hn as [Hne Hn].
      rewrite Hk by done. by rewrite lookup_insert_ne.
Qed.

(** One turn of the loop adds one future, that of the role. *)
Lemma schedule_role start_images n p p' :
  fs_bound p ->
  schedule start_images n p = (None, p') ->
  fs_bound p' /\
  roles_of (submitted p') (fs p') =
    (roles_of (submitted p) (fs p) ++ [n])%list.
Proof.
  intros Hb. unfold Scheduler.schedule.
  assert (forall (q : pool) t,
    fs_bound q -> task_role t = n ->
    fs_bound (append_fs (submit t q).1 (submit t q).2) /\
    roles_of (submitted (append_fs (submit t q).1 (submit t q).2))
             (fs (append_fs (submit t q).1 (submit t q).2)) =
      (roles_of (submitted q) (fs q) ++ [n])%list) as Hsub.
  { intros q t Hq Ht. simpl. split.
    - unfold fs_bound. simpl. rewrite length_app. simpl.
      apply Forall_app. split.
      + eapply Forall_impl; [exact Hq|]. simpl. lia.
      + constructor; [lia|constructor].
    - rewrite roles_of_app, roles_of_grow by done. f_equal.
      unfold roles_of. simpl. rewrite list_lookup_middle by done.
      simpl. by rewrite Ht. }
  case_bool_decide.
  { simpl. intros [= <-]. by apply (Hsub p (build n)). }
  destruct (ansibles !! n) as [[playbook builder]|]; [|done].
  assert (forall (b : option string) (si : option string) (q : pool),
    fs_bound q ->
    (let '(bf, q0) :=
       if supplied b then
         match builder_fs q !! default "" b with
         | Some bf => (Some bf, q)
         | None =>
             let '(bf, q1) := submit (builder_build (default "" b)) q in
             (Some bf, remember (default "" b) bf q1)
         end
       else (None, q) in
     let '(f, q2) := submit (build_ansible bf playbook n b si) q0 in
     (@None exn, append_fs f q2)) = (None, p') ->
    fs_bound p' /\
    roles_of (submitted p') (fs p') =
      (roles_of (submitted q) (fs q) ++ [n])%list) as Hrest.
  { intros b si q Hq. destruct (supplied b).
    - destruct (builder_fs q !! default "" b) as [bf|].
      + intros [= <-]. by apply (Hsub q (build_ansible _ _ _ _ _)).
      + intros [= <-].
        set (q1 := remember (default "" b) (length (submitted q))
                     (submit (builder_build (default "" b)) q).2).
        assert (fs_bound q1) as Hq1.
        { unfold fs_bound, q1. simpl. rewrite length_app.
          eapply Forall_impl; [exact Hq|]. simpl. lia. }
        destruct (Hsub q1 (build_ansible (Some (length (submitted q)))
                             playbook n b si) Hq1 eq_refl) as [H1 H2].
        split; [exact H1|]. etrans; [exact H2|]. f_equal.
        unfold q1. simpl. by apply roles_of_grow.
    - intros [= <-]. by apply (Hsub q (build_ansible _ _ _ _ _)). }
  destruct (supplied (start_images !! n)).
  - destruct (Clobber.clobber_needed ROOT getmtime n (now n) (st p))
      as [[[|]|e] s]; [| |done].
    + apply (Hrest (Some builder) None (set_state s p)). done.
    + apply (Hrest None (start_images !! n) (set_state s p)). done.
  - apply (Hrest (Some builder) (start_images !! n) p). done.
Qed.

Lemma schedule_all_roles start_images ns : forall p p',
  fs_bound p ->
  schedule_all start_images ns p = (None, p') ->
  fs_bound p' /\
  roles_of (submitted p') (fs p') =
    (roles_of (submitted p) (fs p) ++ ns)%list.
Proof.
  induction ns as [|n ns IH]; intros p p' Hb; simpl.
  - intros [= <-]. by rewrite app_nil_r.
  - destruct (schedule start_images n p) as [[e|] p1] eqn:E; [done|].
    intros Hs. destruct (schedule_role _ _ _ _ Hb E) as [Hb1 Hr1].
    destruct (IH _ _ Hb1 Hs) as [Hb' Hr']. split; [done|].
    by rewrite Hr', Hr1, <- app_assoc.
Qed.

(** The [use_last] loops move roles from [missing] to [images] and touch
    nothing else. *)
Lemma last_of_tags_spec iid repotags : forall images missing images' missing',
  last_of_tags iid repotags (images, missing) = Return (images', missing') ->
  missing' ⊆ missing /\
  (forall k, k ∈ dom images' \/ k ∈ missing' <->
             k ∈ dom images \/ k ∈ missing) /\
  (forall k, k ∉ missing -> images' !! k = images !! k).
Proof.
  induction repotags as [|repotag l IH]; intros images missing images' missing';
    simpl.
  - intros [= <- <-]. done.
  - destruct (unpack2 _) as [[repo tag]|e]; simpl; [|done].
    case_bool_decide as Hin.
    + intros H. apply IH in H as (Hsub & Hdom & Hk). split_and!.
      * set_solver.
      * intros k. rewrite Hdom, dom_insert, elem_of_union,
          elem_of_singleton, elem_of_difference, elem_of_singleton.
        destruct (decide (k = repo)) as [->|]; [tauto|tauto].
      * intros k Hn. rewrite Hk by set_solver.
        apply lookup_insert_ne. intros ->. done.
    + apply IH.
Qed.

Lemma last_of_images_spec imgs : forall images missing images' missing',
  last_of_images imgs (images, missing) = Return (images', missing') ->
  missing' ⊆ missing /\
  (forall k, k ∈ dom images' \/ k ∈ missing' <->
             k ∈ dom images \/ k ∈ missing) /\
  (forall k, k ∉ missing -> images' !! k = images !! k).
Proof.
  induction imgs as [|i imgs IH]; intros images missing images' missing';
    simpl.
  - intros [= <- <-]. done.
  - destruct (last_of_tags _ _ _) as [[im1 mi1]|e] eqn:E; simpl; [|done].
    intros H. apply last_of_tags_spec in E as (Hs1 & Hd1 & Hk1).
    apply IH in H as (Hs2 & Hd2 & Hk2). split_and!.
    + set_solver.
    + intros k. by rewrite Hd2, Hd1.
    + intros k Hn. rewrite Hk2 by set_solver. by apply Hk1.
Qed.

Lemma ensure_images_built_covers
    (existing : gmap string string) (max_workers : option Z) (s : state)
    (r : gmap string string) :
  (ensure_images_built existing max_workers s).1.1.1 = Return r ->
  (forall n, n ∈ names \/ n ∈ dom ansibles -> n ∈ dom r) /\
  (forall k v, existing !! k = Some v -> v ∈ all_docker_images ->
               r !! k = Some v).
Proof.
  unfold Scheduler.ensure_images_built.
  set (images := filter (fun kv => kv.2 ∈ all_docker_images) existing).
  set (missing := (list_to_set names ∪ dom ansibles) ∖ dom images).
  assert (forall k v, existing !! k = Some v -> v ∈ all_docker_images ->
                      images !! k = Some v) as Hex.
  { intros k v Hk Hv. unfold images. by apply map_lookup_filter_Some. }
  assert (forall n, n ∈ names \/ n ∈ dom ansibles ->
                    n ∈ dom images \/ n ∈ missing) as Hreq.
  { intros n Hn. destruct (decide (n ∈ dom images)); [by left|].
    right. unfold missing. set_solver. }
  assert (forall k, k ∈ dom images -> k ∉ missing) as Hdis.
  { unfold missing. set_solver. }
  clearbody images missing.
  destruct (if use_last then _ else _) as [[images' missing']|e] eqn:Hl;
    [|done].
  assert (missing' ⊆ missing /\
          (forall k, k ∈ dom images' \/ k ∈ missing' <->
                     k ∈ dom images \/ k ∈ missing) /\
          (forall k, k ∉ missing -> images' !! k = images !! k))
    as (Hsub & Hdom & Hkeep).
  { destruct use_last; [by apply last_of_images_spec in Hl|].
    by injection Hl as <- <-. }
  assert (forall k v, existing !! k = Some v -> v ∈ all_docker_images ->
                      images' !! k = Some v /\ k ∉ missing') as Hex'.
  { intros k v Hk Hv. specialize (Hex k v Hk Hv).
    assert (k ∉ missing) by (apply Hdis, elem_of_dom; eauto).
    split; [by rewrite Hkeep|set_solver]. }
  case_bool_decide as Hm.
  { simpl. intros [= <-]. split.
    - intros n Hn. apply Hreq, Hdom in Hn as [?|?]; [done|set_solver].
    - intros k v Hk Hv. by apply Hex'. }
  destruct (start_of_images _ _ _) as [start_images|e]; [|done].
  destruct (vct_container s) as [[vct_cid|e] s']; [|done].
  destruct (schedule_all start_images (sorted missing') (Pool [] [] ∅ s'))
    as [[e|] p] eqn:Hs; [done|].
  simpl. intros Hc.
  apply schedule_all_roles in Hs as [_ Hroles]; [|constructor].
  simpl in Hroles.
  apply collect_spec in Hc as (_ & Hd & Hk). rewrite Hroles in Hd, Hk.
  split.
  - intros n Hn. apply Hd. apply Hreq, Hdom in Hn as [?|?]; [by left|].
    right. by apply elem_of_sorted.
  - intros k v Hkv Hv. destruct (Hex' k v Hkv Hv) as [Hi Hn].
    rewrite Hk; [done|]. by rewrite elem_of_sorted.
Qed.

(** X5.  When [ensure_images_built] returns, the mapping has an image for
    every requested role, from [names] or from [ansibles], and every
    entry of [existing] whose image the daemon knows is returned as it
    was given. *)
Theorem ensure_images_built_complete
    (existing : gmap string string) (max_workers : option Z) (s : state)
    (r : gmap string string) :
  (ensure_images_built existing max_workers s).1.1.1 = Return r ->
  (forall n, n ∈ names \/ n ∈ dom ansibles -> n ∈ dom r) /\
  (forall k v, existing !! k = Some v -> v ∈ all_docker_images ->
               r !! k = Some v).
Proof. apply ensure_images_built_covers. Qed.

(** X6.  Without [use_last], a call whose requested roles all have an
    entry in [existing] with an image the daemon knows returns these
    entries at once: the state is untouched, the content-sync container is
    not entered, no pool is created and nothing is submitted. *)
Theorem ensure_images_built_fast_path
    (existing : gmap string string) (max_workers : option Z) (s : state) :
  use_last = false ->
  (forall n, n ∈ names \/ n ∈ dom ansibles ->
     exists v, existing !! n = Some v /\ v ∈ all_docker_images) ->
  ensure_images_built existing max_workers s =
    (Return (filter (fun kv => kv.2 ∈ all_docker_images) existing),
     s, None, []).
Proof.
  intros -> Hall. unfold Scheduler.ensure_images_built.
  rewrite bool_decide_true; [done|].
  apply set_eq. intros n. rewrite elem_of_difference, elem_of_union,
    elem_of_list_to_set. split; [|set_solver].
  intros [Hn Hd]. exfalso. apply Hd.
  destruct (Hall n Hn) as (v & Hv & Hk).
  apply elem_of_dom. exists v. by apply map_lookup_filter_Some.
Qed.

(** X7.  Whenever [ensure_images_built] creates its pool, the pool has at
    least one worker, at most as many workers as roles were requested,
    and at most [max_workers] workers when that limit is 1 or more. *)
Theorem ensure_images_built_pool_bounded
    (existing : gmap string string) (max_workers : option Z) (s : state)
    (w : option Z) :
  (ensure_images_built existing max_workers s).1.2 = Some w ->
  exists k, w = Some k /\
    1 <= k <= Z.of_nat (size (list_to_set names ∪ dom ansibles : gset string)) /\
    (forall m, max_workers = Some m -> 1 <= m -> k <= m).
Proof.
  unfold Scheduler.ensure_images_built.
  set (images := filter (fun kv => kv.2 ∈ all_docker_images) existing).
  set (requested := (list_to_set names ∪ dom ansibles : gset string)).
  destruct (if use_last then _ else _) as [[images' missing']|e] eqn:Hl;
    [|done].
  assert (missing' ⊆ requested) as Hsub.
  { destruct use_last.
    - apply last_of_images_spec in Hl as (Hsub & _). set_solver.
    - injection Hl as <- <-. set_solver. }
  case_bool_decide as Hm; [done|].
  destruct (start_of_images _ _ _) as [start_images|e]; [|done].
  destruct (vct_container s) as [[vct_cid|e] s']; [|done].
  assert (1 <= Z.of_nat (size missing') <= Z.of_nat (size requested)) as Hsz.
  { split.
    - assert (size missing' <> 0%nat); [|lia].
      intros H0. by apply size_empty_inv, leibniz_equiv in H0.
    - apply inj_le. by apply subseteq_size. }
  destruct (PoolFacts.pool_bounds (Z.of_nat (size missing')) max_workers)
    as (k & Hk & Hb & Hmax & _); [lia|].
  assert (forall out : result (gmap string string) * state
                       * option (option Z) * list task,
            out.1.2 = Some w ->
            out.1.2 = Some (limited_threadpoolexecutor
                              (Some (Z.of_nat (size missing'))) max_workers) ->
            exists k, w = Some k /\
              1 <= k <= Z.of_nat (size requested) /\
              (forall m, max_workers = Some m -> 1 <= m -> k <= m)) as Hout.
  { intros out H1 H2. rewrite H1, Hk in H2. injection H2 as ->.
    exists k. split_and!; [done|lia|lia|done]. }
  destruct (schedule_all start_images (sorted missing') (Pool [] [] ∅ s'))
    as [[e|] p]; intros H; by eapply Hout.
Qed.

End Env.

(** The first run of [hg_tasks], with all that it returns. *)
Lemma ensure_images_built_complete_witness :
  "hgweb" ∈ dom ({["hgmaster" := "sha256:ccc"; "hgweb" := "sha256:ccc";
                   "ldap" := "sha256:ldap"]} : gmap string string).
Proof.
  eapply (ensure_images_built_complete [] ∅ "/vct" no_marker epoch
            vct_running built no_history Ansible.committed ["ldap"]
            hg_ansibles false ∅ None initial_state).
  - vm_compute. reflexivity.
  - right. vm_compute. reflexivity.
Defined.

Lemma ensure_images_built_fast_path_witness :
  ensure_images_built [] {["sha256:ldap"]} "/vct" no_marker epoch vct_running
    built no_history Ansible.committed ["ldap"] ∅ false
    {["ldap" := "sha256:ldap"]} None initial_state =
  (Return (filter (fun kv => kv.2 ∈ ({["sha256:ldap"]} : gset string))
             {["ldap" := "sha256:ldap"]}), initial_state, None, []).
Proof.
  apply ensure_images_built_fast_path; [reflexivity|].
  intros n [Hn|Hn].
  - apply list_elem_of_singleton in Hn as ->. exists "sha256:ldap".
    split; [reflexivity|]. by apply elem_of_singleton.
  - rewrite dom_empty in Hn. by apply not_elem_of_empty in Hn.
Defined.

Lemma ensure_images_built_pool_bounded_witness :
  exists k, Some 2 = Some k /\
    1 <= k <= Z.of_nat (size (list_to_set ["ldap"] ∪ dom hg_ansibles
                               : gset string)) /\
    (forall m, Some 2 = Some m -> 1 <= m -> k <= m).
Proof.
  apply (ensure_images_built_pool_bounded [] ∅ "/vct" no_marker epoch
           vct_running built no_history Ansible.committed ["ldap"]
           hg_ansibles false ∅ (Some 2) initial_state).
  vm_compute. reflexivity.
Defined.

End SchedulerMoreFacts.

(** ** Clobber markers in the scheduler *)

Module SchedulerClobberFacts.
Import Scheduler SchedulerSpec.

Section Env.

Variable ROOT : string.
Variable getmtime : string -> result Q.
Variable now : string -> Q.
Variable ensure_built_result : bool -> string -> result string.
Variable history_result : string -> result (list Ansible.layer).
Variable provision_result :
  string -> string -> string -> result (string * string * string).
Variable names : list string.
Variable ansibles : gmap string (string * string).

Abbreviation schedule := (schedule ROOT getmtime now names ansibles).
Abbreviation run_task :=
  (run_task ensure_built_result history_result provision_result false).

(** The task of a role that is provisioned from its builder, once the
    builder's future is known. *)
Lemma submit_with_builder (q : pool) playbook n builder :
  futures_ok q ->
  exists q' f,
    (let '(bf, q0) :=
       match builder_fs q !! builder with
       | Some bf => (Some bf, q)
       | None =>
           let '(bf, q1) := submit (builder_build builder) q in
           (Some bf, remember builder bf q1)
       end in
     let '(f, q2) :=
       submit (build_ansible bf playbook n (Some builder) None) q0 in
     (@None exn, append_fs f q2)) = (None, q') /\
    st q' = st q /\
    last (submitted q') =
      Some (build_ansible (Some f) playbook n (Some builder) None) /\
    submitted q' !! f = Some (builder_build builder).
Proof.
  intros Hok. destruct (builder_fs q !! builder) as [bf|] eqn:Hl; cbn.
  - eexists _, bf. split; [reflexivity|]. cbn.
    split_and!; [done|by rewrite last_snoc|].
    apply lookup_app_l_Some. by apply Hok.
  - eexists _, (length (submitted q)). split; [reflexivity|]. cbn.
    split_and!; [done|by rewrite last_snoc|].
    apply lookup_app_l_Some. by apply list_lookup_middle.
Qed.

(** X8.  For a provisioned role that has both a start image and a marker
    file: when the marker is newer than the stored timestamp (or none is
    stored), the role's task waits for the builder's build and, run
    without [use_last], provisions from the builder's image, the start
    image being ignored; otherwise the state is left alone and the task,
    run without [use_last], provisions from the start image without any
    builder. *)
Theorem clobber_decides_start_image
    (start_images : gmap string string) (n : string) (p : pool)
    (playbook builder img bimg : string) (m : Q) :
  n ∉ names ->
  Str.truthy n = true ->
  ansibles !! n = Some (playbook, builder) ->
  Str.truthy builder = true ->
  start_images !! n = Some img ->
  Str.truthy img = true ->
  getmtime (Clobber.clobber_path ROOT n) = Return m ->
  ensure_built_result false ("ansible-" +:+ builder) = Return bimg ->
  Str.truthy bimg = true ->
  futures_ok p ->
  let r := schedule start_images n p in
  r.1 = None /\
  exists t, last (submitted r.2) = Some t /\ task_role t = n /\
    ((Clobber.newer n (st p) m /\
      Clobber.oldmtime n (st r.2) = Some (Clobber.py_int (now n)) /\
      (run_task (submitted r.2) t).2 =
        (Ansible.provision_from history_result provision_result
           playbook n bimg).2) \/
     (~ Clobber.newer n (st p) m /\ st r.2 = st p /\
      t = build_ansible None playbook n None (Some img) /\
      (run_task (submitted r.2) t).2 =
        (Ansible.provision_from history_result provision_result
           playbook n img).2)).
Proof.
  intros Hn Hnt Ha Hb Hs Hi Hm He Hbi Hok r. subst r.
  unfold Scheduler.schedule.
  rewrite bool_decide_false by done. rewrite Ha, Hs. cbn [supplied].
  rewrite Hi.
  destruct (ClobberFacts.clobber_needed_unfold ROOT getmtime n (now n)
              (st p) m Hm) as [[Hnew ->]|[Hold ->]].
  - cbn [supplied default]. rewrite Hb.
    set (s1 := set_clobber _ (st p)).
    destruct (submit_with_builder (set_state s1 p) playbook n builder Hok)
      as (q' & f & Heq & Hst & Hlast & Hf).
    unfold id. rewrite Heq. cbn [fst snd].
    split; [done|]. eexists. split; [exact Hlast|]. split; [done|].
    left. split_and!; [done| |].
    + rewrite Hst. cbn. unfold s1. rewrite ClobberFacts.oldmtime_set.
      by rewrite decide_True.
    + cbn. rewrite Hf. cbn. rewrite He.
      unfold Ansible.run_ansible. cbn [supplied]. rewrite Hbi. cbn.
      rewrite Hnt. by destruct (Ansible.provision_from _ _ _ _ _).
  - cbn. split; [done|]. eexists. split; [by rewrite last_snoc|].
    split; [done|]. right. split_and!; [done..|].
    cbn. rewrite Hi. cbn.
    unfold Ansible.run_ansible. cbn [supplied]. rewrite Hi. cbn.
    rewrite Hnt. by destruct (Ansible.provision_from _ _ _ _ _).
Qed.

End Env.

Lemma clobber_decides_start_image_witness :
  (schedule "/vct" Clobber.marker_at_100 epoch [] hg_ansibles
     {["hgweb" := "sha256:old"]} "hgweb" (Pool [] [] ∅ initial_state)).1
  = None.
Proof.
  apply (clobber_decides_start_image "/vct" Clobber.marker_at_100 epoch
           built no_history Ansible.committed [] hg_ansibles
           {["hgweb" := "sha256:old"]} "hgweb" (Pool [] [] ∅ initial_state)
           "docker-hgweb" "centos7" "sha256:old" "sha256:ansible-centos7"
           (inject_Z 100)); try reflexivity.
  - apply not_elem_of_nil.
  - intros b f H. simpl in H. by rewrite lookup_empty in H.
Defined.

End SchedulerClobberFacts.

(** ** More on the secure image importer *)

Module ImporterMoreFacts.
Import Importer ImporterExamples.

Section Env.

Variable sha256 : string -> string.
Variable iter_content : string -> result (list string).
Variable lzma_decompress : string -> result string.
Variable daemon_import : string -> string -> string -> result string.
Variable json_status : string -> result string.

Abbreviation import_base_image :=
  (import_base_image sha256 iter_content lzma_decompress daemon_import
     json_status).

(** X9.  Whatever [import_base_image] hands to the daemon's import is the
    downloaded content, decompressed when the url ends in [.xz], of a
    download whose SHA-256 is the expected digest, and it is imported
    under the requested repository and the cache tag. *)
Theorem import_base_image_verifies_first
    (imgs : list image) (repository tagprefix url digest data r t : string) :
  import_image_from_data data r t ∈
    (import_base_image imgs repository tagprefix url digest).2 ->
  exists chunks,
    iter_content url = Return chunks /\
    sha256 (foldr String.append "" chunks) = digest /\
    (if Str.endswith url ".xz"
     then lzma_decompress (foldr String.append "" chunks)
     else Return (foldr String.append "" chunks)) = Return data /\
    r = repository /\ t = cache_tag sha256 tagprefix url digest.
Proof.
  unfold Importer.import_base_image.
  destruct (scan_images _ _ _) as [[id|]|e]; simpl;
    try (intros H; by apply not_elem_of_nil in H).
  intros H. apply ImporterFacts.download_verifies in H
    as (chunks & payload & Hc & Hd & Hp & -> & -> & ->).
  by exists chunks.
Qed.

(** X10.  With no cached image, a download whose SHA-256 differs from the
    expected digest makes [import_base_image] raise its mismatch error
    after the one download request; nothing is sent to the daemon. *)
Theorem import_base_image_rejects_mismatch
    (imgs : list image) (repository tagprefix url digest : string)
    (chunks : list string) :
  Forall splittable imgs ->
  Str.contains colon repository = false ->
  Str.contains colon (cache_tag sha256 tagprefix url digest) = false ->
  (forall i, i ∈ imgs ->
     ~ tagged repository (cache_tag sha256 tagprefix url digest) i) ->
  iter_content url = Return chunks ->
  sha256 (foldr String.append "" chunks) <> digest ->
  import_base_image imgs repository tagprefix url digest =
    (Raise (Exception
              (mismatch_message url (sha256 (foldr String.append "" chunks))
                 digest)),
     [requests_get url]).
Proof.
  intros Hs Hr Ht Hno Hc Hd. unfold Importer.import_base_image.
  assert (Forall splittable (_get_sorted_images imgs)) as Hs'.
  { by rewrite ImporterFacts.sorted_images_perm. }
  destruct (ImporterFacts.scan_images_spec repository _ _ Hs' Hr Ht)
    as [(j & Hj & Hjt & _)|[-> _]].
  - exfalso. apply (Hno j); [|done].
    by rewrite ImporterFacts.sorted_images_perm in Hj.
  - by apply ImporterFacts.download_mismatch.
Qed.

(** X11.  When every listed tag has the form [repo:tag] and an image
    carries the cache tag of the request, [import_base_image] returns the
    id of such an image without any download or import request. *)
Theorem import_base_image_cache_hit
    (imgs : list image) (repository tagprefix url digest : string) :
  Forall splittable imgs ->
  Str.contains colon repository = false ->
  Str.contains colon (cache_tag sha256 tagprefix url digest) = false ->
  (exists i, i ∈ imgs /\
     tagged repository (cache_tag sha256 tagprefix url digest) i) ->
  exists i, i ∈ imgs /\
    tagged repository (cache_tag sha256 tagprefix url digest) i /\
    import_base_image imgs repository tagprefix url digest
      = (Return (Id i), []).
Proof. apply ImporterFacts.import_cache_hit. Qed.

End Env.

Lemma import_base_image_verifies_first_witness :
  exists chunks,
    one_layer "https://host/centos7.tar" = Return chunks /\
    plain_digest (foldr String.append "" chunks) = "layer" /\
    (if Str.endswith "https://host/centos7.tar" ".xz"
     then no_lzma (foldr String.append "" chunks)
     else Return (foldr String.append "" chunks)) = Return "layer" /\
    "centos" = "centos" /\
    "7-https://host/centos7.tarlayer" =
      cache_tag plain_digest "7" "https://host/centos7.tar" "layer".
Proof.
  apply (import_base_image_verifies_first plain_digest one_layer no_lzma
           imported status_id [] "centos" "7" "https://host/centos7.tar"
           "layer" "layer" "centos" "7-https://host/centos7.tarlayer").
  vm_compute. apply list_elem_of_further, list_elem_of_here.
Defined.

Lemma import_base_image_rejects_mismatch_witness :
  import_base_image plain_digest one_layer no_lzma imported status_id
    [] "centos" "7" "host/centos7.tar" "0f3a" =
  (Raise (Exception (mismatch_message "host/centos7.tar" "layer" "0f3a")),
   [requests_get "host/centos7.tar"]).
Proof.
  apply (import_base_image_rejects_mismatch plain_digest one_layer no_lzma
           imported status_id [] "centos" "7" "host/centos7.tar" "0f3a"
           ["lay"; "er"]); try reflexivity.
  - constructor.
  - intros i Hi. by apply not_elem_of_nil in Hi.
  - discriminate.
Defined.

Lemma import_base_image_cache_hit_witness :
  exists i, i ∈ [Image "sha256:bbb" 1 (Some ["centos:7-host/c.tar0f3a"])] /\
    tagged "centos" (cache_tag plain_digest "7" "host/c.tar" "0f3a") i /\
    import_base_image plain_digest one_layer no_lzma imported status_id
      [Image "sha256:bbb" 1 (Some ["centos:7-host/c.tar0f3a"])]
      "centos" "7" "host/c.tar" "0f3a" = (Return (Id i), []).
Proof.
  apply (import_base_image_cache_hit plain_digest one_layer no_lzma imported
           status_id); try reflexivity.
  - repeat constructor. by exists "centos", "7-host/c.tar0f3a".
  - eexists. split; [apply list_elem_of_here|].
    unfold tagged. simpl. apply list_elem_of_here.
Defined.

End ImporterMoreFacts.

(** ** More on clobber markers *)

Module ClobberMoreFacts.
Import Clobber.

(** X12.  [clobber_needed] changes nothing in the state but the entry
    [clobber-<name>]: a missing marker file gives [False] and an untouched
    state whatever is stored, and any other failure to read the marker is
    raised with the state untouched. *)
Theorem clobber_needed_frame
    (ROOT : string) (getmtime : string -> result Q) (name : string)
    (now : Q) (st : state) :
  let r := clobber_needed ROOT getmtime name now st in
  set_clobber (fun _ => clobber st) r.2 = st /\
  (forall k, k <> clobber_key name -> clobber r.2 !! k = clobber st !! k) /\
  (getmtime (clobber_path ROOT name) = Raise (OSError ENOENT) ->
   r = (Return false, st)) /\
  (forall e, getmtime (clobber_path ROOT name) = Raise e ->
             e <> OSError ENOENT -> r = (Raise e, st)).
Proof.
  intros r. subst r. unfold clobber_needed.
  destruct (getmtime (clobber_path ROOT name)) as [m|e].
  - destruct (match oldmtime name st with
              | Some old => Qltb (inject_Z old) m | None => true end).
    + simpl. split_and!; [by destruct st| |done|done].
      intros k Hk. by rewrite lookup_insert_ne.
    + split_and!; [by destruct st|done|done|done].
  - destruct e as [?|?|?|?|errno|?|?|]; try (split_and!;
      [by destruct st|done|done|by intros e [= <-]]).
    destruct (errno =? ENOENT) eqn:E.
    + apply Z.eqb_eq in E as ->.
      split_and!; [by destruct st|done|done|by intros e [= <-]].
    + apply Z.eqb_neq in E.
      split_and!; [by destruct st|done| |by intros e [= <-]].
      intros [= ?]. done.
Qed.

Lemma clobber_needed_frame_witness :
  clobber_needed "/vct" Scheduler.no_marker "hgweb" (inject_Z 1000)
    initial_state = (Return false, initial_state).
Proof.
  apply (clobber_needed_frame "/vct" Scheduler.no_marker "hgweb"
           (inject_Z 1000) initial_state).
  reflexivity.
Defined.

(** X13.  After a check that returned [True] at time [now], the state
    remembers [int(now)], the whole second of the check, not the marker's
    modification time.  The next check of the same role returns [True]
    exactly when the marker's modification time is later than [int(now)],
    and [False] exactly when it is not. *)
Theorem clobber_needed_reported_once
    (ROOT : string) (getmtime getmtime' : string -> result Q)
    (name : string) (now now' : Q) (st : state) (m' : Q) :
  (clobber_needed ROOT getmtime name now st).1 = Return true ->
  getmtime' (clobber_path ROOT name) = Return m' ->
  let st1 := (clobber_needed ROOT getmtime name now st).2 in
  ((clobber_needed ROOT getmtime' name now' st1).1 = Return true <->
   (inject_Z (py_int now) < m')%Q) /\
  ((clobber_needed ROOT getmtime' name now' st1).1 = Return false <->
   (m' <= inject_Z (py_int now))%Q).
Proof.
  intros Ht Hm' st1.
  assert (oldmtime name st1 = Some (py_int now)) as Hold.
  { subst st1. revert Ht. unfold clobber_needed.
    destruct (getmtime (clobber_path ROOT name)) as [m|e].
    - destruct (match oldmtime name st with
                | Some old => Qltb (inject_Z old) m | None => true end);
        [|done].
      intros _. simpl. rewrite ClobberFacts.oldmtime_set.
      by rewrite decide_True.
    - destruct e; try done. by destruct (_ =? _). }
  clearbody st1.
  destruct (ClobberFacts.clobber_needed_unfold ROOT getmtime' name now'
              st1 m' Hm') as [[Hn ->]|[Hn ->]];
    unfold newer in Hn; rewrite Hold in Hn; simpl.
  - split; [done|]. split; [done|]. intros Hle. exfalso.
    by eapply Qlt_not_le.
  - split.
    + split; [done|]. intros H. by apply Hn in H.
    + split; [|done]. intros _. by apply Qnot_lt_le.
Qed.

Lemma clobber_needed_reported_once_witness :
  (clobber_needed "/vct" marker_at_100 "hgweb" (inject_Z 2000)
     (clobber_needed "/vct" marker_at_100 "hgweb" (inject_Z 1000)
        initial_state).2).1 = Return false <->
  (inject_Z 100 <= inject_Z (py_int (inject_Z 1000)))%Q.
Proof.
  apply (clobber_needed_reported_once "/vct" marker_at_100 marker_at_100
           "hgweb" (inject_Z 1000) (inject_Z 2000) initial_state
           (inject_Z 100)); reflexivity.
Defined.

(** Because the check records the truncated time, a marker modified
    within the second of the check is reported again though nobody
    touched it: modified at 1000.2 and checked at 1000.3, the state
    remembers 1000 and the next check sees 1000 < 1000.2. *)
Example clobber_same_second_reported_again :
  let marker (path : string) : result Q := Return (10002 # 10)%Q in
  let first := clobber_needed "/vct" marker "hgweb" (10003 # 10)%Q
                 initial_state in
  first.1 = Return true /\
  oldmtime "hgweb" first.2 = Some 1000 /\
  (clobber_needed "/vct" marker "hgweb" (inject_Z 2000) first.2).1
    = Return true.
Proof. vm_compute. done. Qed.

End ClobberMoreFacts.

(** ** More on the rollback guard *)

Module RollbackMoreFacts.
Import Rollback.

Section Daemon.

Variable remove_error : call -> option exn.
Variable container_order : gset string -> list string.
Variable network_order : gset string -> list string.

Abbreviation rollback :=
  (rollback remove_error container_order network_order).
Abbreviation docker_rollback_on_error :=
  (docker_rollback_on_error remove_error container_order network_order).

(** What a removal loop sends is a prefix of its list. *)
Lemma remove_each_sends mk ids : forall c,
  exists sent,
    calls (remove_each remove_error mk ids c).2 =
      (calls c ++ map mk sent)%list /\
    sent `prefix_of` ids.
Proof.
  induction ids as [|x ids IH]; intros c; simpl.
  - exists []. by rewrite app_nil_r.
  - destruct (remove_error (mk x)); simpl.
    + exists [x]. split; [done|]. by exists ids.
    + destruct (IH (log_call (mk x) c)) as (sent & -> & Hp).
      exists (x :: sent). simpl. rewrite <- app_assoc. split; [done|].
      by apply prefix_cons.
Qed.

(** X14.  Whatever happens in the block and during the cleanup, and in
    whatever order the two sets are visited, the only requests
    [docker_rollback_on_error] adds are removals of containers and
    networks that were created through the client inside the block:
    nothing that existed before the scope is ever removed. *)
Theorem rollback_removes_only_created (body : list op) (c : client) :
  visits_once container_order -> visits_once network_order ->
  exists new,
    calls (docker_rollback_on_error body c).2 =
      (calls c ++ new)%list /\
    Forall (fun x =>
              match x with
              | remove_container cid => cid ∈ containers_created body
              | remove_network nid => nid ∈ networks_created body
              end) new.
Proof.
  intros Hco Hno.
  rewrite RollbackFacts.rollback_unfold. cbv zeta. cbn [snd].
  destruct (RollbackFacts.run_ops_frame body (entered c)) as [_ Hcalls].
  destruct (RollbackFacts.entered_tracked body c) as (t & Hl & Hc & Hn).
  destruct (run_ops body (entered c)) as [[e|] c2]; simpl in *.
  2: { exists []. by rewrite app_nil_r. }
  destruct (is_Exception e); simpl.
  2: { exists []. by rewrite app_nil_r. }
  unfold Rollback.rollback. rewrite Hl. simpl.
  destruct (remove_each_sends remove_container
              (container_order (created_containers t)) c2)
    as (s1 & H1 & P1).
  assert (Forall (fun cid => cid ∈ containers_created body) s1) as F1.
  { apply Forall_forall. intros x Hx.
    assert (x ∈ container_order (created_containers t)) as Hin.
    { destruct P1 as [k ->]. apply elem_of_app. by left. }
    rewrite (Hco _), elem_of_elements, Hc, elem_of_list_to_set in Hin.
    done. }
  destruct (remove_each remove_error remove_container _ c2) as [[e1|] c3];
    simpl in *.
  { exists (map remove_container s1). rewrite H1, Hcalls. split; [done|].
    by apply Forall_map. }
  destruct (remove_each_sends remove_network
              (network_order (created_networks t)) c3) as (s2 & H2 & P2).
  assert (Forall (fun nid => nid ∈ networks_created body) s2) as F2.
  { apply Forall_forall. intros x Hx.
    assert (x ∈ network_order (created_networks t)) as Hin.
    { destruct P2 as [k ->]. apply elem_of_app. by left. }
    rewrite (Hno _), elem_of_elements, Hn, elem_of_list_to_set in Hin.
    done. }
  assert (exists new, calls (remove_each remove_error remove_network
                               (network_order (created_networks t)) c3).2
                      = (calls c ++ new)%list /\
            Forall (fun x => match x with
                             | remove_container cid =>
                                 cid ∈ containers_created body
                             | remove_network nid =>
                                 nid ∈ networks_created body
                             end) new) as (new & Hnew & Fnew).
  { exists (map remove_container s1 ++ map remove_network s2)%list.
    rewrite H2, H1, Hcalls, <- app_assoc. split; [done|].
    apply Forall_app. split; by apply Forall_map. }
  exists new. split; [|done].
  by destruct (remove_each remove_error remove_network _ c3) as [[e2|] c4].
Qed.

(** The cleanup leaves the recorded sets as they are. *)
Lemma rollback_closures s e c2 :
  closures (rollback s e c2).2 = closures c2.
Proof.
  unfold Rollback.rollback.
  set (l1 := container_order (created_containers _)).
  set (l2 := network_order (created_networks _)).
  pose proof (RollbackFacts.remove_each_frame remove_error
                remove_container l1 c2) as [_ H1].
  destruct (remove_each remove_error remove_container l1 c2) as [[e1|] c3];
    simpl in *; [done|].
  pose proof (RollbackFacts.remove_each_frame remove_error
                remove_network l2 c3) as [_ H2].
  destruct (remove_each remove_error remove_network l2 c3) as [[e2|] c4];
    simpl in *; by rewrite H2, H1.
Qed.

(** X15.  A scope entered while an outer scope is active reports its
    creations to the outer scope as well: when the inner context manager
    exits, normally or not, the sets of every enclosing scope hold what
    they held before and every container and network created in the
    inner block. *)
Theorem rollback_nested_tracks_outer (body : list op) (c : client)
    (s : nat) (t : tracked) :
  s ∈ scopes (class_ c) ->
  (s < next_scope c)%nat ->
  closures c !! s = Some t ->
  exists t',
    closures (docker_rollback_on_error body c).2 !! s
      = Some t' /\
    (forall x, x ∈ created_containers t' <->
               x ∈ created_containers t \/ x ∈ containers_created body) /\
    (forall x, x ∈ created_networks t' <->
               x ∈ created_networks t \/ x ∈ networks_created body).
Proof.
  intros Hs Hlt Ht. rewrite RollbackFacts.rollback_unfold. cbv zeta.
  cbn [snd].
  destruct (RollbackFacts.run_ops_tracked body s (entered c) t)
    as (t' & Hl & Hc & Hn).
  { simpl. by right. }
  { simpl. rewrite lookup_insert_ne by lia. done. }
  exists t'. split; [|done].
  destruct (run_ops body (entered c)) as [[e|] c2]; simpl in *; [|done].
  destruct (is_Exception e); simpl; [|done].
  by rewrite rollback_closures.
Qed.

End Daemon.

Lemma rollback_removes_only_created_witness :
  exists new,
    calls (docker_rollback_on_error refusing_second elements elements
             two_containers fresh_client).2 =
      (calls fresh_client ++ new)%list /\
    Forall (fun x =>
              match x with
              | remove_container cid => cid ∈ containers_created two_containers
              | remove_network nid => nid ∈ networks_created two_containers
              end) new.
Proof.
  apply (rollback_removes_only_created refusing_second elements elements
           two_containers fresh_client);
    apply RollbackFacts.visits_once_elements.
Defined.

(** A client inside the scope numbered 0, which has recorded nothing. *)
Lemma rollback_nested_tracks_outer_witness :
  exists t',
    closures (docker_rollback_on_error refusing elements elements
                failing_block (entered fresh_client)).2 !! 0%nat
      = Some t' /\
    (forall x, x ∈ created_containers t' <->
               x ∈ created_containers no_tracked \/
               x ∈ containers_created failing_block) /\
    (forall x, x ∈ created_networks t' <->
               x ∈ created_networks no_tracked \/
               x ∈ networks_created failing_block).
Proof.
  apply (rollback_nested_tracks_outer refusing elements elements
           failing_block (entered fresh_client) 0 no_tracked).
  - simpl. apply list_elem_of_here.
  - simpl. lia.
  - reflexivity.
Defined.

End RollbackMoreFacts.

(** ** More on image ids and pruning *)

Module PruneMoreFacts.
Import Prune ShortId.

Lemma take_length n : forall s, (String.length (Str.take n s) <= n)%nat.
Proof.
  unfold Str.take. induction n as [|n IH]; intros [|a s]; simpl; try lia.
  specialize (IH s). lia.
Qed.

Lemma get_full_image_unresolved (imgs : list image) (image : string) :
  (forall i, i ∈ imgs -> short_id i <> image) ->
  get_full_image imgs image = image.
Proof.
  induction imgs as [|i imgs IH]; simpl; [done|]. intros Hno.
  rewrite bool_decide_false by (apply Hno; by left).
  apply IH. intros j Hj. apply Hno. by right.
Qed.

Lemma get_full_image_long
    (imgs : list image) (image : string) :
  (12 < String.length image)%nat -> get_full_image imgs image = image.
Proof.
  intros Hlen. apply get_full_image_unresolved. intros i _ Hi.
  pose proof (take_length 12 (strip_sha256 (Id i))) as Hle.
  fold (short_id i) in Hle. rewrite Hi in Hle. lia.
Qed.

(** X16.  [get_full_image] resolves a reference only through the
    12-character short id: it returns the id of the first listed image
    whose short id is the reference, and the reference itself when there
    is none; in particular a reference longer than 12 characters, a full
    id or a [name:tag], always comes back unchanged. *)
Theorem get_full_image_resolves_short_ids (imgs : list image) (image : string) :
  ((12 < String.length image)%nat -> get_full_image imgs image = image) /\
  ((forall i, i ∈ imgs -> short_id i <> image) ->
   get_full_image imgs image = image) /\
  (forall l1 i l2, imgs = (l1 ++ i :: l2)%list ->
     short_id i = image ->
     (forall j, j ∈ l1 -> short_id j <> image) ->
     get_full_image imgs image = Id i).
Proof.
  split_and!.
  - apply get_full_image_long.
  - apply get_full_image_unresolved.
  - intros l1 i l2 -> Hi Hl1.
    induction l1 as [|j l1 IH]; simpl.
    + by rewrite bool_decide_true.
    + rewrite bool_decide_false by (apply Hl1; by left).
      apply IH. intros k Hk. apply Hl1. by right.
Qed.

Lemma get_full_image_resolves_short_ids_witness :
  get_full_image [Image "sha256:0123456789abcdef" 1 None]
    "sha256:0123456789abcdef" = "sha256:0123456789abcdef".
Proof.
  destruct (get_full_image_resolves_short_ids
              [Image "sha256:0123456789abcdef" 1 None]
              "sha256:0123456789abcdef") as (H & _ & _).
  apply H. apply Nat.ltb_lt. reflexivity.
Defined.

(** X17.  An image whose full id, longer than 12 characters, is the image
    reference of a running container is never submitted for deletion,
    whatever its tags, whatever the state records and whether or not the
    state file can be written. *)
Theorem prune_images_spares_running
    (save_result : state -> result unit) (imgs : list image)
    (cs : list container) (st : state) (c : container) :
  c ∈ cs ->
  (12 < String.length (c_Image c))%nat ->
  c_Image c ∉ submitted (prune_images save_result imgs cs st).2.
Proof.
  unfold prune_images.
  destruct (select _ _ imgs ∅) as [td|e] eqn:Hsel; simpl;
    [|intros _ _; apply not_elem_of_nil].
  intros Hc Hlen.
  rewrite PruneFacts.submitted_removals,
    (PruneFacts.select_spec _ _ _ _ _ Hsel), dom_empty.
  intros [H|(i & _ & _ & Hrun & _)]; [by apply not_elem_of_empty in H|].
  apply Hrun. unfold running. apply elem_of_list_to_set.
  apply list_elem_of_fmap. exists c. split; [|done].
  symmetry. by apply get_full_image_long.
Qed.

Lemma prune_images_spares_running_witness :
  "sha256:0123456789abcdef" ∉
    submitted (prune_images saved
                 [Image "sha256:0123456789abcdef" 1 (Some ["hgweb:8d5a"])]
                 [Container "sha256:0123456789abcdef"
                            "sha256:0123456789abcdef"]
                 initial_state).2.
Proof.
  apply (prune_images_spares_running saved
           [Image "sha256:0123456789abcdef" 1 (Some ["hgweb:8d5a"])]
           [Container "sha256:0123456789abcdef" "sha256:0123456789abcdef"]
           initial_state
           (Container "sha256:0123456789abcdef" "sha256:0123456789abcdef")).
  - apply list_elem_of_here.
  - apply Nat.ltb_lt. reflexivity.
Defined.

End PruneMoreFacts.

(** ** [build_hgmo] and [build_all_images] *)

Module BuildsFacts.
Import Builds.

Lemma submitted_app evs1 evs2 :
  Prune.submitted (evs1 ++ evs2) =
  (Prune.submitted evs1 ++ Prune.submitted evs2)%list.
Proof. apply omap_app. Qed.

Section Env.

Variable ROOT : string.

Abbreviation ensure_images_built := (ensure_images_built ROOT).
Abbreviation build_hgmo := (build_hgmo ROOT).
Abbreviation build_all_images := (build_all_images ROOT).

(** The four roles of [build_hgmo] are in what [ensure_images_built]
    returns to it. *)
Lemma hgmo_roles_built w images use_last s r :
  (ensure_images_built w ["ldap"; "pulse"] Scheduler.hg_ansibles use_last
     images None s).1.1.1 = Return r ->
  exists a b c d,
    r !! "hgmaster" = Some a /\ r !! "hgweb" = Some b /\
    r !! "ldap" = Some c /\ r !! "pulse" = Some d.
Proof.
  intros H. apply SchedulerMoreFacts.ensure_images_built_covers in H
    as [H _].
  assert (forall n, n ∈ ["hgmaster"; "hgweb"; "ldap"; "pulse"] ->
                    is_Some (r !! n)) as Hn.
  { intros n Hn. apply elem_of_dom, H.
    repeat (apply elem_of_cons in Hn as [->|Hn]);
      [right|right|left|left|by apply not_elem_of_nil in Hn].
    - apply elem_of_dom. by eexists.
    - apply elem_of_dom. by eexists.
    - apply list_elem_of_here.
    - apply list_elem_of_further, list_elem_of_here. }
  destruct (Hn "hgmaster") as [a Ha]; [set_solver|].
  destruct (Hn "hgweb") as [b Hb]; [set_solver|].
  destruct (Hn "ldap") as [c Hc]; [set_solver|].
  destruct (Hn "pulse") as [d Hd]; [set_solver|].
  by exists a, b, c, d.
Qed.

Lemma build_hgmo_unfold w save images use_last s :
  match (ensure_images_built w ["ldap"; "pulse"] Scheduler.hg_ansibles
           use_last images None s).1.1 with
  | (Raise e, s1) => build_hgmo w save images use_last s = (Raise e, s1, [])
  | (Return r, s1) =>
      exists a b c d,
        r !! "hgmaster" = Some a /\ r !! "hgweb" = Some b /\
        r !! "ldap" = Some c /\ r !! "pulse" = Some d /\
        let s2 :=
          set_last_pulse_id (Some d)
            (set_last_ldap_id (Some c)
               (set_last_hgweb_id (Some b)
                  (set_last_hgmaster_id (Some a) s1))) in
        build_hgmo w save images use_last s =
          (match save s2 with
           | Raise e => Raise e
           | Return _ => Return r
           end, s2, [Prune.save_state s2])
  end.
Proof.
  pose proof (hgmo_roles_built w images use_last s) as Hr.
  unfold Builds.build_hgmo.
  destruct (Builds.ensure_images_built _ _ _ _ _ _ _ _)
    as [[[[r|e] s1] wk] tasks]; simpl in *; [|done].
  destruct (Hr r eq_refl) as (a & b & c & d & Ha & Hb & Hc & Hd).
  exists a, b, c, d. unfold record. by rewrite Ha, Hb, Hc, Hd.
Qed.

(** X18.  [build_hgmo] against [ensure_images_built] and [save_state].
    When [ensure_images_built] raises, [build_hgmo] raises the same error,
    leaves the state as [ensure_images_built] left it and writes nothing.
    When [ensure_images_built] returns a mapping, the four images
    [build_hgmo] looks up are in it, so no lookup raises; the state
    becomes exactly the state [ensure_images_built] left with these four
    images recorded as last used; that state is handed to [save_state],
    once and as the only write; and [build_hgmo] raises what [save_state]
    raises, and returns the mapping of [ensure_images_built] otherwise. *)
Theorem build_hgmo_records_last_images
    (w : world) (save_result : state -> result unit)
    (existing : gmap string string) (use_last : bool) (s : state) :
  let inner := ensure_images_built w ["ldap"; "pulse"] Scheduler.hg_ansibles
                 use_last existing None s in
  let r := build_hgmo w save_result existing use_last s in
  (forall e, inner.1.1.1 = Raise e ->
     r = (Raise e, inner.1.1.2, [])) /\
  (forall built, inner.1.1.1 = Return built ->
     exists a b c d,
       built !! "hgmaster" = Some a /\ built !! "hgweb" = Some b /\
       built !! "ldap" = Some c /\ built !! "pulse" = Some d /\
       r.1.2 = set_last_pulse_id (Some d)
                 (set_last_ldap_id (Some c)
                    (set_last_hgweb_id (Some b)
                       (set_last_hgmaster_id (Some a) inner.1.1.2))) /\
       r.2 = [Prune.save_state r.1.2] /\
       r.1.1 = match save_result r.1.2 with
               | Raise e => Raise e
               | Return _ => Return built
               end).
Proof.
  intros inner r. subst inner r.
  pose proof (build_hgmo_unfold w save_result existing use_last s) as H.
  destruct (Builds.ensure_images_built _ _ _ _ _ _ _ _).1.1 as [[r|e] s1].
  - destruct H as (a & b & c & d & Ha & Hb & Hc & Hd & ->). simpl.
    split; [done|]. intros built [= <-].
    exists a, b, c, d. by split_and!.
  - rewrite H. simpl. split; [|done]. by intros e' [= ->].
Qed.

(** X19.  When [build_all_images] returns the images of the hg roles, its
    closing [prune_images] has submitted none of the four for deletion,
    whatever their tags and whatever else it pruned. *)
Theorem build_all_images_spares_built
    (w1 w2 : world) (save_hgmo save_pruned : state -> result unit)
    (imgs : list image) (cs : list Prune.container)
    (use_last : bool) (s : state) (built : gmap string string)
    (role : string) :
  (build_all_images w1 w2 save_hgmo imgs cs save_pruned use_last true s).1.1
    = Return (Some built) ->
  role ∈ ["hgmaster"; "hgweb"; "ldap"; "pulse"] ->
  exists v, built !! role = Some v /\
    v ∉ Prune.submitted
          (build_all_images w1 w2 save_hgmo imgs cs save_pruned
             use_last true s).2.
Proof.
  unfold Builds.build_all_images.
  destruct (Builds.ensure_images_built _ w1 _ _ _ _ _ _)
    as [[[[r1|e] s1] wk] tasks]; simpl; [|done].
  pose proof (build_hgmo_unfold w2 save_hgmo r1 use_last s1) as H.
  destruct (Builds.ensure_images_built _ w2 _ _ _ _ _ _).1.1 as [[r|e] s2].
  2: { rewrite H. done. }
  destruct H as (a & b & c & d & Ha & Hb & Hc & Hd & ->). cbv zeta.
  set (s3 := set_last_pulse_id _ _).
  destruct (save_hgmo s3) as [[]|e]; [|done].
  destruct (Prune.prune_images save_pruned imgs cs s3)
    as [[[[]|e] s4] evs'] eqn:Hp; simpl; [|done].
  intros [= <-] Hrole.
  assert (forall v, Some v ∈ Prune.ignore_images s3 ->
                    v ∉ Prune.submitted ([Prune.save_state s3] ++ evs'))
    as Hkeep.
  { intros v Hv. rewrite submitted_app. simpl.
    revert Hp. unfold Prune.prune_images.
    destruct (Prune.select _ _ imgs ∅) as [td|e] eqn:Hsel; simpl;
      [|done].
    intros [= _ <- <-].
    rewrite PruneFacts.submitted_removals,
      (PruneFacts.select_spec _ _ _ _ _ Hsel), dom_empty.
    intros [Hx|(i & _ & _ & _ & Hign & _)]; [set_solver|done]. }
  repeat (apply elem_of_cons in Hrole as [->|Hrole]);
    [exists a|exists b|exists c|exists d|by apply not_elem_of_nil in Hrole];
    (split; [done|]); apply Hkeep; unfold Prune.ignore_images, s3; simpl;
    set_solver.
Qed.

End Env.

Lemma build_hgmo_records_last_images_witness :
  exists a b c d,
    hg_images !! "hgmaster" = Some a /\ hg_images !! "hgweb" = Some b /\
    hg_images !! "ldap" = Some c /\ hg_images !! "pulse" = Some d /\
    (build_hgmo "/vct" first_run disk_full ∅ false initial_state).1.2 =
      set_last_pulse_id (Some d)
        (set_last_ldap_id (Some c)
           (set_last_hgweb_id (Some b)
              (set_last_hgmaster_id (Some a)
                 (ensure_images_built "/vct" first_run ["ldap"; "pulse"]
                    Scheduler.hg_ansibles false ∅ None
                    initial_state).1.1.2))) /\
    (build_hgmo "/vct" first_run disk_full ∅ false initial_state).2 =
      [Prune.save_state
         (build_hgmo "/vct" first_run disk_full ∅ false
            initial_state).1.2] /\
    (build_hgmo "/vct" first_run disk_full ∅ false initial_state).1.1 =
      match disk_full
              (build_hgmo "/vct" first_run disk_full ∅ false
                 initial_state).1.2 with
      | Raise e => Raise e
      | Return _ => Return hg_images
      end.
Proof.
  apply (build_hgmo_records_last_images "/vct" first_run disk_full ∅ false
           initial_state).
  vm_compute. reflexivity.
Defined.

Lemma build_all_images_spares_built_witness :
  exists v,
    hg_images !! "pulse" = Some v /\
    v ∉ Prune.submitted
          (build_all_images "/vct" first_run first_run Prune.saved
             [Image "sha256:pulse" 1 (Some ["pulse:8d5a"]);
              Image "sha256:stale" 0 (Some ["pulse:77aa"])]
             [] Prune.saved false true initial_state).2.
Proof.
  apply (build_all_images_spares_built "/vct" first_run first_run
           Prune.saved Prune.saved
           [Image "sha256:pulse" 1 (Some ["pulse:8d5a"]);
            Image "sha256:stale" 0 (Some ["pulse:77aa"])]
           [] false initial_state).
  - vm_compute. reflexivity.
  - do 3 apply list_elem_of_further. apply list_elem_of_here.
Defined.

End BuildsFacts.

(** ** The image build orchestrator *)

Module OrchestratorFacts.
Import Orchestrator OrchestratorSpec.

Lemma prefix_drop p : forall s,
  String.prefix p s = true -> s = p +:+ Str.drop (String.length p) s.
Proof.
  induction p as [|a p IH]; intros s; [intros _; by destruct s|].
  destruct s as [|b s]; simpl; [done|].
  destruct (Ascii.ascii_dec a b) as [->|]; [|done].
  intros H. rewrite (IH s H) at 1. reflexivity.
Qed.

Lemma hex_not_space a : is_hex a = true -> Context.is_space a = false.
Proof.
  destruct a as [[] [] [] [] [] [] [] []]; (reflexivity || discriminate).
Qed.

Lemma rstrip_solid s :
  Util.all_chars (fun a => negb (Context.is_space a)) s = true ->
  Context.rstrip s = s.
Proof.
  induction s as [|a s IH]; simpl; [done|].
  intros H. apply andb_true_iff in H as [Ha Hs]. rewrite IH by done.
  apply negb_true_iff in Ha. rewrite Ha. by destruct s.
Qed.

Lemma all_chars_impl (p q : ascii -> bool) s :
  (forall a, p a = true -> q a = true) ->
  Util.all_chars p s = true -> Util.all_chars q s = true.
Proof.
  intros Hpq. induction s as [|a s IH]; simpl; [done|].
  intros H. apply andb_true_iff in H as [Ha Hs].
  by rewrite (Hpq a Ha), IH.
Qed.

(** The marker is the whole line and carries a 12-digit short id. *)
Lemma built_marker_spec s h :
  built_marker s = Some h ->
  s = "Successfully built " +:+ h /\ String.length h = 12%nat /\
  Util.all_chars is_hex h = true /\ Context.rstrip h = h.
Proof.
  unfold built_marker. destruct (Str.startswith _ _) eqn:Hp; [|done].
  destruct (_ && _) eqn:Hh; [|done]. intros [= <-].
  apply andb_true_iff in Hh as [Hl Hx]. apply Nat.eqb_eq in Hl.
  split_and!; [|done|done|].
  - by apply (prefix_drop "Successfully built ") in Hp.
  - apply rstrip_solid. eapply all_chars_impl; [|exact Hx].
    intros a Ha. by rewrite (hex_not_space a Ha).
Qed.

Lemma scan_tags_spec name repotags : forall acc b,
  scan_tags name repotags acc = Return b ->
  (b = true <->
   acc = true \/
   exists repotag tag, repotag ∈ repotags /\
                       Str.split colon repotag = [name; tag]).
Proof.
  induction repotags as [|repotag l IH]; intros acc b; simpl.
  - intros [= <-]. split; [by left|]. intros [?|(?&?&H&_)]; [done|].
    by apply not_elem_of_nil in H.
  - destruct (Str.split colon repotag) as [|repo [|tag [|??]]] eqn:E;
      simpl; try done.
    intros H. apply IH in H. rewrite H. clear H. case_bool_decide as Hr.
    + subst repo. split; [|by left]. intros _. right.
      exists repotag, tag. split; [by left|done].
    + split.
      * intros [?|(rt & t & Hin & Hs)]; [by left|]. right.
        exists rt, t. split; [by right|done].
      * intros [?|(rt & t & Hin & Hs)]; [by left|].
        apply elem_of_cons in Hin as [->|Hin]; [congruence|].
        right. by exists rt, t.
Qed.

(** Whether the built image already has a tag of the role. *)
Lemma have_tag_spec name full_image imgs b :
  have_tag name full_image imgs = Return b ->
  (b = true <->
   exists i, first_with_id full_image imgs = Some i /\ carries name i).
Proof.
  unfold first_with_id. induction imgs as [|i imgs IH]; simpl.
  - intros [= <-]. split; [done|]. by intros (? & ? & _).
  - case_bool_decide as Hi; [|done].
    intros H. apply scan_tags_spec in H. rewrite H. split.
    + intros [?|(rt & t & ? & ?)]; [done|]. exists i. split; [done|].
      by exists rt, t.
    + intros (j & [= <-] & rt & t & ? & ?). right. by exists rt, t.
Qed.

Lemma insert_by_created_sorted x l :
  newest_first l -> newest_first (insert_by_created x l).
Proof.
  induction l as [|y l IH]; simpl; [by split|]. intros [Hy Hs].
  destruct (Created x <? Created y) eqn:E; simpl.
  - split; [|by apply IH].
    rewrite ImporterFacts.insert_by_created_perm. constructor; [lia|done].
  - split; [|done]. constructor; [lia|].
    eapply Forall_impl; [exact Hy|]. simpl. intros. lia.
Qed.

(** The sorted images are in order of decreasing creation time. *)
Lemma sorted_images_sorted imgs : newest_first (_get_sorted_images imgs).
Proof.
  induction imgs as [|i imgs IH]; simpl; [done|].
  by apply insert_by_created_sorted.
Qed.

Lemma newest_first_app l1 i l2 :
  newest_first (l1 ++ i :: l2) ->
  Forall (fun y => Created y <= Created i) l2.
Proof. induction l1 as [|x l1 IH]; simpl; intros [H1 H2]; auto. Qed.

Lemma builds_app evs1 evs2 :
  builds (evs1 ++ evs2) = (builds evs1 ++ builds evs2)%list.
Proof. apply omap_app. Qed.

Lemma tags_app evs1 evs2 :
  tags (evs1 ++ evs2) = (tags evs1 ++ tags evs2)%list.
Proof. apply omap_app. Qed.

Lemma imports_app evs1 evs2 :
  imports (evs1 ++ evs2) = (imports evs1 ++ imports evs2)%list.
Proof. apply omap_app. Qed.

(** The requests of the importer are neither builds nor tags. *)
Lemma builds_importer l : builds (map importer l) = [].
Proof. induction l; [done|]. exact IHl. Qed.

Lemma tags_importer l : tags (map importer l) = [].
Proof. induction l; [done|]. exact IHl. Qed.

Lemma imports_importer l : imports (map importer l) = l.
Proof. induction l as [|x l IH]; [done|]. simpl. by rewrite IH. Qed.

Section Env.

Variable ROOT : string.
Variable ddir : string.
Variable exists_ : string -> bool.
Variable isdir : string -> bool.
Variable vct_files : list string.
Variable dockerfile : string -> list string.
Variable walk : string -> list (string * string).
Variable import_base_image :
  string -> string -> string -> string -> result string * list Importer.event.
Variable docker_images : list image.
Variable build_output : list Context.entry -> result (list (option string)).
Variable built_images : list image.
Variable uuid1 : string.

Abbreviation scan_output := (scan_output built_images uuid1).
Abbreviation build_image :=
  (build_image ROOT ddir exists_ isdir vct_files dockerfile walk
     import_base_image build_output built_images uuid1).
Abbreviation ensure_built :=
  (ensure_built ROOT ddir exists_ isdir vct_files dockerfile walk
     import_base_image docker_images build_output built_images uuid1).
Abbreviation context_of name :=
  (Context.build_context ROOT exists_ vct_files
     (walk (Context.join ddir ("builder-" +:+ name))) import_base_image
     (dockerfile (Context.join ddir ("builder-" +:+ name)))).

(** The loop over the output never reaches the importer. *)
Lemma scan_output_imports name items :
  imports (scan_output name items).2 = [].
Proof.
  induction items as [|[s|] items IH]; simpl; [done| |done].
  destruct (built_marker _); [|done].
  by destruct (have_tag _ _ _) as [[|]|].
Qed.

(** The loop over the output stops at the first marker. *)
Lemma scan_output_spec name items :
  match scan_output name items with
  | (Return iid, evs) =>
      exists pre s post h,
        items = (pre ++ Some s :: post)%list /\ Forall unmarked pre /\
        built_marker (Context.rstrip s) = Some h /\
        iid = Prune.get_full_image built_images h /\
        exists b, have_tag name iid built_images = Return b /\
                  evs = if b then [] else [api_tag iid name uuid1]
  | (Raise e, evs) =>
      evs = [] /\
      (Forall unmarked items ->
       e = Exception ("Unable to confirm image was built: " +:+ name))
  end.
Proof.
  induction items as [|[s|] items IH]; simpl.
  - done.
  - destruct (built_marker (Context.rstrip s)) as [h|] eqn:Hm.
    + destruct (built_marker_spec _ _ Hm) as (_ & _ & _ & Hr).
      rewrite Hr.
      destruct (have_tag name _ built_images) as [[|]|e] eqn:Ht.
      * exists [], s, items, h. split_and!; [done|constructor|done|done|].
        by exists true.
      * exists [], s, items, h. split_and!; [done|constructor|done|done|].
        by exists false.
      * split; [done|]. intros Hu. apply Forall_cons in Hu as [Hu _].
        simpl in Hu. congruence.
    + destruct (scan_output name items) as [[iid|e] evs].
      * destruct IH as (pre & s' & post & h & -> & Hpre & Hh & Hi & Hb).
        exists (Some s :: pre), s', post, h.
        split_and!; [done|by constructor|done|done|done].
      * destruct IH as [-> IH]. split; [done|]. intros Hu.
        apply Forall_cons in Hu as [_ Hu]. by apply IH.
  - destruct (scan_output name items) as [[iid|e] evs].
    + destruct IH as (pre & s' & post & h & -> & Hpre & Hh & Hi & Hb).
      exists (None :: pre), s', post, h.
      split_and!; [done|by constructor|done|done|done].
    + destruct IH as [-> IH]. split; [done|]. intros Hu.
      apply Forall_cons in Hu as [_ Hu]. by apply IH.
Qed.

(** X20.  When [ensure_built] returns from a build, the builder directory
    exists, its context was assembled in full and submitted once, and the
    output held a line [Successfully built <12 hex digits>]: the result is
    what [get_full_image] makes of the digits of the first such line.
    The image is tagged [name:<uuid>] exactly when the first listed image
    with that id has no tag of repository [name]; no other tag is
    applied. *)
Theorem ensure_built_returns_marked_image (name iid : string) :
  (ensure_built name false).1 = Return iid ->
  exists context pre s post h,
    isdir (Context.join ddir ("builder-" +:+ name)) = true /\
    (context_of name).1 = Return context /\
    build_output context = Return (pre ++ Some s :: post)%list /\
    Forall unmarked pre /\
    Context.rstrip s = "Successfully built " +:+ h /\
    String.length h = 12%nat /\
    iid = Prune.get_full_image built_images h /\
    builds (ensure_built name false).2 = [context] /\
    ((exists i, first_with_id iid built_images = Some i /\ carries name i) ->
     tags (ensure_built name false).2 = []) /\
    (~ (exists i, first_with_id iid built_images = Some i /\ carries name i) ->
     tags (ensure_built name false).2 = [(iid, name, uuid1)]).
Proof.
  unfold Orchestrator.ensure_built, Orchestrator.build_image.
  destruct (isdir _) eqn:Hd; simpl; [|done].
  destruct (Context.build_context _ _ _ _ _ _) as [[context|e] imported]
    eqn:Hc; simpl; [|done].
  destruct (build_output context) as [items|e] eqn:Ho; simpl; [|done].
  pose proof (scan_output_spec name items) as Hs.
  destruct (scan_output name items) as [[iid'|e] evs]; simpl; [|done].
  intros [= ->].
  destruct Hs as (pre & s & post & h & -> & Hpre & Hm & -> & b & Hb & ->).
  destruct (built_marker_spec _ _ Hm) as (Hs & Hl & _ & _).
  exists context, pre, s, post, h.
  rewrite builds_app, tags_app, builds_importer, tags_importer.
  split_and!; try done.
  - by destruct b.
  - intros Hex. apply (have_tag_spec _ _ _ _ Hb) in Hex as ->. done.
  - intros Hex. destruct b; [|done]. exfalso. apply Hex.
    by apply (have_tag_spec _ _ _ _ Hb).
Qed.

(** X21.  When the output of the build ends without a line
    [Successfully built <12 hex digits>], [ensure_built] raises its
    error naming the role, after the one build request, which follows
    the requests of the Dockerfile's imports, and without tagging
    anything. *)
Theorem ensure_built_unconfirmed (name : string)
    (context : list Context.entry) (items : list (option string)) :
  isdir (Context.join ddir ("builder-" +:+ name)) = true ->
  (context_of name).1 = Return context ->
  build_output context = Return items ->
  Forall unmarked items ->
  ensure_built name false =
    (Raise (Exception ("Unable to confirm image was built: " +:+ name)),
     (map importer (context_of name).2 ++ [api_build context])%list).
Proof.
  intros Hd Hc Ho Hu.
  unfold Orchestrator.ensure_built, Orchestrator.build_image.
  rewrite Hd. simpl.
  destruct (Context.build_context _ _ _ _ _ _) as [r imported].
  simpl in Hc. subst r. rewrite Ho. simpl.
  pose proof (scan_output_spec name items) as Hs.
  destruct (scan_output name items) as [[iid|e] evs].
  - destruct Hs as (pre & s & post & h & -> & _ & Hm & _).
    apply Forall_app in Hu as [_ Hu]. apply Forall_cons in Hu as [Hu _].
    simpl in Hu. congruence.
  - destruct Hs as [-> He]. by rewrite He.
Qed.

(** X22.  A build is requested at most once, and only for a builder
    whose directory exists and whose context was assembled without
    error.  An unknown builder name raises before any request is made.
    A context that cannot be assembled raises the error of the assembly
    with no build and no tag requested; what the [FROM secure:] lines
    read before the failure made [import_base_image] request, downloads
    and imports, has been requested by then.  In every case the requests
    of the importer are those of the Dockerfile's lines or none. *)
Theorem ensure_built_requests (name : string) (use_last : bool) :
  let evs := (ensure_built name use_last).2 in
  (builds evs = [] \/
   exists context,
     builds evs = [context] /\
     isdir (Context.join ddir ("builder-" +:+ name)) = true /\
     (context_of name).1 = Return context) /\
  (isdir (Context.join ddir ("builder-" +:+ name)) = false ->
   use_last = false ->
   ensure_built name use_last =
     (Raise (Exception ("Unknown Docker builder name: " +:+ name)), [])) /\
  (forall e, (context_of name).1 = Raise e ->
     builds evs = [] /\ tags evs = [] /\
     (isdir (Context.join ddir ("builder-" +:+ name)) = true ->
      use_last = false ->
      ensure_built name use_last =
        (Raise e, map importer (context_of name).2))) /\
  (imports evs = [] \/
   isdir (Context.join ddir ("builder-" +:+ name)) = true /\
   imports evs = (context_of name).2).
Proof.
  intros evs. subst evs.
  assert (let evs := (build_image name).2 in
          (builds evs = [] \/
           exists context,
             builds evs = [context] /\
             isdir (Context.join ddir ("builder-" +:+ name)) = true /\
             (context_of name).1 = Return context) /\
          (forall e, (context_of name).1 = Raise e ->
             builds evs = [] /\ tags evs = [] /\
             (isdir (Context.join ddir ("builder-" +:+ name)) = true ->
              build_image name =
                (Raise e, map importer (context_of name).2))) /\
          (imports evs = [] \/
           isdir (Context.join ddir ("builder-" +:+ name)) = true /\
           imports evs = (context_of name).2)) as Hb.
  { unfold Orchestrator.build_image.
    destruct (isdir _) eqn:Hd; simpl;
      [|by split_and!; [left| |left]].
    destruct (Context.build_context _ _ _ _ _ _) as [[context|e] imported]
      eqn:Hc; simpl.
    - split_and!; [|done|].
      + right. exists context.
        destruct (build_output context) as [items|e]; simpl.
        * pose proof (scan_output_spec name items) as Hs.
          destruct (scan_output name items) as [[iid|e] evs]; simpl;
            rewrite builds_app, builds_importer; simpl.
          -- destruct Hs as (_ & _ & _ & _ & _ & _ & _ & _ & b & _ & ->).
             by destruct b.
          -- by destruct Hs as [-> _].
        * by rewrite builds_app, builds_importer.
      + right. split; [done|].
        destruct (build_output context) as [items|e]; simpl.
        * pose proof (scan_output_imports name items) as Hi.
          destruct (scan_output name items) as [r evs]. simpl in *.
          rewrite imports_app, imports_importer. simpl.
          by rewrite Hi, app_nil_r.
        * rewrite imports_app, imports_importer. simpl.
          by rewrite app_nil_r.
    - split_and!.
      + left. apply builds_importer.
      + intros e' [= <-].
        split_and!; [apply builds_importer|apply tags_importer|done].
      + right. split; [done|]. apply imports_importer. }
  unfold Orchestrator.ensure_built. split_and!.
  - destruct use_last; [|apply Hb].
    destruct (last_image _ _) as [[iid|]|e]; simpl; [by left|apply Hb|by left].
  - intros Hd ->. unfold Orchestrator.build_image. by rewrite Hd.
  - intros e He. destruct Hb as (_ & Hb & _).
    destruct (Hb e He) as (H1 & H2 & H3).
    destruct use_last.
    + destruct (last_image _ _) as [[iid|]|e']; simpl;
        [done| |done].
      split_and!; [done|done|]. by intros _ [=].
    + split_and!; [done|done|]. intros Hd _. by apply H3.
  - destruct use_last; [|apply Hb].
    destruct (last_image _ _) as [[iid|]|e]; simpl; [by left|apply Hb|by left].
Qed.

(** The [use_last] loops stop at the first image with a tag of the
    role. *)
Lemma last_tag_spec name repotags :
  Forall (fun repotag =>
            exists repo tag, Str.splitn colon 1 repotag = [repo; tag])
         repotags ->
  (last_tag name repotags = Return true /\
   exists repotag tag, repotag ∈ repotags /\
                       Str.splitn colon 1 repotag = [name; tag]) \/
  (last_tag name repotags = Return false /\
   forall repotag tag, repotag ∈ repotags ->
                       Str.splitn colon 1 repotag <> [name; tag]).
Proof.
  induction 1 as [|repotag l (repo & tag & Hs) _ IH]; simpl.
  - right. split; [done|]. intros ?? H. by apply not_elem_of_nil in H.
  - rewrite Hs. simpl. case_bool_decide as Hr.
    + subst repo. left. split; [done|]. exists repotag, tag.
      split; [by left|done].
    + destruct IH as [[-> (rt & t & Hin & Ht)]|[-> Hno]].
      * left. split; [done|]. exists rt, t. split; [by right|done].
      * right. split; [done|]. intros rt t Hin.
        apply elem_of_cons in Hin as [->|Hin]; [congruence|by apply Hno].
Qed.

Lemma last_image_spec name imgs :
  Forall colon_tags imgs ->
  (exists l1 i l2, imgs = (l1 ++ i :: l2)%list /\ carries_repo name i /\
     (forall j, j ∈ l1 -> ~ carries_repo name j) /\
     last_image name imgs = Return (Some (Id i))) \/
  (last_image name imgs = Return None /\
   forall j, j ∈ imgs -> ~ carries_repo name j).
Proof.
  induction 1 as [|i l Hi _ IH]; simpl.
  - right. split; [done|]. intros j Hj. by apply not_elem_of_nil in Hj.
  - destruct (last_tag_spec name _ Hi) as [[-> Hc]|[-> Hno]]; simpl.
    + left. exists [], i, l. split_and!; [done|done| |done].
      intros j Hj. by apply not_elem_of_nil in Hj.
    + assert (~ carries_repo name i) as Hni.
      { intros (rt & t & Hin & Hs). by apply (Hno rt t). }
      destruct IH as [(l1 & j & l2 & -> & Hj & Hl1 & ->)|[-> Hnone]].
      * left. exists (i :: l1), j, l2. split_and!; [done|done| |done].
        intros k Hk. apply elem_of_cons in Hk as [->|Hk]; [done|].
        by apply Hl1.
      * right. split; [done|]. intros k Hk.
        apply elem_of_cons in Hk as [->|Hk]; [done|by apply Hnone].
Qed.

(** X23.  With [use_last], when every listed tag contains a colon and
    some image has a tag of the role, [ensure_built] returns the id of a
    most recently created image with such a tag and requests neither a
    build nor a tag: no context is assembled. *)
Theorem ensure_built_use_last_newest (name : string) :
  Forall colon_tags docker_images ->
  (exists k, k ∈ docker_images /\ carries_repo name k) ->
  exists i, i ∈ docker_images /\ carries_repo name i /\
    (forall k, k ∈ docker_images -> carries_repo name k ->
               Created k <= Created i) /\
    ensure_built name true = (Return (Id i), []).
Proof.
  intros Hc (k0 & Hk0 & Hk0c). unfold Orchestrator.ensure_built.
  pose proof (sorted_images_sorted docker_images) as Hs.
  assert (Forall colon_tags (_get_sorted_images docker_images)) as Hc'.
  { by rewrite ImporterFacts.sorted_images_perm. }
  destruct (last_image_spec name _ Hc')
    as [(l1 & i & l2 & Heq & Hi & Hl1 & ->)|[_ Hnone]].
  - exists i. split_and!; [|done| |done].
    + rewrite <- (ImporterFacts.sorted_images_perm docker_images), Heq.
      apply elem_of_app. right. by left.
    + intros k Hk Hkc.
      rewrite <- (ImporterFacts.sorted_images_perm docker_images), Heq in Hk.
      rewrite Heq in Hs. apply newest_first_app in Hs.
      apply elem_of_app in Hk as [Hk|Hk]; [by apply Hl1 in Hk|].
      apply elem_of_cons in Hk as [->|Hk]; [lia|].
      by eapply Forall_forall in Hs.
  - exfalso. apply (Hnone k0); [|done].
    by rewrite ImporterFacts.sorted_images_perm.
Qed.

End Env.

Import OrchestratorExamples.

Lemma ensure_built_returns_marked_image_witness :
  exists h, String.length h = 12%nat /\
    "sha256:0123456789abcdef" = Prune.get_full_image after_build h.
Proof.
  destruct (ensure_built_returns_marked_image "/vct" "/vct/testing/docker"
              Context.everything_exists Context.everything_exists
              Context.tracked_files ldap_dockerfile ldap_walk
              Context.no_import before_build good_output after_build a_uuid
              "ldap" "sha256:0123456789abcdef")
    as (context & pre & s & post & h & _ & _ & _ & _ & _ & Hl & Hi & _).
  - vm_compute. reflexivity.
  - by exists h.
Defined.

Lemma ensure_built_unconfirmed_witness :
  ensure_built "/vct" "/vct/testing/docker" Context.everything_exists
    Context.everything_exists Context.tracked_files ldap_dockerfile
    ldap_walk Context.no_import before_build bad_output after_build a_uuid
    "ldap" false =
  (Raise (Exception "Unable to confirm image was built: ldap"),
   [api_build ldap_context]).
Proof.
  apply (ensure_built_unconfirmed "/vct" "/vct/testing/docker"
           Context.everything_exists Context.everything_exists
           Context.tracked_files ldap_dockerfile ldap_walk
           Context.no_import before_build bad_output after_build a_uuid
           "ldap" ldap_context
           [Some ("Step 1/2 : FROM centos:7" +:+ nl);
            Some ("The command returned a non-zero code: 1" +:+ nl)]).
  - reflexivity.
  - vm_compute. reflexivity.
  - reflexivity.
  - repeat constructor.
Defined.

Lemma ensure_built_requests_witness :
  ensure_built "/vct" "/vct/testing/docker" Context.everything_exists
    Context.everything_exists Context.tracked_files secure_dockerfile
    ignoring_walk downloading before_build good_output after_build a_uuid
    "ldap" false =
  (Raise (Exception ".dockerignore not currently supported!"),
   map importer
     (Context.build_context "/vct" Context.everything_exists
        Context.tracked_files
        (ignoring_walk (Context.join "/vct/testing/docker" "builder-ldap"))
        downloading
        (secure_dockerfile
           (Context.join "/vct/testing/docker" "builder-ldap"))).2).
Proof.
  apply (ensure_built_requests "/vct" "/vct/testing/docker"
           Context.everything_exists Context.everything_exists
           Context.tracked_files secure_dockerfile ignoring_walk
           downloading before_build good_output after_build a_uuid
           "ldap" false); reflexivity.
Defined.

(** The base image is downloaded and imported before the
    [.dockerignore] stops the build. *)
Example ensure_built_imports_before_failing :
  ensure_built "/vct" "/vct/testing/docker" Context.everything_exists
    Context.everything_exists Context.tracked_files secure_dockerfile
    ignoring_walk downloading before_build good_output after_build a_uuid
    "ldap" false =
  (Raise (Exception ".dockerignore not currently supported!"),
   [importer (Importer.requests_get "https://host/centos7.tar");
    importer (Importer.import_image_from_data "layer" "centos"
                "centos7-https://host/centos7.tarlayer")]).
Proof. vm_compute. reflexivity. Qed.

Lemma ensure_built_use_last_newest_witness :
  exists i, i ∈ before_build /\ carries_repo "ldap" i /\
    (forall k, k ∈ before_build -> carries_repo "ldap" k ->
               Created k <= Created i) /\
    ensure_built "/vct" "/vct/testing/docker" Context.everything_exists
      Context.everything_exists Context.tracked_files ldap_dockerfile
      ldap_walk Context.no_import before_build good_output after_build
      a_uuid "ldap" true = (Return (Id i), []).
Proof.
  apply (ensure_built_use_last_newest "/vct" "/vct/testing/docker"
           Context.everything_exists Context.everything_exists
           Context.tracked_files ldap_dockerfile ldap_walk
           Context.no_import before_build good_output after_build a_uuid
           "ldap").
  - repeat constructor; by eexists _, _.
  - eexists. split; [apply list_elem_of_here|].
    exists "ldap:5a5a", "5a5a". split; [apply list_elem_of_here|done].
Defined.

(** The newest image tagged for the role is the one returned. *)
Example ensure_built_use_last_example :
  ensure_built "/vct" "/vct/testing/docker" Context.everything_exists
    Context.everything_exists Context.tracked_files ldap_dockerfile
    ldap_walk Context.no_import before_build good_output after_build
    a_uuid "ldap" true = (Return "sha256:bbbb", []).
Proof. reflexivity. Qed.

Example ensure_built_tags_example :
  ensure_built "/vct" "/vct/testing/docker" Context.everything_exists
    Context.everything_exists Context.tracked_files ldap_dockerfile
    ldap_walk Context.no_import before_build good_output after_build
    a_uuid "ldap" false =
  (Return "sha256:0123456789abcdef",
   [api_build ldap_context;
    api_tag "sha256:0123456789abcdef" "ldap" a_uuid]).
Proof. vm_compute. reflexivity. Qed.

End OrchestratorFacts.

(** ** The [vct_container] manager *)

Module ManagersFacts.

Import Managers ManagersSpec.

Section Env.

Variable ROOT : string.
Variable getmtime : string -> result Q.
Variable now : Q.
Variable inspect_existing : string -> result inspected.
Variable inspect_started : string -> result inspected.
Variable start_result : string -> result unit.
Variable stop_result : string -> result unit.
Variable create_result : string -> result string.
Variable ensure_built_vct_result : result string.
Variable sync_result : string -> inspected -> result unit.
Variable save_result : state -> result unit.
Variable A : Type.
Variable body : inspected -> option (result A * list event).

Local Abbreviation vct_container :=
  (Managers.vct_container ROOT getmtime now inspect_existing inspect_started
     start_result stop_result create_result ensure_built_vct_result
     sync_result save_result A body).
Local Abbreviation enter :=
  (Managers.enter inspect_existing inspect_started start_result stop_result
     create_result sync_result save_result A body).
Local Abbreviation start_and_stop :=
  (Managers.start_and_stop inspect_started start_result stop_result
     sync_result save_result A body).
Local Abbreviation started :=
  (Managers.started inspect_started start_result sync_result save_result
     A body).
Local Abbreviation clobber_needed :=
  (Clobber.clobber_needed ROOT getmtime "vct" now).

Lemma started_shape image c st r st' evs :
  started image c st = Some (r, st', evs) ->
  exists mid, evs = start c :: mid.
Proof.
  unfold Managers.started.
  destruct (start_result c); [|intros [= <- <- <-]; eauto].
  destruct (inspect_started c) as [i|]; [|intros [= <- <- <-]; eauto].
  destruct (sync_result c i); [|intros [= <- <- <-]; eauto].
  destruct (save_result _); [|intros [= <- <- <-]; eauto].
  destruct (body i) as [[r0 bevs]|]; [|done].
  simpl. intros [= <- <- <-]. eauto.
Qed.

Lemma start_and_stop_shape image c st r st' evs :
  start_and_stop image c st = Some (r, st', evs) ->
  exists mid, evs = (start c :: mid ++ [stop c])%list.
Proof.
  unfold Managers.start_and_stop. intros H.
  destruct (started image c st) as [[[r0 st0] evs0]|] eqn:E; [|done].
  apply started_shape in E as [mid ->]. simpl in H.
  injection H as <- <- <-. by exists mid.
Qed.

(** With a container of the caller's, [enter] inspects it and runs the
    body, nothing else. *)
Lemma enter_cid image cid existing st r st' evs :
  truthy cid = true ->
  enter image cid existing st = Some (r, st', evs) ->
  st' = st /\
  exists bevs, evs = inspect_container (default "" cid) :: bevs /\
    (bevs = [] \/
     exists i, inspect_existing (default "" cid) = Return i /\
               Running i = true /\ body i = Some (r, bevs)).
Proof.
  intros Hcid. unfold Managers.enter. rewrite Hcid.
  destruct (inspect_existing (default "" cid)) as [i|e] eqn:Ei.
  - destruct (Running i) eqn:Hr; simpl.
    + destruct (body i) as [[r0 bevs]|] eqn:Eb; [|done]. simpl.
      intros [= <- <- <-]. split; [done|]. exists bevs. split; [done|].
      right. by exists i.
    + intros [= <- <- <-]. split; [done|]. exists []. auto.
  - intros [= <- <- <-]. split; [done|]. exists []. auto.
Qed.

Lemma enter_no_cid image cid existing st r st' evs :
  truthy cid = false ->
  enter image cid existing st = Some (r, st', evs) ->
  Forall (fun e => setup e = true) evs \/
  exists c pre mid,
    Forall (fun e => setup e = true) pre /\
    evs = (pre ++ start c :: mid ++ [stop c])%list.
Proof.
  intros Hcid. unfold Managers.enter. rewrite Hcid.
  destruct (truthy existing).
  - intros H. apply start_and_stop_shape in H as [mid ->].
    right. by exists (default "" existing), [], mid.
  - destruct (create_result (default "" image)) as [c|e].
    + destruct (start_and_stop image c st) as [[[r0 st0] evs0]|] eqn:E;
        [|done].
      apply start_and_stop_shape in E as [mid ->]. simpl.
      intros [= <- <- <-]. right.
      exists c, [create_vct (default "" image)], mid.
      split; [by repeat constructor|done].
    + intros [= <- <- <-]. left. by repeat constructor.
Qed.

(** What [vct_container] does before it enters one of its modes. *)
Lemma vct_container_unfold image cid st :
  vct_container image cid st =
  match clobber_needed st with
  | (Raise e, st1) => Some (Raise e, st1, [])
  | (Return needed, st1) =>
      let existing := if needed then None else vct_cid st in
      let image := if needed then None else image in
      if negb (truthy cid) && truthy existing then
        let c := default "" existing in
        match inspect_existing c with
        | Return _ =>
            '(r, st', evs) ← enter image cid existing st1;
            Some (r, st', inspect_container c :: evs)
        | Raise (DockerAPIError _) =>
            if truthy image then
              '(r, st', evs) ← enter image cid None (set_vct_cid None st1);
              Some (r, st', inspect_container c :: evs)
            else
              match ensure_built_vct_result with
              | Return i =>
                  '(r, st', evs) ←
                    enter (Some i) cid None (set_vct_cid None st1);
                  Some (r, st', inspect_container c :: ensure_built_vct :: evs)
              | Raise e =>
                  Some (Raise e, set_vct_cid None st1,
                        [inspect_container c; ensure_built_vct])
              end
        | Raise e => Some (Raise e, st1, [inspect_container c])
        end
      else if negb (truthy image) && negb (truthy cid)
              && negb (truthy existing) then
        match ensure_built_vct_result with
        | Return i =>
            '(r, st', evs) ← enter (Some i) cid existing st1;
            Some (r, st', ensure_built_vct :: evs)
        | Raise e => Some (Raise e, st1, [ensure_built_vct])
        end
      else enter image cid existing st1
  end.
Proof.
  unfold Managers.vct_container.
  destruct (clobber_needed st) as [[needed|e] st1]; [|done].
  cbv zeta.
  generalize (if needed then None else vct_cid st) as existing.
  generalize (if needed then None else image) as img. intros img existing.
  destruct (truthy cid) eqn:Hcid; simpl.
  - rewrite !andb_false_r. simpl.
    by destruct (enter _ _ _ _) as [[[??]?]|].
  - destruct (truthy existing) eqn:Hex; simpl.
    + destruct (inspect_existing _) as [i|[]]; simpl;
        rewrite ?Hex, ?andb_false_r; simpl; try done.
      destruct (truthy img); simpl; [done|].
      destruct ensure_built_vct_result; simpl; done.
    + rewrite ?Hex. destruct (truthy img); simpl.
      * by destruct (enter _ _ _ _) as [[[??]?]|].
      * destruct ensure_built_vct_result; simpl; done.
Qed.

Lemma shape_cons e evs :
  setup e = true ->
  (Forall (fun e => setup e = true) evs \/
   exists c pre mid,
     Forall (fun e => setup e = true) pre /\
     evs = (pre ++ start c :: mid ++ [stop c])%list) ->
  Forall (fun e => setup e = true) (e :: evs) \/
  exists c pre mid,
    Forall (fun e => setup e = true) pre /\
    (e :: evs) = (pre ++ start c :: mid ++ [stop c])%list.
Proof.
  intros He [H|(c & pre & mid & Hpre & ->)].
  - left. by constructor.
  - right. exists c, (e :: pre), mid. split; [by constructor|done].
Qed.

(** Once a start is reached, the body decides whether the manager
    returns. *)
Lemma start_and_stop_returns image c st :
  (forall i, is_Some (body i)) ->
  exists r st' mid,
    start_and_stop image c st = Some (r, st', (start c :: mid ++ [stop c])%list).
Proof.
  intros Hb.
  destruct (start_and_stop image c st) as [[[r st'] evs]|] eqn:E.
  - destruct (start_and_stop_shape _ _ _ _ _ _ E) as [mid ->]. eauto.
  - exfalso. revert E. unfold Managers.start_and_stop, Managers.started.
    destruct (start_result c); [|done].
    destruct (inspect_started c) as [i|]; [|done].
    destruct (sync_result c i); [|done].
    destruct (save_result _); [|done].
    by destruct (Hb i) as [[r bevs] ->].
Qed.

(** X24.  When the caller passes a container, [vct_container] asks the
    daemon for nothing but the state of that container: it builds,
    creates, starts, synchronises and stops nothing, writes no state
    file, and runs the body only if the container is reported running.
    The state changes as [clobber_needed] alone changes it. *)
Theorem vct_container_leaves_callers_container image cid st r st' evs :
  truthy cid = true ->
  vct_container image cid st = Some (r, st', evs) ->
  st' = (clobber_needed st).2 /\
  (evs = [] \/
   exists bevs, evs = inspect_container (default "" cid) :: bevs /\
     (bevs = [] \/
      exists i, inspect_existing (default "" cid) = Return i /\
                Running i = true /\ body i = Some (r, bevs))).
Proof.
  intros Hcid. rewrite vct_container_unfold.
  destruct (clobber_needed st) as [[needed|e] st1];
    [|intros [= <- <- <-]; auto].
  cbv zeta. rewrite Hcid. simpl. rewrite andb_false_r. simpl.
  intros H. apply enter_cid in H as [-> H]; auto.
Qed.

(** X25.  Without a container of the caller's, [vct_container] either
    starts nothing, or requests one start and ends with the stop of the
    same container, whether the start, the synchronisation, the state
    file or the body fail. *)
Theorem vct_container_stops_what_it_starts image cid st r st' evs :
  truthy cid = false ->
  vct_container image cid st = Some (r, st', evs) ->
  Forall (fun e => setup e = true) evs \/
  exists c pre mid,
    Forall (fun e => setup e = true) pre /\
    evs = (pre ++ start c :: mid ++ [stop c])%list.
Proof.
  intros Hcid. rewrite vct_container_unfold.
  destruct (clobber_needed st) as [[needed|e] st1];
    [|intros [= <- <- <-]; left; constructor].
  cbv zeta. rewrite Hcid. simpl.
  generalize (if needed then None else vct_cid st) as existing.
  generalize (if needed then None else image) as img. intros img existing.
  destruct (truthy existing) eqn:Hex; simpl.
  - destruct (inspect_existing _) as [i|e].
    + destruct (enter _ _ _ _) as [[[r0 st0] evs0]|] eqn:E; [|done].
      simpl. intros [= <- <- <-].
      apply shape_cons; [done|]. exact (enter_no_cid _ _ _ _ _ _ _ Hcid E).
    + assert (forall (x : exn),
                Some (Raise x, st1, [inspect_container (default "" existing)])
                = Some (r, st', evs) ->
                Forall (fun e => setup e = true) evs \/
                exists c pre mid,
                  Forall (fun e => setup e = true) pre /\
                  evs = (pre ++ start c :: mid ++ [stop c])%list) as Hraise.
      { intros x [= <- <- <-]. left. by repeat constructor. }
      destruct e; try apply Hraise.
      destruct (truthy img).
      * destruct (enter _ _ _ _) as [[[r0 st0] evs0]|] eqn:E; [|done].
        simpl. intros [= <- <- <-].
        apply shape_cons; [done|]. exact (enter_no_cid _ _ _ _ _ _ _ Hcid E).
      * destruct ensure_built_vct_result as [i|e].
        -- destruct (enter _ _ _ _) as [[[r0 st0] evs0]|] eqn:E; [|done].
           simpl. intros [= <- <- <-].
           do 2 (apply shape_cons; [done|]). exact (enter_no_cid _ _ _ _ _ _ _ Hcid E).
        -- intros [= <- <- <-]. left. by repeat constructor.
  - destruct (truthy img); simpl.
    + by apply enter_no_cid.
    + destruct ensure_built_vct_result as [i|e].
      * destruct (enter _ _ _ _) as [[[r0 st0] evs0]|] eqn:E; [|done].
        simpl. intros [= <- <- <-].
        apply shape_cons; [done|]. exact (enter_no_cid _ _ _ _ _ _ _ Hcid E).
      * intros [= <- <- <-]. left. by repeat constructor.
Qed.

(** X26.  After a clobber of [vct], a call without a container of the
    caller's ignores both the container the state remembers and the
    image argument: it builds the [vct] image, creates a container from
    what was built and starts that one. *)
Theorem vct_container_clobber_rebuilds image cid st st1 img c :
  clobber_needed st = (Return true, st1) ->
  truthy cid = false ->
  ensure_built_vct_result = Return img ->
  create_result img = Return c ->
  (forall i, is_Some (body i)) ->
  exists r st' mid,
    vct_container image cid st =
    Some (r, st',
          (ensure_built_vct :: create_vct img :: start c :: mid
             ++ [stop c])%list).
Proof.
  intros Hc Hcid Hb Hcr Hbody. rewrite vct_container_unfold, Hc.
  cbv zeta. rewrite Hcid, Hb. simpl.
  unfold Managers.enter. rewrite Hcid. simpl. rewrite Hcr.
  destruct (start_and_stop_returns (Some img) c st1 Hbody)
    as (r & st' & mid & ->).
  simpl. eauto.
Qed.

(** X27.  When the daemon no longer knows the container the state
    remembers, the container is dropped from the state and never
    started: with no image argument the [vct] image is built and a new
    container is created from it. *)
Theorem vct_container_forgets_stale_container
    image cid st st1 old status img r st' evs :
  clobber_needed st = (Return false, st1) ->
  truthy cid = false ->
  truthy image = false ->
  vct_cid st = Some old ->
  Str.truthy old = true ->
  inspect_existing old = Raise (DockerAPIError status) ->
  ensure_built_vct_result = Return img ->
  vct_container image cid st = Some (r, st', evs) ->
  match create_result img with
  | Raise e =>
      r = Raise e /\ st' = set_vct_cid None st1 /\
      evs = [inspect_container old; ensure_built_vct; create_vct img]
  | Return c =>
      exists mid,
        evs = (inspect_container old :: ensure_built_vct :: create_vct img
                 :: start c :: mid ++ [stop c])%list
  end.
Proof.
  intros Hc Hcid Him Hold Ht Hi Hb. rewrite vct_container_unfold, Hc.
  cbv zeta. rewrite Hcid, Hold. simpl. rewrite Ht, Hi, Him, Hb.
  unfold Managers.enter. rewrite Hcid. simpl.
  destruct (create_result img) as [c|e].
  - destruct (start_and_stop _ _ _) as [[[r0 st0] evs0]|] eqn:E; [|done].
    apply start_and_stop_shape in E as [mid ->].
    simpl. intros [= <- <- <-]. by exists mid.
  - simpl. by intros [= <- <- <-].
Qed.

(** X28.  When the container the state remembers still exists and
    nothing fails, it is started, synchronised and stopped again, and
    nothing is built or created.  The state then names it as
    [vct-cid], and [last-vct-id] holds the image argument, which is
    [None] when the caller passed none. *)
Theorem vct_container_reuse_records_image
    image cid st st1 old i0 i r bevs :
  clobber_needed st = (Return false, st1) ->
  truthy cid = false ->
  vct_cid st = Some old ->
  Str.truthy old = true ->
  inspect_existing old = Return i0 ->
  start_result old = Return () ->
  inspect_started old = Return i ->
  sync_result old i = Return () ->
  save_result (set_vct_cid (Some old) (set_last_vct_id image st1))
    = Return () ->
  body i = Some (r, bevs) ->
  let st2 := set_vct_cid (Some old) (set_last_vct_id image st1) in
  vct_container image cid st =
    Some (finally_ r (stop_result old), st2,
          ([inspect_container old; start old; inspect_container old;
            sync old; save_state st2] ++ bevs ++ [stop old])%list) /\
  last_vct_id st2 = image /\ vct_cid st2 = Some old.
Proof.
  intros Hc Hcid Hold Ht Hi Hs His Hsy Hsa Hb st2.
  split; [|done].
  rewrite vct_container_unfold, Hc.
  cbv zeta. rewrite Hcid, Hold. simpl. rewrite Ht, Hi.
  unfold Managers.enter. rewrite Hcid. simpl. rewrite Ht.
  unfold Managers.start_and_stop, Managers.started.
  rewrite Hs, His, Hsy. fold st2. unfold st2 at 1. rewrite Hsa, Hb.
  reflexivity.
Qed.

End Env.

Import ManagersExamples.

Lemma vct_container_leaves_callers_container_witness :
  remembering = remembering /\
  ([inspect_container "c-user"; print "body"] = [] \/
   exists bevs,
     [inspect_container "c-user"; print "body"]
       = inspect_container "c-user" :: bevs /\
     (bevs = [] \/
      exists i, inspect_up "c-user" = Return i /\ Running i = true /\
                quiet_body i = Some (Return 7, bevs))).
Proof.
  apply (vct_container_leaves_callers_container "/vct" no_marker 100
           inspect_up inspect_up ok ok create_ok built sync_ok save_ok Z
           quiet_body None (Some "c-user") remembering (Return 7)
           remembering [inspect_container "c-user"; print "body"]);
    reflexivity.
Defined.

Lemma vct_container_stops_what_it_starts_witness :
  exists r st' evs,
    Managers.vct_container "/vct" no_marker 100 inspect_gone inspect_up ok
      ok create_ok built sync_ok save_ok Z quiet_body None None remembering
      = Some (r, st', evs) /\
    (Forall (fun e => setup e = true) evs \/
     exists c pre mid,
       Forall (fun e => setup e = true) pre /\
       evs = (pre ++ start c :: mid ++ [stop c])%list).
Proof.
  eexists _, _, _. split; [reflexivity|].
  eapply (vct_container_stops_what_it_starts "/vct" no_marker 100
            inspect_gone inspect_up ok ok create_ok built sync_ok save_ok Z
            quiet_body None None remembering (Return 7));
    reflexivity.
Defined.

Lemma vct_container_clobber_rebuilds_witness :
  exists r st' mid,
    Managers.vct_container "/vct" new_marker 100 inspect_up inspect_up ok
      ok create_ok built sync_ok save_ok Z quiet_body (Some "sha256:mine")
      None remembering =
    Some (r, st',
          (ensure_built_vct :: create_vct "sha256:vct" :: start "c-new"
             :: mid ++ [stop "c-new"])%list).
Proof.
  apply (vct_container_clobber_rebuilds "/vct" new_marker 100 inspect_up
           inspect_up ok ok create_ok built sync_ok save_ok Z quiet_body
           (Some "sha256:mine") None remembering
           (set_clobber <[Clobber.clobber_key "vct" := Some 100]> remembering)
           "sha256:vct" "c-new");
    try reflexivity.
  intros i. by eexists.
Defined.

Lemma vct_container_forgets_stale_container_witness :
  exists mid,
    [inspect_container "c-old"; ensure_built_vct; create_vct "sha256:vct";
     start "c-new"; inspect_container "c-new"; sync "c-new";
     save_state (set_vct_cid (Some "c-new")
                   (set_last_vct_id (Some "sha256:vct")
                      (set_vct_cid None remembering)));
     print "body"; stop "c-new"] =
    (inspect_container "c-old" :: ensure_built_vct
       :: create_vct "sha256:vct" :: start "c-new" :: mid
       ++ [stop "c-new"])%list.
Proof.
  apply (vct_container_forgets_stale_container "/vct" no_marker 100
           inspect_gone inspect_up ok ok create_ok built sync_ok save_ok Z
           quiet_body None None remembering remembering "c-old" 404
           "sha256:vct" (Return 7)
           (set_vct_cid (Some "c-new")
              (set_last_vct_id (Some "sha256:vct")
                 (set_vct_cid None remembering)))
           [inspect_container "c-old"; ensure_built_vct;
            create_vct "sha256:vct"; start "c-new";
            inspect_container "c-new"; sync "c-new";
            save_state (set_vct_cid (Some "c-new")
                          (set_last_vct_id (Some "sha256:vct")
                             (set_vct_cid None remembering)));
            print "body"; stop "c-new"]);
    reflexivity.
Defined.

Lemma vct_container_reuse_records_image_witness :
  let st2 := set_vct_cid (Some "c-old") (set_last_vct_id None remembering) in
  Managers.vct_container "/vct" no_marker 100 inspect_up inspect_up ok ok
    create_ok built sync_ok save_ok Z quiet_body None None remembering =
    Some (Return 7, st2,
          [inspect_container "c-old"; start "c-old";
           inspect_container "c-old"; sync "c-old"; save_state st2;
           print "body"; stop "c-old"]) /\
  last_vct_id st2 = None /\ vct_cid st2 = Some "c-old".
Proof.
  apply (vct_container_reuse_records_image "/vct" no_marker 100 inspect_up
           inspect_up ok ok create_ok built sync_ok save_ok Z quiet_body
           None None remembering remembering "c-old" up up (Return 7)
           [print "body"]);
    reflexivity.
Defined.

End ManagersFacts.

(** ** The provisioning run *)

Module ProvisionFacts.

Import Managers ManagersSpec.

Local Open Scope nat_scope.

Lemma lastn_app {A} n (a b : list A) :
  lastn n (lastn n a ++ b) = lastn n (a ++ b).
Proof.
  unfold lastn.
  rewrite <- (drop_app_le a b (length a - n)) by lia.
  rewrite drop_drop. f_equal.
  rewrite length_drop, !length_app. lia.
Qed.

Lemma lastn_short {A} n (a : list A) : length a <= n -> lastn n a = a.
Proof. intros H. unfold lastn. by replace (length a - n) with O by lia. Qed.

Lemma length_lastn {A} n (a : list A) : length (lastn n a) = length a `min` n.
Proof. unfold lastn. rewrite length_drop. lia. Qed.

Lemma deque_append_lastn {A} n (acc : list A) x :
  0 < n ->
  deque_append n (lastn n acc) x = lastn n (acc ++ [x]).
Proof.
  intros Hn. unfold deque_append. rewrite length_lastn.
  destruct (n <=? length acc `min` n) eqn:E.
  - apply Nat.leb_le in E. unfold lastn. rewrite drop_drop.
    rewrite length_app. simpl.
    rewrite drop_app_le by lia. do 2 f_equal. lia.
  - apply Nat.leb_gt in E. rewrite !lastn_short; [done| |lia].
    rewrite length_app. simpl. lia.
Qed.

Section Env.

Variable start_result : string -> result unit.
Variable create_provisioner_result :
  string -> list string -> string -> result string.
Variable remove_result : string -> result unit.
Variable attach_result : nat -> list string * option exn.
Variable inspect_round : nat -> result inspected.
Variable commit_result : string -> string -> string -> result string.
Variable docker_images : list image.
Variable uuid1 : string.
Variable verbose : bool.
Variable repository : string.

Local Abbreviation feed_lines := (Managers.feed_lines verbose repository).
Local Abbreviation feed := (Managers.feed verbose repository).
Local Abbreviation attach_loop :=
  (Managers.attach_loop attach_result inspect_round verbose repository).
Local Abbreviation provision_block :=
  (Managers.provision_block start_result attach_result inspect_round
     commit_result docker_images uuid1 verbose repository).
Local Abbreviation create_container :=
  (Managers.create_container create_provisioner_result remove_result
     (string * string * string)).
Local Abbreviation lines_upto := (ManagersSpec.lines_upto attach_result).
Local Abbreviation stops_at :=
  (ManagersSpec.stops_at attach_result inspect_round).

Lemma feed_lines_spec lines acc :
  exists evs,
    feed_lines (lastn 20 acc) lines
      = (lastn 20 (acc ++ filter (fun line => line <> "") lines), evs) /\
    Forall (fun e => is_print e = true) evs.
Proof.
  revert acc. induction lines as [|line rest IH]; intros acc; simpl.
  - exists []. by rewrite app_nil_r.
  - case_bool_decide as Hl.
    + rewrite filter_cons_True by done.
      rewrite deque_append_lastn by lia.
      destruct (IH (acc ++ [line])%list) as (evs & -> & Hevs).
      rewrite <- app_assoc. simpl.
      eexists. split; [reflexivity|]. destruct verbose; [by constructor|done].
    + rewrite filter_cons_False by (intros H; by apply H). apply IH.
Qed.

Lemma feed_spec chunks acc :
  exists evs,
    feed (lastn 20 acc) chunks = (lastn 20 (acc ++ lines_of chunks), evs) /\
    Forall (fun e => is_print e = true) evs.
Proof.
  revert acc. induction chunks as [|s rest IH]; intros acc; simpl.
  - exists []. unfold lines_of. simpl. by rewrite app_nil_r.
  - destruct (feed_lines_spec (splitlines s) acc) as (ev1 & -> & H1).
    destruct (IH (acc ++ filter (fun line => line <> "") (splitlines s))%list)
      as (ev2 & -> & H2).
    exists (ev1 ++ ev2)%list. split; [|by apply Forall_app].
    unfold lines_of. simpl. by rewrite filter_app, app_assoc.
Qed.

Lemma print_polling evs :
  Forall (fun e => is_print e = true) evs ->
  Forall (fun e => polling e = true) evs /\ filter (fun e => is_attach e = true) evs = [].
Proof.
  induction 1 as [|e evs He _ [IH1 IH2]]; [done|].
  destruct e; try done. split; [by constructor|].
  by rewrite filter_cons_False.
Qed.

(** The loop ends at the first pass after which the container is
    reported stopped; it has then attached once per pass and kept the
    last twenty of the non-empty lines. *)
Lemma attach_loop_stops fuel cid st k : forall n acc,
  stops_at n k st ->
  k < fuel ->
  exists evs,
    attach_loop fuel n cid (lastn 20 acc)
      = Some (Return st, lastn 20 (acc ++ lines_upto n k), evs) /\
    Forall (fun e => polling e = true) evs /\
    length (filter (fun e => is_attach e = true) evs) = S k.
Proof.
  revert fuel. induction k as [|k IH]; intros fuel n acc Hs Hf;
    (destruct fuel as [|fuel]; [lia|]); simpl in *.
  - destruct Hs as (Ha & Hi & Hr).
    destruct (attach_result n) as [chunks err]. simpl in *. subst err.
    destruct (feed_spec chunks acc) as (evs & -> & Hp).
    apply print_polling in Hp as [Hp Hn].
    rewrite Hi, Hr. simpl. eexists. split; [reflexivity|]. split.
    + constructor; [done|]. apply Forall_app. split; [done|].
      by repeat constructor.
    + rewrite filter_cons_True by done. rewrite filter_app, Hn. done.
  - destruct Hs as (Ha & (i & Hi & Hr) & Hs).
    destruct (attach_result n) as [chunks err]. simpl in *. subst err.
    destruct (feed_spec chunks acc) as (evs & -> & Hp).
    apply print_polling in Hp as [Hp Hn].
    rewrite Hi, Hr. simpl.
    destruct (IH fuel (S n) (acc ++ lines_of chunks)%list Hs ltac:(lia))
      as (evs' & -> & Hp' & Hn').
    simpl. rewrite <- app_assoc. eexists. split; [reflexivity|]. split.
    + constructor; [done|]. apply Forall_app. split; [done|].
      constructor; [done|]. apply Forall_app. split; [|done].
      destruct verbose; by repeat constructor.
    + rewrite filter_cons_True by done. rewrite filter_app, Hn. simpl.
      rewrite filter_cons_False by done. rewrite filter_app.
      replace (filter _ (if verbose then _ else _)) with (@nil event)
        by by destruct verbose.
      simpl. by rewrite Hn'.
Qed.

(** X29.  When the playbook ends with a non-zero exit code, the run
    raises, no image is committed and the container is removed all the
    same.  What is printed as [ERROR] lines is the last twenty of the
    lines the loop collected: every chunk of every [attach] call, in
    order of receipt, split into lines on its own, the empty ones
    dropped.  A line the daemon replays at a later [attach] is collected
    again, and a line cut by a chunk boundary is collected as two. *)
Theorem provision_failure_reports_tail
    fuel image command volumes_from c k st :
  create_provisioner_result image command volumes_from = Return c ->
  start_result c = Return () ->
  stops_at 0 k st ->
  (ExitCode st <> 0)%Z ->
  k < fuel ->
  exists evs,
    Forall (fun e => polling e = true) evs /\
    create_container image command volumes_from (provision_block fuel) =
    Some (finally_
            (Raise (Exception ("Ansible did not run on " +:+ repository
                               +:+ " successfully")))
            (remove_result c),
          (create_provisioner image command volumes_from :: start c :: evs
             ++ map (fun line =>
                       print ("ERROR " +:+ repository +:+ "> " +:+ line))
                    (lastn 20 (lines_upto 0 k))
             ++ [remove_container c])%list).
Proof.
  intros Hc Hs Hst He Hf.
  destruct (attach_loop_stops fuel c st k 0 [] Hst Hf) as (evs & Hl & Hp & _).
  exists evs. split; [done|].
  unfold Managers.create_container, Managers.provision_block.
  rewrite Hc, Hs. change (@nil string) with (lastn 20 (@nil string)).
  rewrite Hl. simpl.
  destruct (ExitCode st =? 0)%Z eqn:E; [apply Z.eqb_eq in E; done|].
  simpl. by rewrite <- app_assoc.
Qed.

(** X30.  When the container stops after [k] further passes with exit
    code zero, the loop has attached [k + 1] times, one commit is
    requested under the repository name with the fresh uuid as tag, the
    container is removed, and the run returns the full id of the
    committed image with that name and tag. *)
Theorem provision_success_commits_once
    fuel image command volumes_from c k st iid :
  create_provisioner_result image command volumes_from = Return c ->
  start_result c = Return () ->
  stops_at 0 k st ->
  (ExitCode st = 0)%Z ->
  commit_result c repository uuid1 = Return iid ->
  k < fuel ->
  exists evs,
    Forall (fun e => polling e = true) evs /\
    length (filter (fun e => is_attach e = true) evs) = S k /\
    create_container image command volumes_from (provision_block fuel) =
    Some (finally_
            (Return (Prune.get_full_image docker_images iid, repository,
                     uuid1))
            (remove_result c),
          (create_provisioner image command volumes_from :: start c :: evs
             ++ [commit c repository uuid1; remove_container c])%list).
Proof.
  intros Hc Hs Hst He Hco Hf.
  destruct (attach_loop_stops fuel c st k 0 [] Hst Hf) as (evs & Hl & Hp & Hn).
  exists evs. split; [done|]. split; [done|].
  unfold Managers.create_container, Managers.provision_block.
  rewrite Hc, Hs. change (@nil string) with (lastn 20 (@nil string)).
  rewrite Hl. simpl. rewrite He, Hco. simpl.
  by rewrite <- app_assoc.
Qed.

End Env.

Import ManagersExamples.

Lemma provision_failure_reports_tail_witness :
  exists evs,
    Forall (fun e => polling e = true) evs /\
    Managers.create_container create_job ok (string * string * string)
      "sha256:start" ["/sync-and-build"; "docker-hgweb.yml"] "vct-1"
      (Managers.provision_block ok two_passes fails_second commit_ok listed
         "f81d4fae" false "hgweb" 5) =
    Some (finally_
            (Raise (Exception ("Ansible did not run on " +:+ "hgweb"
                               +:+ " successfully")))
            (ok "c-job"),
          (create_provisioner "sha256:start"
             ["/sync-and-build"; "docker-hgweb.yml"] "vct-1"
             :: start "c-job" :: evs
             ++ map (fun line => print ("ERROR " +:+ "hgweb" +:+ "> " +:+ line))
                    (lastn 20 (lines_upto two_passes 0 1))
             ++ [remove_container "c-job"])%list).
Proof.
  apply (provision_failure_reports_tail ok create_job ok two_passes
           fails_second commit_ok listed "f81d4fae" false "hgweb" 5
           "sha256:start" ["/sync-and-build"; "docker-hgweb.yml"] "vct-1"
           "c-job" 1 (down 2)).
  - reflexivity.
  - reflexivity.
  - simpl. repeat split; eauto.
  - discriminate.
  - lia.
Defined.

Lemma provision_success_commits_once_witness :
  exists evs,
    Forall (fun e => polling e = true) evs /\
    length (filter (fun e => is_attach e = true) evs) = 2 /\
    Managers.create_container create_job ok (string * string * string)
      "sha256:start" ["/sync-and-build"; "docker-hgweb.yml"] "vct-1"
      (Managers.provision_block ok two_passes succeeds_second commit_ok
         listed "f81d4fae" false "hgweb" 5) =
    Some (finally_
            (Return (Prune.get_full_image listed "0123456789ab", "hgweb",
                     "f81d4fae"))
            (ok "c-job"),
          (create_provisioner "sha256:start"
             ["/sync-and-build"; "docker-hgweb.yml"] "vct-1"
             :: start "c-job" :: evs
             ++ [commit "c-job" "hgweb" "f81d4fae";
                 remove_container "c-job"])%list).
Proof.
  apply (provision_success_commits_once ok create_job ok two_passes
           succeeds_second commit_ok listed "f81d4fae" false "hgweb" 5
           "sha256:start" ["/sync-and-build"; "docker-hgweb.yml"] "vct-1"
           "c-job" 1 (down 0) "0123456789ab").
  - reflexivity.
  - reflexivity.
  - simpl. repeat split; eauto.
  - reflexivity.
  - reflexivity.
  - lia.
Defined.

(** Of twenty-two lines, the first two are not reported. *)
Example provision_failure_example :
  Managers.create_container create_job ok (string * string * string)
    "sha256:start" ["/sync-and-build"; "docker-hgweb.yml"] "vct-1"
    (Managers.provision_block ok two_passes fails_second commit_ok listed
       "f81d4fae" false "hgweb" 5) =
  Some (Raise (Exception "Ansible did not run on hgweb successfully"),
        ([create_provisioner "sha256:start"
            ["/sync-and-build"; "docker-hgweb.yml"] "vct-1";
          start "c-job"; attach "c-job"; inspect_container "c-job";
          attach "c-job"; inspect_container "c-job"]
         ++ map (fun line => print ("ERROR hgweb> " +:+ line))
              ["l03"; "l04"; "l05"; "l06"; "l07"; "l08"; "l09"; "l10";
               "l11"; "l12"; "l13"; "l14"; "l15"; "l16"; "l17"; "l18";
               "l19"; "l20"; "l21"; "l22"]
         ++ [remove_container "c-job"])%list).
Proof. vm_compute. reflexivity. Qed.

Example splitlines_examples :
  splitlines ("a" +:+ String "013" (String "010" "b") +:+ nl +:+ nl +:+ "c")
    = ["a"; "b"; ""; "c"] /\
  splitlines "" = [] /\
  splitlines nl = [""] /\
  splitlines ("a" +:+ nl) = ["a"] /\
  splitlines (String "a" (String "013" "b")) = ["a"; "b"].
Proof. vm_compute. repeat split. Qed.

End ProvisionFacts.

(** ** The state file and the mutations of the state *)

Module StateRewriteFacts.
Import StateFile.

Section Env.

Variable flushed : string -> nat.
Variable iterencode : state -> list string.

Variable ROOT : string.
Variable getmtime : string -> result Q.
Variable now : Q.
Variable inspect_existing : string -> result Managers.inspected.
Variable inspect_started : string -> result Managers.inspected.
Variable start_result : string -> result unit.
Variable stop_result : string -> result unit.
Variable create_result : string -> result string.
Variable ensure_built_vct_result : result string.
Variable sync_result : string -> Managers.inspected -> result unit.
Variable save_result : state -> result unit.
Variable A : Type.
Variable body :
  Managers.inspected -> option (result A * list Managers.event).

Local Abbreviation vct_container :=
  (Managers.vct_container ROOT getmtime now inspect_existing inspect_started
     start_result stop_result create_result ensure_built_vct_result
     sync_result save_result A body).

(** The state once [clobber_needed('vct')] has answered [True]. *)
Local Abbreviation marked st :=
  (set_clobber <[Clobber.clobber_key "vct" := Some (Clobber.py_int now)]> st).

(** Around a running container of the caller's, [vct_container] records
    a touched marker and only inspects the container. *)
Lemma vct_container_marks_unsaved cid image i m r evs st :
  Str.truthy cid = true ->
  getmtime (Clobber.clobber_path ROOT "vct") = Return m ->
  Clobber.newer "vct" st m ->
  inspect_existing cid = Return i ->
  Managers.Running i = true ->
  body i = Some (r, evs) ->
  vct_container image (Some cid) st =
    Some (r, marked st, Managers.inspect_container cid :: evs).
Proof.
  intros Hcid Hm Hnew Hi Hrun Hbody. unfold Managers.vct_container.
  destruct (ClobberFacts.clobber_needed_unfold ROOT getmtime "vct" now st m
              Hm) as [[_ ->]|[Hn _]]; [|done].
  cbn [Managers.truthy]. rewrite Hcid. cbn [negb andb]. cbv beta iota zeta.
  unfold Managers.enter. cbn [Managers.truthy default]. rewrite Hcid.
  unfold id. rewrite Hi, Hrun. cbn [negb]. by rewrite Hbody.
Qed.

Lemma marked_changes st :
  Clobber.oldmtime "vct" st <> Some (Clobber.py_int now) -> marked st <> st.
Proof.
  intros Hold Heq. apply Hold. unfold Clobber.oldmtime.
  rewrite <- Heq at 1. destruct st. simpl. by rewrite lookup_insert_eq.
Qed.

(** C7 (amended).  [save_state] rewrites the whole document in place,
    and not every mutation of the state is followed by it.

    Whatever the file held and however the file object buffers, the file
    holds the full serialization of the state, and nothing is left in the
    buffer, when [save_state] completes.  The rewrite is not atomic: the
    file is truncated when it is opened, so a process stopped right after
    the [open] leaves an empty file, and stopped at any later point it
    leaves a prefix of the new document; the previous document is lost as
    soon as the [open] has happened.

    [vct_container] called around a running container of the caller's,
    when the [vct] clobber marker is newer than what the state remembers,
    changes the state, the entry [clobber-vct] becomes the whole second
    of the call, and requests nothing but the inspection of that
    container before the body runs: the mutation is followed by no
    [save_state] of its own. *)
Theorem save_state_rewrites_in_place (st : state) (content : string) :
  run flushed (save_state iterencode st) (File content "") =
    File (dumps iterencode st) "" /\
  crash_after flushed iterencode 0 st content = content /\
  crash_after flushed iterencode 1 st content = "" /\
  (forall k, (0 < k)%nat ->
     exists rest,
       dumps iterencode st =
       crash_after flushed iterencode k st content +:+ rest) /\
  (forall cid image i m r evs,
     Str.truthy cid = true ->
     getmtime (Clobber.clobber_path ROOT "vct") = Return m ->
     Clobber.newer "vct" st m ->
     inspect_existing cid = Return i ->
     Managers.Running i = true ->
     body i = Some (r, evs) ->
     vct_container image (Some cid) st =
       Some (r, marked st, Managers.inspect_container cid :: evs) /\
     (Clobber.oldmtime "vct" st <> Some (Clobber.py_int now) ->
      marked st <> st)).
Proof.
  split_and!.
  - unfold save_state.
    change (open_wb :: ?l)%list with ([open_wb] ++ l)%list.
    rewrite !StateFileFacts.run_app.
    change (run flushed [open_wb] _) with (File "" "").
    pose proof (StateFileFacts.run_writes flushed (iterencode st)
                  (File "" "")) as Hw.
    cbv zeta in Hw. cbn [disk buffer] in Hw.
    change ("" +:+ "" +:+ ?x) with x in Hw.
    cbn [run foldl apply]. by rewrite Hw.
  - done.
  - destruct (StateFileFacts.crash_after_chunks flushed iterencode 0 st
                content) as [buffered H].
    cbn [take foldr] in H.
    by destruct (crash_after flushed iterencode 1 st content).
  - intros [|k] Hk; [lia|].
    destruct (StateFileFacts.crash_after_chunks flushed iterencode k st
                content) as [buffered H].
    exists (buffered +:+ foldr String.append "" (drop k (iterencode st))).
    unfold dumps.
    rewrite <- StateFileFacts.append_assoc, H,
      <- StateFileFacts.concat_app.
    by rewrite take_drop.
  - intros cid image i m r evs Hcid Hm Hnew Hi Hrun Hbody.
    split; [by eapply vct_container_marks_unsaved|apply marked_changes].
Qed.

End Env.

Import ManagersExamples.

Lemma save_state_rewrites_in_place_witness :
  (exists rest,
     dumps brace_encoder pulse_state =
     crash_after (block 4096) brace_encoder 2 pulse_state
       (dumps brace_encoder initial_state) +:+ rest) /\
  Managers.vct_container "/vct" new_marker 1000 inspect_up inspect_up ok ok
    create_ok built sync_ok save_ok Z quiet_body None (Some "c-user")
    pulse_state =
  Some (Return 7,
        set_clobber <[Clobber.clobber_key "vct" := Some 1000]> pulse_state,
        [Managers.inspect_container "c-user"; Managers.print "body"]).
Proof.
  destruct (save_state_rewrites_in_place (block 4096) brace_encoder "/vct"
              new_marker 1000 inspect_up inspect_up ok ok create_ok built
              sync_ok save_ok Z quiet_body pulse_state
              (dumps brace_encoder initial_state))
    as (_ & _ & _ & Hk & Hv).
  split.
  - apply Hk. lia.
  - apply (Hv "c-user" None up (200 # 1)%Q (Return 7)
             [Managers.print "body"]); reflexivity.
Defined.

(** C7 as stated fails twice.  The rewrite is not atomic: a process
    stopped right after the file is opened leaves it empty, which is
    neither the previous document nor the new one; with a buffer of 4096
    characters the file is still empty after every chunk is written and
    before it is closed, and without a buffer it holds a single brace
    after the first chunk.  And a mutation is not always followed by a
    rewrite: [vct_container] around the caller's container changes the
    state and no [save_state] is among its requests. *)
Lemma save_state_not_atomic :
  let old := dumps brace_encoder initial_state in
  let new := dumps brace_encoder pulse_state in
  (old = "{}" /\ new = "{pulse: sha256:ddd,}" /\
   crash_after (block 4096) brace_encoder 1 pulse_state old = "" /\
   crash_after unbuffered brace_encoder 1 pulse_state old = "" /\
   crash_after (block 4096) brace_encoder 4 pulse_state old = "" /\
   crash_after unbuffered brace_encoder 2 pulse_state old = "{" /\
   "" <> old /\ "" <> new /\ "{" <> old /\ "{" <> new) /\
  (exists st' evs,
     Managers.vct_container "/vct" new_marker 1000 inspect_up inspect_up ok
       ok create_ok built sync_ok save_ok Z quiet_body None (Some "c-user")
       pulse_state = Some (Return 7, st', evs) /\
     st' <> pulse_state /\
     forall st'', Managers.save_state st'' ∉ evs).
Proof.
  split.
  - vm_compute. split_and!; done.
  - eexists _, _. split; [reflexivity|]. split.
    + intros H. apply (f_equal clobber) in H. vm_compute in H.
      discriminate H.
    + intros st'' H. repeat (apply elem_of_cons in H as [H|H]; [done|]).
      by apply not_elem_of_nil in H.
Qed.

End StateRewriteFacts.
